(** * Customer-support chat backend

    A shallow embedding of the storage adapters ([database.py]), the prompt
    assembly and the request flow of the two chat applications
    ([agents-postgresql/app.py], [agents-sql/app.py]).

    Layout:
    - Python values: strings, [str(int)], [:.2f], [datetime.strftime];
    - the relational store and the SQL statements the code sends to it;
    - the world the code runs in (storage, connections, driver faults,
      model calls, standard output) and a state-and-exception monad over it;
    - the adapters, the factory, the two applications;
    - the properties. *)

From Stdlib Require Import ZArith List String Ascii Bool Lia Permutation Sorted DecimalString.
Import ListNotations.
Local Open Scope string_scope.
Local Open Scope Z_scope.

(* ================================================================= *)
(** ** Python values *)

(** [chr(10)] *)
Definition nl : string := String (ascii_of_nat 10) EmptyString.

(** [str(n)] for a Python [int]. *)
Definition str_int (z : Z) : string := NilZero.string_of_int (Z.to_int z).

(** [%02d]-style field of [strftime]. *)
Definition pad2 (z : Z) : string :=
  if z <? 10 then "0" ++ str_int z else str_int z.

(** [%Y] of [strftime], four digits. *)
Definition pad4 (z : Z) : string :=
  if z <? 10 then "000" ++ str_int z
  else if z <? 100 then "00" ++ str_int z
  else if z <? 1000 then "0" ++ str_int z
  else str_int z.

(** Monetary amounts ([total_amount], [SUM(total_amount)]) are decimals with
    two fractional digits; they are carried as a count of hundredths.  The
    code converts them with [float(...)] only to print them with [:.2f],
    which gives back the two-digit decimal. *)
Definition money := Z.

(** [f"{m:.2f}"] *)
Definition format_2f (m : money) : string :=
  (if m <? 0 then "-" else EmptyString)
    ++ str_int (Z.abs m / 100) ++ "." ++ pad2 (Z.abs m mod 100).

(** [sep.join(parts)] *)
Definition join (sep : string) (parts : list string) : string :=
  String.concat sep parts.

(** [s.lower()] on the ASCII range: A..Z go to a..z, every other character
    is kept.  No character outside A..Z lower-cases to a letter of one of the
    recognised backend identifiers. *)
Definition lower_ascii (c : ascii) : ascii :=
  let n := nat_of_ascii c in
  if (Nat.leb 65 n && Nat.leb n 90)%bool then ascii_of_nat (n + 32) else c.

Fixpoint lower (s : string) : string :=
  match s with
  | EmptyString => EmptyString
  | String c s' => String (lower_ascii c) (lower s')
  end.

(** [needle in haystack] *)
Fixpoint contains (haystack needle : string) : bool :=
  (String.prefix needle haystack
   || match haystack with
      | EmptyString => false
      | String _ rest => contains rest needle
      end)%bool.

(** [datetime.datetime], as the drivers hand timestamps and dates over. *)
Record datetime := mk_datetime {
  year : Z; month : Z; day : Z;
  hour : Z; minute : Z; second : Z; microsecond : Z
}.

(** The position of an instant on the time line: the store orders timestamps
    by it.  For calendar fields in range it is strictly monotone in the
    lexicographic order of the fields. *)
Definition instant (d : datetime) : Z :=
  (((((year d * 12 + (month d - 1)) * 31 + (day d - 1)) * 24 + hour d) * 60
     + minute d) * 60 + second d) * 1000000 + microsecond d.

(** [d.strftime("%Y-%m-%d %H:%M:%S")] *)
Definition strftime_datetime (d : datetime) : string :=
  pad4 (year d) ++ "-" ++ pad2 (month d) ++ "-" ++ pad2 (day d) ++ " "
    ++ pad2 (hour d) ++ ":" ++ pad2 (minute d) ++ ":" ++ pad2 (second d).

(** [d.strftime("%Y-%m-%d")] *)
Definition strftime_date (d : datetime) : string :=
  pad4 (year d) ++ "-" ++ pad2 (month d) ++ "-" ++ pad2 (day d).

Definition datetime_eqb (a b : datetime) : bool :=
  ((year a =? year b) && (month a =? month b) && (day a =? day b)
   && (hour a =? hour b) && (minute a =? minute b) && (second a =? second b)
   && (microsecond a =? microsecond b))%bool.

(** Exceptions the code raises or lets through.  [DriverError] stands for
    the errors of psycopg2 and pyodbc, [OpenAIError] for those of the model
    client. *)
Inductive PyException :=
| ValueError (msg : string)
| NotImplementedError (msg : string)
| AttributeError (msg : string)
| KeyError (msg : string)
| DriverError (msg : string)
| OpenAIError (msg : string).

(** [str(e)] *)
Definition str_exc (e : PyException) : string :=
  match e with
  | ValueError m | NotImplementedError m | AttributeError m | KeyError m
  | DriverError m | OpenAIError m => m
  end.

(* ================================================================= *)
(** ** The relational store *)

Record Customer := mk_customer {
  c_customer_id : Z;
  first_name : string; last_name : string;
  c_email : string; c_phone : string
}.

Record Order := mk_order {
  o_order_id : Z; o_customer_id : Z;
  order_date : datetime; total_amount : money; o_status : string
}.

Record OrderItem := mk_order_item { oi_order_id : Z; oi_product_id : Z }.

Record Product := mk_product { p_product_id : Z; product_name : string }.

Record ConversationRow := mk_conversation {
  ch_id : Z; ch_customer_id : Z;
  ch_user_message : string; ch_ai_response : string;
  ch_timestamp : datetime
}.

(** The tables ([t_] before the table's name), the identity sequence of
    [conversation_history], the server clock that stamps inserted rows, and
    the engine's choice where a statement leaves one.  A table is the list
    of its rows in physical order.

    [aggregate_rank]: the statements give [STRING_AGG] no [ORDER BY], so the
    order in which the joined rows of a group reach the aggregate is the
    engine's.  It feeds them by descending rank, rows of equal rank in the
    order of the join; every order of the rows of a group is the one some
    rank gives. *)
Record Database := mk_database {
  t_customers : list Customer;
  t_orders : list Order;
  t_order_items : list OrderItem;
  t_products : list Product;
  t_conversation_history : list ConversationRow;
  next_id : Z;
  now : datetime;
  aggregate_rank : OrderItem -> Product -> Z
}.

(* ----------------------------------------------------------------- *)
(** *** Relational operators *)

Section Relational.
Context {A K : Type}.

(** [ORDER BY key DESC]: a row is placed before the first row whose key is
    not larger.  Rows with equal keys keep their relative order; which
    order the engine gives them is not fixed by the statement, and every
    such order is the result for some physical order of the table. *)
Fixpoint insert_desc (key : A -> Z) (x : A) (l : list A) : list A :=
  match l with
  | [] => [x]
  | y :: l' => if key y <=? key x then x :: l else y :: insert_desc key x l'
  end.

Definition order_by_desc (key : A -> Z) (l : list A) : list A :=
  fold_right (insert_desc key) [] l.

(** [GROUP BY key]: groups in order of first appearance, each with its rows
    in order. *)
Fixpoint group_insert (eqb : K -> K -> bool) (k : K) (x : A)
         (gs : list (K * list A)) : list (K * list A) :=
  match gs with
  | [] => [(k, [x])]
  | (k', xs) :: gs' =>
      if eqb k k' then (k', (xs ++ [x])%list) :: gs'
      else (k', xs) :: group_insert eqb k x gs'
  end.

Definition group_by (eqb : K -> K -> bool) (key : A -> K) (l : list A)
  : list (K * list A) :=
  fold_left (fun gs x => group_insert eqb (key x) x gs) l [].
End Relational.

(** [LIMIT n] / [TOP (n)] for a non-negative [n]. *)
Definition limit_rows {A} (n : Z) (l : list A) : list A := firstn (Z.to_nat n) l.

(** [cursor.fetchone()] *)
Definition fetchone {A} (rows : list A) : option A := hd_error rows.

(* ----------------------------------------------------------------- *)
(** *** The statements *)

(** [SELECT user_message, ai_response, timestamp FROM conversation_history
     WHERE customer_id = %s ORDER BY timestamp DESC LIMIT %s]
    and its [TOP (?)] form. *)
Definition history_of (db : Database) (customer_id : Z) : list ConversationRow :=
  filter (fun r => ch_customer_id r =? customer_id) (t_conversation_history db).

Definition select_history (db : Database) (customer_id limit : Z)
  : list ConversationRow :=
  limit_rows limit
    (order_by_desc (fun r => instant (ch_timestamp r)) (history_of db customer_id)).

(** [customers c LEFT JOIN orders o ON c.customer_id = o.customer_id]:
    a customer without orders is kept once, with the order columns NULL. *)
Definition left_join_orders (db : Database) (c : Customer)
  : list (Customer * option Order) :=
  match filter (fun o => o_customer_id o =? c_customer_id c) (t_orders db) with
  | [] => [(c, None)]
  | os => map (fun o => (c, Some o)) os
  end.

Definition customer_key := (Z * string * string * string * string)%type.

Definition customer_key_of (c : Customer) : customer_key :=
  (c_customer_id c, first_name c, last_name c, c_email c, c_phone c).

Definition customer_key_eqb (a b : customer_key) : bool :=
  let '(i, f, l, e, p) := a in
  let '(i', f', l', e', p') := b in
  ((i =? i') && String.eqb f f' && String.eqb l l' && String.eqb e e'
   && String.eqb p p')%bool.

(** [COUNT(o.order_id)]: the rows whose order columns are not NULL. *)
Definition count_orders (rows : list (Customer * option Order)) : Z :=
  Z.of_nat (List.length (filter (fun r => match snd r with Some _ => true | None => false end) rows)).

(** [SUM(o.total_amount)]: NULL when no row has an amount. *)
Definition sum_amounts (rows : list (Customer * option Order)) : option money :=
  fold_left
    (fun acc r =>
       match snd r with
       | None => acc
       | Some o => Some (match acc with None => 0 | Some s => s end + total_amount o)
       end)
    rows None.

(** A row of the aggregate statement; the type of the sum column depends on
    the dialect ([COALESCE]d or nullable). *)
Record AggregateRow (S : Type) := mk_aggregate {
  agg_first_name : string; agg_last_name : string;
  agg_email : string; agg_phone : string;
  agg_total_orders : Z; agg_total_spent : S
}.
Arguments mk_aggregate {S}.
Arguments agg_first_name {S}.
Arguments agg_last_name {S}.
Arguments agg_email {S}.
Arguments agg_phone {S}.
Arguments agg_total_orders {S}.
Arguments agg_total_spent {S}.

(** The joined, filtered and grouped rows shared by both dialects:
    [FROM customers c LEFT JOIN orders o ... WHERE c.customer_id = ?
     GROUP BY c.customer_id, c.first_name, c.last_name, c.email, c.phone]. *)
Definition customer_groups (db : Database) (customer_id : Z)
  : list (customer_key * list (Customer * option Order)) :=
  group_by customer_key_eqb (fun r => customer_key_of (fst r))
    (filter (fun r => c_customer_id (fst r) =? customer_id)
       (flat_map (left_join_orders db) (t_customers db))).

(** T-SQL: [SELECT ..., COUNT(o.OrderID), SUM(o.TotalAmount)] *)
Definition select_customer_sum (db : Database) (customer_id : Z)
  : list (AggregateRow (option money)) :=
  map (fun g =>
         let '(_, f, l, e, p) := fst g in
         mk_aggregate f l e p (count_orders (snd g)) (sum_amounts (snd g)))
      (customer_groups db customer_id).

(** [COALESCE(x, 0)] *)
Definition coalesce0 (x : option money) : money :=
  match x with Some v => v | None => 0 end.

(** PostgreSQL: [SELECT ..., COUNT(o.order_id), COALESCE(SUM(o.total_amount), 0)] *)
Definition select_customer_coalesce (db : Database) (customer_id : Z)
  : list (AggregateRow money) :=
  map (fun g =>
         let '(_, f, l, e, p) := fst g in
         mk_aggregate f l e p (count_orders (snd g)) (coalesce0 (sum_amounts (snd g))))
      (customer_groups db customer_id).

(** [orders o JOIN order_items oi ON o.order_id = oi.order_id
              JOIN products p ON oi.product_id = p.product_id]:
    the rows one order contributes. *)
Definition rows_of_order (db : Database) (o : Order)
  : list (Order * OrderItem * Product) :=
  flat_map
    (fun oi =>
       if o_order_id o =? oi_order_id oi then
         flat_map
           (fun p => if oi_product_id oi =? p_product_id p then [(o, oi, p)] else [])
           (t_products db)
       else [])
    (t_order_items db).

Definition order_key := (Z * datetime * money * string)%type.

Definition order_key_of (o : Order) : order_key :=
  (o_order_id o, order_date o, total_amount o, o_status o).

Definition order_key_eqb (a b : order_key) : bool :=
  let '(i, d, t, s) := a in
  let '(i', d', t', s') := b in
  ((i =? i') && datetime_eqb d d' && (t =? t') && String.eqb s s')%bool.

(** A row of the detail statement. *)
Record OrderRow := mk_order_row {
  row_order_id : Z; row_order_date : datetime;
  row_total_amount : money; row_status : string;
  row_products : string
}.

(** [STRING_AGG(p.product_name, ', ')] over the rows of a group, with no
    [ORDER BY] inside the aggregate: the names are joined in the order in
    which the engine feeds the rows. *)
Definition fed_rows (rank : OrderItem -> Product -> Z)
           (rows : list (Order * OrderItem * Product))
  : list (Order * OrderItem * Product) :=
  order_by_desc (fun r => rank (snd (fst r)) (snd r)) rows.

Definition string_agg (rank : OrderItem -> Product -> Z)
           (rows : list (Order * OrderItem * Product)) : string :=
  join ", " (map (fun r => product_name (snd r)) (fed_rows rank rows)).

(** [SELECT o.order_id, o.order_date, o.total_amount, o.status,
            STRING_AGG(p.product_name, ', ')
     FROM orders o JOIN order_items oi ... JOIN products p ...
     WHERE o.customer_id = ?
     GROUP BY o.order_id, o.order_date, o.total_amount, o.status
     ORDER BY o.order_date DESC LIMIT 5]
    and its [TOP 5] form. *)
Definition select_recent_orders (db : Database) (customer_id : Z) : list OrderRow :=
  limit_rows 5
    (order_by_desc (fun r => instant (row_order_date r))
       (map (fun g =>
               let '(i, d, t, s) := fst g in
               mk_order_row i d t s (string_agg (aggregate_rank db) (snd g)))
            (group_by order_key_eqb (fun r => order_key_of (fst (fst r)))
               (filter (fun r => o_customer_id (fst (fst r)) =? customer_id)
                  (flat_map (rows_of_order db) (t_orders db)))))).

(** [INSERT INTO conversation_history (customer_id, user_message, ai_response)
     VALUES (...)]: the row gets the next identity value and the server's
    current time. *)
Definition inserted_row (db : Database) (customer_id : Z) (um ar : string)
  : ConversationRow :=
  mk_conversation (next_id db) customer_id um ar (now db).

Definition insert_conversation (db : Database) (customer_id : Z) (um ar : string)
  : Database :=
  mk_database (t_customers db) (t_orders db) (t_order_items db) (t_products db)
    (t_conversation_history db ++ [inserted_row db customer_id um ar])%list
    (next_id db + 1) (now db) (aggregate_rank db).

(** [SELECT customer_id, first_name, last_name, email FROM customers], the
    rows in the order the engine scans the table. *)
Definition select_customers (db : Database) : list (Z * string * string * string) :=
  map (fun c => (c_customer_id c, first_name c, last_name c, c_email c))
    (t_customers db).

(* ================================================================= *)
(** ** The records the repository hands out *)

(** One element of the list [get_conversation_history] returns: the dict
    with keys [user], [assistant], [timestamp]. *)
Record Turn := mk_turn {
  turn_user : string; turn_assistant : string; turn_timestamp : string
}.

(** One element of [recent_orders]. *)
Record OrderSummary := mk_order_summary {
  order_id : Z; date : string; amount : money; status : string;
  products : string
}.

(** The dict [get_customer_context] returns. *)
Record CustomerContext := mk_context {
  name : string; email : string; phone : string;
  total_orders : Z; total_spent : money;
  recent_orders : list OrderSummary
}.

(** A chat message, [{"role": ..., "content": ...}]. *)
Record Message := mk_message { role : string; content : string }.

(** What a store operation hands back to its caller. *)
Inductive PyReturn := PyNone | PyInt (n : Z).

(* ================================================================= *)
(** ** The world and the monad of effects *)

(** [storage]: the database behind the connection string.
    [open_connections]: connections opened and not yet closed.
    [connect_attempts]: the connection strings handed to the driver so far.
    [faults]: what the driver does at its next calls ([connect], [execute]),
    in order: [Some msg] makes that call raise with text [msg], [None] lets
    it go through; past the end of the list every call goes through.
    [model_calls]: the message lists sent to the model so far.
    [stdout]: the lines printed so far. *)
Record World := mk_world {
  storage : Database;
  open_connections : nat;
  connect_attempts : list string;
  faults : list (option string);
  model_calls : list (list Message);
  stdout : list string
}.

Inductive Outcome (A : Type) :=
| Return (a : A)
| Raise (e : PyException).
Arguments Return {A}.
Arguments Raise {A}.

Definition M (A : Type) : Type := World -> Outcome A * World.

Definition ret {A} (a : A) : M A := fun w => (Return a, w).

Definition raise {A} (e : PyException) : M A := fun w => (Raise e, w).

Definition bind {A B} (c : M A) (k : A -> M B) : M B :=
  fun w =>
    match c w with
    | (Return a, w') => k a w'
    | (Raise e, w') => (Raise e, w')
    end.

Notation "x <- c ;; k" := (bind c (fun x => k))
  (at level 61, c at next level, right associativity).
Notation "c ;; k" := (bind c (fun _ => k))
  (at level 61, right associativity).

(** [try: body  except Exception as e: handler(e)] *)
Definition try_except {A} (body : M A) (handler : PyException -> M A) : M A :=
  fun w =>
    match body w with
    | (Return a, w') => (Return a, w')
    | (Raise e, w') => handler e w'
    end.

Definition print (line : string) : M unit :=
  fun w =>
    (Return tt,
     mk_world (storage w) (open_connections w) (connect_attempts w) (faults w)
       (model_calls w) (stdout w ++ [line])%list).

(** A call into the driver: it raises when the next fault says so. *)
Definition driver_call : M unit :=
  fun w =>
    match faults w with
    | [] => (Return tt, w)
    | f :: rest =>
        let w' := mk_world (storage w) (open_connections w) (connect_attempts w)
                    rest (model_calls w) (stdout w) in
        match f with
        | None => (Return tt, w')
        | Some msg => (Raise (DriverError msg), w')
        end
    end.

(** [psycopg2.connect(cs)], [pyodbc.connect(cs)] *)
Definition connect (cs : string) : M unit :=
  (fun w =>
     (Return tt,
      mk_world (storage w) (open_connections w) (connect_attempts w ++ [cs])%list
        (faults w) (model_calls w) (stdout w))) ;;
  driver_call ;;
  fun w =>
    (Return tt,
     mk_world (storage w) (S (open_connections w)) (connect_attempts w)
       (faults w) (model_calls w) (stdout w)).

(** [conn.close()] *)
Definition close : M unit :=
  fun w =>
    (Return tt,
     mk_world (storage w) (Nat.pred (open_connections w)) (connect_attempts w)
       (faults w) (model_calls w) (stdout w)).

(** [conn.commit()].  The statement and its commit are one step here: a
    fault strikes [execute] before the row is written, or not at all. *)
Definition commit : M unit := ret tt.

(** [cursor.execute(query)] followed by the fetch, for a SELECT. *)
Definition execute_select {A} (query : Database -> A) : M A :=
  driver_call ;; fun w => (Return (query (storage w)), w).

(** The history statement: the engine rejects a negative row count. *)
Definition execute_history (rejection : string) (customer_id limit : Z)
  : M (list ConversationRow) :=
  driver_call ;;
  if limit <? 0 then raise (DriverError rejection)
  else fun w => (Return (select_history (storage w) customer_id limit), w).

(** The INSERT; the result is the generated identifier, for the statements
    that ask for it ([RETURNING id], [OUTPUT INSERTED.ID]). *)
Definition execute_insert (customer_id : Z) (user_message ai_response : string)
  : M Z :=
  driver_call ;;
  fun w =>
    (Return (next_id (storage w)),
     mk_world (insert_conversation (storage w) customer_id user_message ai_response)
       (open_connections w) (connect_attempts w) (faults w)
       (model_calls w) (stdout w)).

(** [with connect(cs) as conn: body].  The context manager of a pyodbc or
    psycopg2 connection ends the transaction when the block is left, with a
    commit on the normal path and a rollback on an exception; it does not
    close the connection, and no block of this program calls [conn.close()].
    Nothing is pending when a block is left: the reads write nothing, and
    the writes are committed inside the block, the statement and its commit
    being one step.  So leaving the block changes nothing, and the
    connection the block opened stays open on every path. *)
Definition with_connection {A} (cs : string) (body : M A) : M A :=
  connect cs ;; body.

(* ----------------------------------------------------------------- *)
(** *** Rows to dicts *)

Definition turn_of_row (row : ConversationRow) : Turn :=
  mk_turn (ch_user_message row) (ch_ai_response row)
    (strftime_datetime (ch_timestamp row)).

Definition summary_of_row (order : OrderRow) : OrderSummary :=
  mk_order_summary (row_order_id order) (strftime_date (row_order_date order))
    (row_total_amount order) (row_status order) (row_products order).

(** [float(x) if x else 0]: NULL and a zero sum both give 0. *)
Definition float_or_zero (x : option money) : money :=
  match x with
  | None => 0
  | Some v => if v =? 0 then 0 else v
  end.

(** The dict built from the aggregate row [customer] and the detail rows
    [orders]; [spent] is what the adapter does with the sum column
    ([float(customer[5])], or [float(customer[5]) if customer[5] else 0]). *)
Definition context_of_rows {S} (spent : S -> money) (customer : AggregateRow S)
           (orders : list OrderRow) : CustomerContext :=
  mk_context
    (agg_first_name customer ++ " " ++ agg_last_name customer)
    (agg_email customer)
    (agg_phone customer)
    (agg_total_orders customer)
    (spent (agg_total_spent customer))
    (map summary_of_row orders).

(** [reversed(rows)] *)
Definition reversed {A} (rows : list A) : list A := rev rows.

(* ================================================================= *)
(** ** database.py *)

Module PostgreSQLAdapter.

Definition store_conversation (connection_string : string)
           (customer_id : Z) (user_message ai_response : string) : M PyReturn :=
  try_except
    (connect connection_string ;;
     conversation_id <- execute_insert customer_id user_message ai_response ;;
     commit ;;
     close ;;
     ret (PyInt conversation_id))
    (fun e =>
       print ("PostgreSQL Error storing conversation: " ++ str_exc e) ;;
       raise e).

Definition get_conversation_history (connection_string : string)
           (customer_id limit : Z) : M (list Turn) :=
  try_except
    (connect connection_string ;;
     rows <- execute_history "LIMIT must not be negative" customer_id limit ;;
     close ;;
     ret (map turn_of_row (reversed rows)))
    (fun e =>
       print ("PostgreSQL Error retrieving history: " ++ str_exc e) ;;
       raise e).

Definition get_customer_context (connection_string : string)
           (customer_id : Z) : M (option CustomerContext) :=
  try_except
    (connect connection_string ;;
     customer <- execute_select
                   (fun db => fetchone (select_customer_coalesce db customer_id)) ;;
     match customer with
     | None => close ;; ret None
     | Some customer =>
         orders <- execute_select (fun db => select_recent_orders db customer_id) ;;
         close ;;
         ret (Some (context_of_rows (fun total => total) customer orders))
     end)
    (fun e =>
       print ("PostgreSQL Error retrieving customer context: " ++ str_exc e) ;;
       raise e).

End PostgreSQLAdapter.

(** The body of [_fetch_context], shared word for word by
    [SQLDatabaseAdapter.get_customer_context] and the [get_customer_context]
    of agents-sql/app.py. *)
Definition tsql_fetch_context (connection_string : string) (customer_id : Z)
  : M (option CustomerContext) :=
  with_connection connection_string
    (customer <- execute_select
                   (fun db => fetchone (select_customer_sum db customer_id)) ;;
     match customer with
     | None => ret None
     | Some customer =>
         orders <- execute_select (fun db => select_recent_orders db customer_id) ;;
         ret (Some (context_of_rows float_or_zero customer orders))
     end).

(** The body of [_fetch], shared likewise. *)
Definition tsql_fetch_history (connection_string : string) (customer_id limit : Z)
  : M (list Turn) :=
  rows <- with_connection connection_string
            (execute_history "A TOP or FETCH clause contains an invalid value."
               customer_id limit) ;;
  ret (map turn_of_row (reversed rows)).

Module SQLDatabaseAdapter.

(** [asyncio.to_thread(f)] then [await]: the call of [f]. *)
Definition store_conversation (connection_string : string)
           (customer_id : Z) (user_message ai_response : string) : M PyReturn :=
  with_connection connection_string
    (row <- execute_insert customer_id user_message ai_response ;;
     commit ;;
     ret (PyInt row)).

Definition get_conversation_history := tsql_fetch_history.

Definition get_customer_context := tsql_fetch_context.

End SQLDatabaseAdapter.

Module CosmosDBAdapter.

Definition store_conversation (customer_id : Z) (user_message ai_response : string)
  : M PyReturn :=
  raise (NotImplementedError "CosmosDBAdapter.store_conversation is not implemented").

Definition get_conversation_history (customer_id limit : Z) : M (list Turn) :=
  raise (NotImplementedError
           "CosmosDBAdapter.get_conversation_history is not implemented").

Definition get_customer_context (customer_id : Z) : M (option CustomerContext) :=
  raise (NotImplementedError
           "CosmosDBAdapter.get_customer_context is not implemented").

End CosmosDBAdapter.

(** The abstract base class: the three operations, together with the
    concrete class and the connection string the instance keeps. *)
Record DatabaseAdapter := mk_adapter {
  class_name : string;
  connection_string : option string;
  store_conversation : Z -> string -> string -> M PyReturn;
  get_conversation_history : Z -> Z -> M (list Turn);
  get_customer_context : Z -> M (option CustomerContext)
}.

(** [os.environ] *)
Definition Environ := string -> option string.

(** [os.getenv(key, default)] *)
Definition getenv_default (env : Environ) (key default : string) : string :=
  match env key with Some v => v | None => default end.

(** [f"{os.getenv(key)}"]: an unset variable prints as [None]. *)
Definition fmt_getenv (env : Environ) (key : string) : string :=
  match env key with Some v => v | None => "None" end.

Definition sql_connection_string (env : Environ) : string :=
  "DRIVER={ODBC Driver 18 for SQL Server};"
    ++ "SERVER=" ++ fmt_getenv env "SQL_SERVER" ++ ";"
    ++ "DATABASE=" ++ fmt_getenv env "SQL_DATABASE" ++ ";"
    ++ "UID=" ++ fmt_getenv env "SQL_USER" ++ ";"
    ++ "PWD=" ++ fmt_getenv env "SQL_PASSWORD" ++ ";"
    ++ "Encrypt=yes;"
    ++ "TrustServerCertificate=yes;"
    ++ "Connection Timeout=30;".

Definition postgres_connection_string (env : Environ) : string :=
  "host=" ++ fmt_getenv env "POSTGRES_HOST" ++ " "
    ++ "port=5432 "
    ++ "dbname=" ++ fmt_getenv env "POSTGRES_DATABASE" ++ " "
    ++ "user=" ++ fmt_getenv env "POSTGRES_USER" ++ " "
    ++ "password=" ++ fmt_getenv env "POSTGRES_PASSWORD" ++ " "
    ++ "sslmode=require".

Module DatabaseFactory.

Definition create_adapter (env : Environ) (db_type : string) : M DatabaseAdapter :=
  let db_type := lower db_type in
  if String.eqb db_type "sql" then
    let connection_string := sql_connection_string env in
    ret (mk_adapter "SQLDatabaseAdapter" (Some connection_string)
           (SQLDatabaseAdapter.store_conversation connection_string)
           (SQLDatabaseAdapter.get_conversation_history connection_string)
           (SQLDatabaseAdapter.get_customer_context connection_string))
  else if String.eqb db_type "cosmos" then
    ret (mk_adapter "CosmosDBAdapter" (env "COSMOS_CONNECTION_STRING")
           CosmosDBAdapter.store_conversation
           CosmosDBAdapter.get_conversation_history
           CosmosDBAdapter.get_customer_context)
  else if String.eqb db_type "postgresql" then
    let connection_string := postgres_connection_string env in
    ret (mk_adapter "PostgreSQLAdapter" (Some connection_string)
           (PostgreSQLAdapter.store_conversation connection_string)
           (PostgreSQLAdapter.get_conversation_history connection_string)
           (PostgreSQLAdapter.get_customer_context connection_string))
  else raise (ValueError ("Unknown database type: " ++ db_type)).

End DatabaseFactory.

(* ================================================================= *)
(** ** Prompt assembly and request flow, common parts *)

(** The model capability, [client.chat.completions.create(...)] followed by
    [response.choices[0].message.content]: a reply or an exception. *)
Definition Model := list Message -> Outcome string.

Definition chat_completions_create (llm : Model) (messages : list Message)
  : M string :=
  fun w =>
    (llm messages,
     mk_world (storage w) (open_connections w) (connect_attempts w) (faults w)
       (model_calls w ++ [messages])%list (stdout w)).

(** The local variables of [generate_ai_response] that prompt assembly
    reads ([customer_context], [conversation_history], [user_message]) and
    the one it builds ([messages]). *)
Record Locals := mk_locals {
  l_customer_context : CustomerContext;
  l_conversation_history : list Turn;
  l_user_message : string;
  l_messages : list Message
}.

(** [messages = [m]] *)
Definition messages_assign (ms : list Message) (f : Locals) : Locals :=
  mk_locals (l_customer_context f) (l_conversation_history f) (l_user_message f) ms.

(** [messages.append(m)] *)
Definition messages_append (m : Message) (f : Locals) : Locals :=
  mk_locals (l_customer_context f) (l_conversation_history f) (l_user_message f)
    (l_messages f ++ [m])%list.

(** The three statements that build [messages], the same in both
    applications but for the names of the variables:
    [messages = [{"role": "system", "content": system}]];
    [for entry in conversation_history: messages.append(user);
     messages.append(assistant)];
    [messages.append({"role": "user", "content": user_message})]. *)
Definition assemble (system : string) (f : Locals) : Locals :=
  let f := messages_assign [mk_message "system" system] f in
  let f :=
    fold_left
      (fun f entry =>
         messages_append (mk_message "assistant" (turn_assistant entry))
           (messages_append (mk_message "user" (turn_user entry)) f))
      (l_conversation_history f) f in
  messages_append (mk_message "user" (l_user_message f)) f.

(** A Python [float]: a finite value [mantissa * 2 ^ exponent], an infinity
    or a NaN. *)
Inductive PyFloat :=
| Finite (mantissa exponent : Z)
| Infinite (negative : bool)
| NaN.

(** What [request.json] is once Flask has parsed the body: [None], a
    [bool], an [int], a [float], a [str], a [list] or a [dict], the entries
    of a dict in order.  A request whose body Flask cannot parse is answered
    by Flask and never reaches the statements of [chat]. *)
#[local] Set Warnings "-register-all".
Inductive Json :=
| JNull
| JBool (b : bool)
| JInt (z : Z)
| JFloat (f : PyFloat)
| JStr (s : string)
| JList (items : list Json)
| JDict (entries : list (string * Json)).

(** [bool(v)], the test behind [not v]. *)
Definition truthy (v : Json) : bool :=
  match v with
  | JNull => false
  | JBool b => b
  | JInt z => negb (z =? 0)
  | JFloat (Finite mantissa _) => negb (mantissa =? 0)
  | JFloat _ => true
  | JStr s => negb (String.eqb s EmptyString)
  | JList items => match items with [] => false | _ :: _ => true end
  | JDict entries => match entries with [] => false | _ :: _ => true end
  end.

(** [type(v).__name__] *)
Definition type_name (v : Json) : string :=
  match v with
  | JNull => "NoneType"
  | JBool _ => "bool"
  | JInt _ => "int"
  | JFloat _ => "float"
  | JStr _ => "str"
  | JList _ => "list"
  | JDict _ => "dict"
  end.

Fixpoint dict_find (entries : list (string * Json)) (key : string) : option Json :=
  match entries with
  | [] => None
  | (k, v) :: rest => if String.eqb k key then Some v else dict_find rest key
  end.

(** [d.get(key)] on a dict: [None] for a key that is not there. *)
Definition dict_get (entries : list (string * Json)) (key : string) : Json :=
  match dict_find entries key with Some v => v | None => JNull end.

(** [d[key]] on a dict. *)
Definition dict_item (entries : list (string * Json)) (key : string) : M Json :=
  match dict_find entries key with
  | Some v => ret v
  | None => raise (KeyError ("'" ++ key ++ "'"))
  end.

(** The body of a request as the other properties take it: a JSON object
    whose [customer_id], when present, is an [int] and whose [message],
    when present, is a [str]. *)
Record ChatRequest := mk_request {
  req_customer_id : option Z;
  req_message : option string
}.

Definition json_of_request (data : ChatRequest) : Json :=
  JDict
    (match req_customer_id data with
     | Some customer_id => [("customer_id", JInt customer_id)]
     | None => []
     end
     ++ match req_message data with
        | Some message => [("message", JStr message)]
        | None => []
        end)%list.

(** [jsonify({"response": reply})] and [jsonify({"error": text})]. *)
Inductive JsonBody :=
| JsonResponse (reply : string)
| JsonError (error : string).

(** The call [generate_ai_response(customer_id, message)] on the values of
    a request.  The embedding of the applications covers an [int]
    identifier and a [str] message.  What the drivers and the model client
    make of values of other types is not in the program; it is left open as
    [dynamic]. *)
Definition generate_on (generate_ai_response : Z -> string -> M string)
           (dynamic : Json -> Json -> M string) (customer_id message : Json)
  : M string :=
  match customer_id, message with
  | JInt customer_id, JStr message => generate_ai_response customer_id message
  | _, _ => dynamic customer_id message
  end.

(** The route shared by both applications, on any parsed body:
    [data = request.json];
    [if not data.get("customer_id") or not data.get("message"): 400];
    [try: reply = generate_ai_response(data["customer_id"], data["message"]);
     200  except Exception as e: str(e), 500].
    Only a dict has [get]; the two calls of [data.get] are made before the
    [try]. *)
Definition chat_route_json (generate_ai_response : Z -> string -> M string)
           (dynamic : Json -> Json -> M string) (data : Json)
  : M (JsonBody * Z) :=
  match data with
  | JDict entries =>
      if (negb (truthy (dict_get entries "customer_id"))
          || negb (truthy (dict_get entries "message")))%bool then
        ret (JsonError "customer_id and message required", 400)
      else
        try_except
          (customer_id <- dict_item entries "customer_id" ;;
           message <- dict_item entries "message" ;;
           reply <- generate_on generate_ai_response dynamic customer_id message ;;
           ret (JsonResponse reply, 200))
          (fun e => ret (JsonError (str_exc e), 500))
  | _ =>
      raise (AttributeError
               ("'" ++ type_name data ++ "' object has no attribute 'get'"))
  end.

(** The same route on a body of the kind [ChatRequest] describes. *)
Definition chat_route (generate_ai_response : Z -> string -> M string)
           (data : ChatRequest) : M (JsonBody * Z) :=
  match req_customer_id data, req_message data with
  | Some customer_id, Some message =>
      if ((customer_id =? 0) || String.eqb message EmptyString)%bool then
        ret (JsonError "customer_id and message required", 400)
      else
        try_except
          (reply <- generate_ai_response customer_id message ;;
           ret (JsonResponse reply, 200))
          (fun e => ret (JsonError (str_exc e), 500))
  | _, _ => ret (JsonError "customer_id and message required", 400)
  end.

(** One element of the list the [/api/customers] route returns: the dict
    with keys [id], [name], [email]. *)
Record CustomerEntry := mk_entry {
  entry_id : Z; entry_name : string; entry_email : string
}.

(** [{"id": r[0], "name": f"{r[1]} {r[2]}", "email": r[3]}] *)
Definition entry_of_row (r : Z * string * string * string) : CustomerEntry :=
  let '(id, first, last, mail) := r in mk_entry id (first ++ " " ++ last) mail.

(** [jsonify([...])] and [jsonify({"error": text})] of the customers route. *)
Inductive CustomersBody :=
| JsonCustomers (entries : list CustomerEntry)
| JsonCustomersError (error : string).

(** A keyword argument of [psycopg2.connect]: [key=value], left out when the
    value is [None]. *)
Definition keyword (key : string) (value : option string) : list string :=
  match value with
  | Some v => [key ++ "=" ++ v]
  | None => []
  end.

(* ================================================================= *)
(** ** agents-postgresql/app.py *)

Module PgApp.

Definition not_found : string :=
  "I couldn't find your customer information. Please verify your customer ID.".

Definition order_line (order : OrderSummary) : string :=
  "- Order #" ++ str_int (order_id order) ++ ": " ++ products order
    ++ " ($" ++ format_2f (amount order)
    ++ ", Status: " ++ status order
    ++ ", Date: " ++ date order ++ ")".

Definition system_message (customer_context : CustomerContext) : string :=
  "You are a helpful customer service AI assistant for an e-commerce company." ++ nl
    ++ "    " ++ nl
    ++ "Customer Information:" ++ nl
    ++ "- Name: " ++ name customer_context ++ nl
    ++ "- Email: " ++ email customer_context ++ nl
    ++ "- Phone: " ++ phone customer_context ++ nl
    ++ "- Total Orders: " ++ str_int (total_orders customer_context) ++ nl
    ++ "- Total Spent: $" ++ format_2f (total_spent customer_context) ++ nl
    ++ nl
    ++ "Recent Orders:" ++ nl
    ++ join nl (map order_line (recent_orders customer_context)) ++ nl
    ++ nl
    ++ "Provide helpful, personalized responses based on this customer's history. Be friendly and professional.".

Definition build_messages (f : Locals) : Locals :=
  assemble (system_message (l_customer_context f)) f.

Definition generate_ai_response (env : Environ) (llm : Model)
           (customer_id : Z) (user_message : string) : M string :=
  let db_type := getenv_default env "DB_TYPE" "postgresql" in
  db <- DatabaseFactory.create_adapter env db_type ;;
  customer_context <- get_customer_context db customer_id ;;
  match customer_context with
  | None => ret not_found
  | Some customer_context =>
      conversation_history <- get_conversation_history db customer_id 5 ;;
      let messages :=
        l_messages
          (build_messages
             (mk_locals customer_context conversation_history user_message [])) in
      ai_response <- chat_completions_create llm messages ;;
      store_conversation db customer_id user_message ai_response ;;
      ret ai_response
  end.

Definition chat (env : Environ) (llm : Model) : ChatRequest -> M (JsonBody * Z) :=
  chat_route (generate_ai_response env llm).

Definition chat_json (env : Environ) (llm : Model)
           (dynamic : Json -> Json -> M string) : Json -> M (JsonBody * Z) :=
  chat_route_json (generate_ai_response env llm) dynamic.

(** What [get_pg_connection] hands to the driver:
    [psycopg2.connect(host=POSTGRES_HOST, dbname=POSTGRES_DATABASE,
     user=POSTGRES_USER, password=POSTGRES_PASSWORD, port=5432,
     sslmode="require")], the keywords in the order written. *)
Definition get_pg_connection (env : Environ) : string :=
  join " "
    (keyword "host" (env "POSTGRES_HOST")
       ++ keyword "dbname" (env "POSTGRES_DATABASE")
       ++ keyword "user" (env "POSTGRES_USER")
       ++ keyword "password" (env "POSTGRES_PASSWORD")
       ++ ["port=5432"; "sslmode=require"])%list.

Definition customers (env : Environ) : M (CustomersBody * Z) :=
  try_except
    (rows <- with_connection (get_pg_connection env) (execute_select select_customers) ;;
     ret (JsonCustomers (map entry_of_row rows), 200))
    (fun e => ret (JsonCustomersError (str_exc e), 500)).

End PgApp.

(* ================================================================= *)
(** ** agents-sql/app.py *)

Module SqlApp.

Definition CONNECTION_STRING := sql_connection_string.

Definition not_found : string :=
  "Customer not found. Please check your customer ID.".

Definition get_customer_context (env : Environ) (customer_id : Z)
  : M (option CustomerContext) :=
  tsql_fetch_context (CONNECTION_STRING env) customer_id.

(** No [OUTPUT] clause, nothing fetched, no [return]. *)
Definition save_conversation (env : Environ)
           (customer_id : Z) (user_message ai_response : string) : M PyReturn :=
  with_connection (CONNECTION_STRING env)
    (execute_insert customer_id user_message ai_response ;;
     commit) ;;
  ret PyNone.

Definition get_conversation_history (env : Environ) (customer_id limit : Z)
  : M (list Turn) :=
  tsql_fetch_history (CONNECTION_STRING env) customer_id limit.

Definition order_line (o : OrderSummary) : string :=
  "- Order #" ++ str_int (order_id o) ++ ": " ++ products o
    ++ " ($" ++ format_2f (amount o)
    ++ ", " ++ status o
    ++ ", " ++ date o ++ ")".

Definition system_prompt (customer : CustomerContext) : string :=
  nl
    ++ "You are a helpful customer support AI for an e-commerce company." ++ nl
    ++ nl
    ++ "Customer:" ++ nl
    ++ "- Name: " ++ name customer ++ nl
    ++ "- Email: " ++ email customer ++ nl
    ++ "- Phone: " ++ phone customer ++ nl
    ++ "- Orders: " ++ str_int (total_orders customer) ++ nl
    ++ "- Total Spent: $" ++ format_2f (total_spent customer) ++ nl
    ++ nl
    ++ "Recent Orders:" ++ nl
    ++ join nl (map order_line (recent_orders customer)) ++ nl.

Definition build_messages (f : Locals) : Locals :=
  assemble (system_prompt (l_customer_context f)) f.

Definition generate_ai_response (env : Environ) (llm : Model)
           (customer_id : Z) (user_message : string) : M string :=
  customer <- get_customer_context env customer_id ;;
  match customer with
  | None => ret not_found
  | Some customer =>
      history <- get_conversation_history env customer_id 5 ;;
      let messages :=
        l_messages (build_messages (mk_locals customer history user_message [])) in
      ai_text <- chat_completions_create llm messages ;;
      save_conversation env customer_id user_message ai_text ;;
      ret ai_text
  end.

Definition chat (env : Environ) (llm : Model) : ChatRequest -> M (JsonBody * Z) :=
  chat_route (generate_ai_response env llm).

Definition chat_json (env : Environ) (llm : Model)
           (dynamic : Json -> Json -> M string) : Json -> M (JsonBody * Z) :=
  chat_route_json (generate_ai_response env llm) dynamic.

(** No [try] around the block: a driver error leaves the function. *)
Definition customers (env : Environ) : M (CustomersBody * Z) :=
  rows <- with_connection (CONNECTION_STRING env) (execute_select select_customers) ;;
  ret (JsonCustomers (map entry_of_row rows), 200).

End SqlApp.

(* ================================================================= *)
(** ** Vocabulary of the properties *)

(** No driver fault is pending: the storage answers every call. *)
Definition healthy (w : World) : Prop := faults w = [].

(** The world once a connection to [cs] has been opened and closed again. *)
Definition after_connection (cs : string) (w : World) : World :=
  mk_world (storage w) (open_connections w) (connect_attempts w ++ [cs])%list
    (faults w) (model_calls w) (stdout w).

(** The world once a turn has been inserted over a connection to [cs]. *)
Definition after_insert (cs : string) (customer_id : Z) (um ar : string)
           (w : World) : World :=
  mk_world (insert_conversation (storage w) customer_id um ar)
    (open_connections w) (connect_attempts w ++ [cs])%list
    (faults w) (model_calls w) (stdout w).

(** The world with one connection more that was opened and not closed. *)
Definition held (w : World) : World :=
  mk_world (storage w) (S (open_connections w)) (connect_attempts w) (faults w)
    (model_calls w) (stdout w).

(** The world with the connection just opened kept open, or closed again. *)
Definition kept_if (kept : bool) (w : World) : World :=
  if kept then held w else w.


(** The world with [fs] as the driver faults still to come. *)
Definition with_faults (fs : list (option string)) (w : World) : World :=
  mk_world (storage w) (open_connections w) (connect_attempts w) fs
    (model_calls w) (stdout w).

(** The world once [messages] has been sent to the model. *)
Definition after_model_call (messages : list Message) (w : World) : World :=
  mk_world (storage w) (open_connections w) (connect_attempts w) (faults w)
    (model_calls w ++ [messages])%list (stdout w).

Definition stamp (r : ConversationRow) : Z := instant (ch_timestamp r).

Definition oldest_first (rows : list ConversationRow) : Prop :=
  StronglySorted (fun a b => stamp a <= stamp b) rows.

(** A [datetime] of Python: the calendar fields in their ranges. *)
Definition valid_datetime (d : datetime) : bool :=
  ((1 <=? year d) && (year d <=? 9999)
   && (1 <=? month d) && (month d <=? 12)
   && (1 <=? day d) && (day d <=? 31)
   && (0 <=? hour d) && (hour d <=? 23)
   && (0 <=? minute d) && (minute d <=? 59)
   && (0 <=? second d) && (second d <=? 59)
   && (0 <=? microsecond d) && (microsecond d <=? 999999))%bool.

(** The integers from 0 up to [n], [n] left out. *)
Definition range (n : Z) : list Z := map Z.of_nat (seq 0 (Z.to_nat n)).

Definition comparison_eqb (a b : comparison) : bool :=
  match a, b with
  | Eq, Eq | Lt, Lt | Gt, Gt => true
  | _, _ => false
  end.

(** The second an instant falls in: what [%Y-%m-%d %H:%M:%S] keeps of it. *)
Definition second_of (d : datetime) : Z := instant d / 1000000.

(** The returned timestamps are texts of the form [YYYY-MM-DD HH:MM:SS];
    they are compared as texts, which for this form is the order of the
    seconds they name.  [chronological]: the timestamps never decrease
    along the sequence; [strictly_chronological]: they increase. *)
Definition chronological (turns : list Turn) : Prop :=
  StronglySorted
    (fun a b => String.leb (turn_timestamp a) (turn_timestamp b) = true) turns.

Definition strictly_chronological (turns : list Turn) : Prop :=
  StronglySorted
    (fun a b => String.ltb (turn_timestamp a) (turn_timestamp b) = true) turns.

Definition customer_exists (db : Database) (customer_id : Z) : bool :=
  existsb (fun c => c_customer_id c =? customer_id) (t_customers db).

Definition has_orders (db : Database) (customer_id : Z) : bool :=
  existsb (fun o => o_customer_id o =? customer_id) (t_orders db).

(** The names of the products on the line items of an order. *)
Definition product_names (db : Database) (o : Order) : list string :=
  map (fun r => product_name (snd r)) (rows_of_order db o).

(** The messages a history contributes to the prompt. *)
Definition history_messages (history : list Turn) : list Message :=
  flat_map
    (fun entry =>
       [mk_message "user" (turn_user entry);
        mk_message "assistant" (turn_assistant entry)])
    history.

(** What an operation run from [w] did to the standard output: on an
    exception one line, [prefix] followed by the text of the exception;
    otherwise nothing. *)
Definition logged {A} (prefix : string) (w : World) (result : Outcome A * World)
  : Prop :=
  match fst result with
  | Raise e => stdout (snd result) = (stdout w ++ [(prefix ++ str_exc e)%string])%list
  | Return _ => stdout (snd result) = stdout w
  end.

(** The orders of a customer. *)
Definition orders_of (db : Database) (customer_id : Z) : list Order :=
  filter (fun o => o_customer_id o =? customer_id) (t_orders db).

(** The sum of the amounts of a list of orders. *)
Definition amounts_total (os : list Order) : money :=
  fold_right (fun o total => total_amount o + total) 0 os.

(** The values [not v] holds for: [None], [False], zero as an [int] or as a
    [float], the empty string, the empty list and the empty dict. *)
Definition falsy (v : Json) : Prop :=
  v = JNull \/ v = JBool false \/ v = JInt 0
  \/ (exists exponent, v = JFloat (Finite 0 exponent))
  \/ v = JStr EmptyString \/ v = JList [] \/ v = JDict [].

(** The identifiers [create_adapter] recognises. *)
Definition recognised : list string := ["sql"; "cosmos"; "postgresql"].

(** [DB_TYPE] selects one of the two backends that implement the
    operations. *)
Definition implemented_backend (env : Environ) : bool :=
  let t := lower (getenv_default env "DB_TYPE" "postgresql") in
  (String.eqb t "sql" || String.eqb t "postgresql")%bool.

(* ----------------------------------------------------------------- *)
(** *** Sample data *)

Module Sample.

Definition at_second (s : Z) : datetime := mk_datetime 2024 5 17 9 30 s 0.

(** Customer 42 has two orders totalling 150.00, one of them with the two
    products Widget and Gadget; customer 7 has no order; customer 9 has
    one order without line items. *)
Definition shop : Database :=
  mk_database
    [mk_customer 42 "Ada" "Lovelace" "ada@example.com" "555-0100";
     mk_customer 7 "Grace" "Hopper" "grace@example.com" EmptyString;
     mk_customer 9 "Alan" "Turing" "alan@example.com" "555-0109"]
    [mk_order 1 42 (at_second 1) 10000 "shipped";
     mk_order 2 42 (at_second 2) 5000 "pending";
     mk_order 3 9 (at_second 3) 2500 "processing"]
    [mk_order_item 1 100; mk_order_item 1 101; mk_order_item 2 100]
    [mk_product 100 "Widget"; mk_product 101 "Gadget"]
    [mk_conversation 1 42 "T1" "R1" (at_second 1);
     mk_conversation 2 42 "T2" "R2" (at_second 2);
     mk_conversation 3 42 "T3" "R3" (at_second 3);
     mk_conversation 4 42 "T4" "R4" (at_second 4);
     mk_conversation 5 42 "T5" "R5" (at_second 5)]
    6 (at_second 40) (fun _ _ => 0).

(** The same store in an engine that feeds an aggregate by [rank]. *)
Definition fed_by (rank : OrderItem -> Product -> Z) (db : Database) : Database :=
  mk_database (t_customers db) (t_orders db) (t_order_items db) (t_products db)
    (t_conversation_history db) (next_id db) (now db) rank.

(** Two turns of customer 42 stored half a second apart, within one
    second. *)
Definition same_second : Database :=
  mk_database
    [mk_customer 42 "Ada" "Lovelace" "ada@example.com" "555-0100"]
    [] [] []
    [mk_conversation 1 42 "T1" "R1" (mk_datetime 2024 5 17 9 30 1 0);
     mk_conversation 2 42 "T2" "R2" (mk_datetime 2024 5 17 9 30 1 500000)]
    3 (at_second 40) (fun _ _ => 0).

Definition world (db : Database) : World := mk_world db 0 [] [] [] [].

(** The connection is accepted, the first statement fails. *)
Definition execute_fails (db : Database) : World :=
  mk_world db 0 [] [None; Some "server closed the connection unexpectedly"] [] [].

Definition env : Environ :=
  fun key =>
    if String.eqb key "POSTGRES_HOST" then Some "db.internal.example"
    else if String.eqb key "POSTGRES_DATABASE" then Some "shop"
    else if String.eqb key "POSTGRES_USER" then Some "shop_admin"
    else if String.eqb key "POSTGRES_PASSWORD" then Some "hunter2"
    else None.

Definition llm : Model := fun _ => Return "Your order is on its way.".

Definition dq : string := String (ascii_of_nat 34) EmptyString.

(** The text libpq gives a failed password authentication: it quotes the
    host and the user of the connection string. *)
Definition authentication_failure : string :=
  "connection to server at " ++ dq ++ "db.internal.example" ++ dq
    ++ ", port 5432 failed: FATAL:  password authentication failed for user "
    ++ dq ++ "shop_admin" ++ dq.

Definition login_refused (db : Database) : World :=
  mk_world db 0 [] [Some authentication_failure] [] [].

(** [DB_TYPE] names the placeholder backend. *)
Definition env_cosmos : Environ :=
  fun key => if String.eqb key "DB_TYPE" then Some "Cosmos" else env key.

(** [DB_TYPE] names no backend. *)
Definition env_oracle : Environ :=
  fun key => if String.eqb key "DB_TYPE" then Some "Oracle" else env key.

Definition llm_down : Model := fun _ => Raise (OpenAIError "Rate limit reached").

(** The two reads go through, the connection for the write is refused. *)
Definition write_refused (db : Database) : World :=
  mk_world db 0 []
    [None; None; None; None; None; Some "too many connections for role"] [] [].

End Sample.

(* ----------------------------------------------------------------- *)
(** *** Tactics *)

(** Opens a world known to be healthy. *)
Ltac healthy_world w H :=
  destruct w as [db oc ca fs mc so];
  unfold healthy in H; simpl in H; subst fs.

(** Splits the world on what the driver does at the two calls of a store
    operation, [connect] and [execute]. *)
Ltac two_driver_calls w :=
  destruct w as [db oc ca fs mc so];
  destruct fs as [|[m1|] [|[m2|] fs]].

(** Splits the world on what the driver does at the three calls an
    operation makes at most. *)
Ltac three_driver_calls w :=
  destruct w as [db oc ca fs mc so];
  destruct fs as [|[m1|] [|[m2|] [|[m3|] fs]]].

(** Looks for the piece of a concatenation that is the string sought:
    [here] closes the goal at the piece, [skip] steps over a piece. *)
Ltac find_piece_by here skip :=
  first [ apply here | apply skip; find_piece_by here skip ].

(** Looks for the piece of a concatenation that [H] says contains the
    string sought. *)
Ltac find_piece_with_by inside skip H :=
  first [ apply inside; exact H | apply skip; find_piece_with_by inside skip H ].

(* ================================================================= *)
(** * Properties *)

(* ================================================================= *)
(** ** Strings *)

Lemma lower_ascii_idempotent (c : ascii) : lower_ascii (lower_ascii c) = lower_ascii c.
Proof. destruct c as [[] [] [] [] [] [] [] []]; reflexivity. Qed.

Lemma lower_idempotent (s : string) : lower (lower s) = lower s.
Proof.
  induction s as [|c s IH]; simpl; [reflexivity|].
  now rewrite lower_ascii_idempotent, IH.
Qed.

Lemma prefix_same (s : string) : String.prefix s s = true.
Proof.
  induction s as [|c s IH]; simpl; [reflexivity|].
  destruct (ascii_dec c c) as [_|N]; [exact IH | now elim N].
Qed.

Lemma contains_suffix (p s : string) : contains (p ++ s) s = true.
Proof.
  induction p as [|c p IH]; simpl.
  - destruct s; simpl; [reflexivity|].
    destruct (ascii_dec a a) as [_|N]; [|now elim N].
    now rewrite prefix_same.
  - rewrite IH. apply orb_true_r.
Qed.

(* ================================================================= *)
(** ** ORDER BY, LIMIT, reversed *)

Section Ordering.
Context {A : Type} (key : A -> Z).

Lemma insert_desc_perm (x : A) (l : list A) :
  Permutation (insert_desc key x l) (x :: l).
Proof.
  induction l as [|y l IH]; simpl; [reflexivity|].
  destruct (key y <=? key x); [reflexivity|].
  rewrite IH. apply perm_swap.
Qed.

Lemma order_by_desc_perm (l : list A) : Permutation (order_by_desc key l) l.
Proof.
  induction l as [|x l IH]; simpl; [reflexivity|].
  rewrite insert_desc_perm. now constructor.
Qed.

Lemma insert_desc_sorted (x : A) (l : list A) :
  StronglySorted (fun a b => key b <= key a) l ->
  StronglySorted (fun a b => key b <= key a) (insert_desc key x l).
Proof.
  induction 1 as [|y l Hs IH Hy]; simpl.
  - repeat constructor.
  - destruct (key y <=? key x) eqn:E.
    + apply Z.leb_le in E. constructor; [now constructor|].
      constructor; [exact E|].
      eapply Forall_impl; [|exact Hy]. simpl. intros; lia.
    + apply Z.leb_gt in E. constructor; [exact IH|].
      rewrite (Forall_forall). intros z Hz.
      apply (Permutation_in _ (insert_desc_perm x l)) in Hz.
      destruct Hz as [<-|Hz]; [lia|].
      rewrite Forall_forall in Hy. now apply Hy.
Qed.

Lemma order_by_desc_sorted (l : list A) :
  StronglySorted (fun a b => key b <= key a) (order_by_desc key l).
Proof.
  induction l as [|x l IH]; simpl; [constructor | now apply insert_desc_sorted].
Qed.
End Ordering.

Section Sorted.
Context {A : Type} (R : A -> A -> Prop).

Lemma sorted_app (l1 l2 : list A) :
  StronglySorted R l1 -> StronglySorted R l2 ->
  (forall a b, In a l1 -> In b l2 -> R a b) ->
  StronglySorted R (l1 ++ l2).
Proof.
  induction 1 as [|x l1 Hs IH Hx]; simpl; intros H2 Hc; [exact H2|].
  constructor.
  - apply IH; [exact H2|]. intros a b Ha Hb. apply Hc; [now right | exact Hb].
  - rewrite Forall_forall in *. intros z Hz. apply in_app_or in Hz as [Hz|Hz].
    + now apply Hx.
    + apply Hc; [now left | exact Hz].
Qed.

Lemma sorted_app_inv (l1 l2 : list A) :
  StronglySorted R (l1 ++ l2) ->
  StronglySorted R l1 /\ StronglySorted R l2
  /\ (forall a b, In a l1 -> In b l2 -> R a b).
Proof.
  induction l1 as [|x l1 IH]; simpl; intros H.
  - repeat split; [constructor | exact H | intros a b []].
  - inversion H as [|? ? Hs Hx]; subst.
    destruct (IH Hs) as (S1 & S2 & Hc).
    rewrite Forall_forall in Hx.
    repeat split.
    + constructor; [exact S1|]. rewrite Forall_forall. intros z Hz.
      apply Hx. apply in_or_app. now left.
    + exact S2.
    + intros a b [<-|Ha] Hb; [|now apply Hc].
      apply Hx. apply in_or_app. now right.
Qed.

Lemma sorted_firstn (n : nat) (l : list A) :
  StronglySorted R l -> StronglySorted R (firstn n l).
Proof.
  intros H. rewrite <- (firstn_skipn n l) in H.
  now apply sorted_app_inv in H.
Qed.

Lemma sorted_strengthen (Q : A -> A -> Prop) (l : list A) :
  StronglySorted R l ->
  (forall a b, In a l -> In b l -> R a b -> Q a b) ->
  StronglySorted Q l.
Proof.
  induction 1 as [|x l Hs IH Hx]; intros HQ; constructor.
  - apply IH. intros a b Ha Hb. apply HQ; now right.
  - rewrite Forall_forall in *. intros z Hz.
    apply HQ; [now left | now right | now apply Hx].
Qed.
End Sorted.

Lemma sorted_rev {A} (R : A -> A -> Prop) (l : list A) :
  StronglySorted R l -> StronglySorted (fun a b => R b a) (rev l).
Proof.
  induction 1 as [|x l Hs IH Hx]; simpl; [constructor|].
  apply sorted_app; [exact IH | repeat constructor |].
  intros a b Ha [<-|[]]. rewrite Forall_forall in Hx.
  apply Hx. now apply in_rev.
Qed.

(** In a list sorted by key whose keys are pairwise distinct, the order is
    strict. *)
Lemma sorted_distinct_strict {A} (key : A -> Z) (l : list A) :
  StronglySorted (fun a b => key a <= key b) l ->
  NoDup (map key l) ->
  StronglySorted (fun a b => key a < key b) l.
Proof.
  induction 1 as [|x l Hs IH Hx]; simpl; intros Hn; constructor.
  - apply IH. now inversion Hn.
  - inversion Hn as [|? ? Hnotin _]; subst.
    rewrite Forall_forall in *. intros z Hz.
    specialize (Hx z Hz).
    assert (key x <> key z).
    { intros E. apply Hnotin. rewrite E. now apply in_map. }
    lia.
Qed.

(* ================================================================= *)
(** ** GROUP BY *)

Lemma filter_none {A} (f : A -> bool) (l : list A) :
  (forall y, In y l -> f y = false) -> filter f l = [].
Proof.
  induction l as [|y l IH]; simpl; intros H; [reflexivity|].
  rewrite (H y) by now left. apply IH. intros z Hz. apply H. now right.
Qed.

Lemma filter_all {A} (f : A -> bool) (l : list A) :
  (forall y, In y l -> f y = true) -> filter f l = l.
Proof.
  induction l as [|y l IH]; simpl; intros H; [reflexivity|].
  rewrite (H y) by now left. f_equal. apply IH. intros z Hz. apply H. now right.
Qed.

Lemma in_firstn {A} (n : nat) (l : list A) (x : A) : In x (firstn n l) -> In x l.
Proof.
  intros H. rewrite <- (firstn_skipn n l). apply in_or_app. now left.
Qed.

Lemma filter_filter {A} (f g : A -> bool) (l : list A) :
  filter f (filter g l) = filter (fun x => (g x && f x)%bool) l.
Proof.
  induction l as [|x l IH]; simpl; [reflexivity|].
  destruct (g x); simpl; [|exact IH].
  destruct (f x); [now f_equal | exact IH].
Qed.

Section GroupBy.
Context {A K : Type} (eqb : K -> K -> bool) (key : A -> K).
Hypothesis eqb_eq : forall a b, eqb a b = true <-> a = b.

Lemma eqb_false_iff (a b : K) : eqb a b = false <-> a <> b.
Proof.
  split.
  - intros E H. apply eqb_eq in H. congruence.
  - intros N. destruct (eqb a b) eqn:E; [|reflexivity].
    apply eqb_eq in E. contradiction.
Qed.

Lemma existsb_key (k : K) (ks : list K) : existsb (eqb k) ks = true <-> In k ks.
Proof.
  rewrite existsb_exists. split.
  - intros (k' & Hin & E). apply eqb_eq in E. now subst.
  - intros Hin. exists k. split; [exact Hin | now apply eqb_eq].
Qed.

Lemma group_insert_not_nil (k : K) (x : A) (gs : list (K * list A)) :
  group_insert eqb k x gs <> [].
Proof. destruct gs as [|[k' xs] gs]; simpl; [|destruct (eqb k k')]; discriminate. Qed.

Lemma group_by_snoc (l : list A) (x : A) :
  group_by eqb key (l ++ [x]) = group_insert eqb (key x) x (group_by eqb key l).
Proof. unfold group_by. now rewrite fold_left_app. Qed.

Lemma group_by_not_nil (l : list A) : l <> [] -> group_by eqb key l <> [].
Proof.
  destruct l as [|a l'] using rev_ind; [congruence|].
  intros _. rewrite group_by_snoc. apply group_insert_not_nil.
Qed.

Lemma group_insert_keys (k : K) (x : A) (gs : list (K * list A)) :
  map fst (group_insert eqb k x gs)
  = if existsb (eqb k) (map fst gs) then map fst gs else (map fst gs ++ [k])%list.
Proof.
  induction gs as [|[k' xs] gs IH]; simpl; [reflexivity|].
  destruct (eqb k k'); simpl; [reflexivity|].
  rewrite IH. now destruct (existsb (eqb k) (map fst gs)).
Qed.

Lemma group_insert_in (k : K) (x : A) (gs : list (K * list A)) (k' : K) (xs' : list A) :
  NoDup (map fst gs) ->
  In (k', xs') (group_insert eqb k x gs) ->
  (k <> k' /\ In (k', xs') gs)
  \/ (exists xs0, k = k' /\ In (k', xs0) gs /\ xs' = (xs0 ++ [x])%list)
  \/ (~ In k (map fst gs) /\ k' = k /\ xs' = [x]).
Proof.
  induction gs as [|[k0 xs0] gs IH]; simpl; intros Hn Hin.
  - destruct Hin as [E|[]]. inversion E; subst. right; right. tauto.
  - inversion Hn as [|? ? Hk0 Hn']; subst.
    destruct (eqb k k0) eqn:E.
    + apply eqb_eq in E. subst k0.
      destruct Hin as [E'|Hin].
      * inversion E'; subst. right; left. exists xs0. tauto.
      * left. split; [|now right].
        intros ->. apply Hk0. now apply (in_map fst) in Hin.
    + apply eqb_false_iff in E.
      destruct Hin as [E'|Hin].
      * inversion E'; subst. left. split; [exact E | now left].
      * destruct (IH Hn' Hin) as [(N & H)|[(ys & -> & H & ->)|(N & -> & ->)]].
        -- left. split; [exact N | now right].
        -- right; left. exists ys. split; [reflexivity|]. split; [now right | reflexivity].
        -- right; right. split; [|tauto]. intros [H|H]; [congruence | contradiction].
Qed.

(** The groups of a list: one group per key that occurs, holding the rows
    with that key, in order. *)
Lemma group_by_grouped (l : list A) :
  NoDup (map fst (group_by eqb key l))
  /\ (forall y, In y l -> In (key y) (map fst (group_by eqb key l)))
  /\ (forall k xs, In (k, xs) (group_by eqb key l) ->
      xs <> [] /\ xs = filter (fun y => eqb (key y) k) l).
Proof.
  induction l as [|x l (Hn & Hk & Hg)] using rev_ind.
  - simpl. split; [constructor|]. split; intros; contradiction.
  - rewrite group_by_snoc. set (gs := group_by eqb key l) in *.
    assert (Hkeys := group_insert_keys (key x) x gs).
    destruct (existsb (eqb (key x)) (map fst gs)) eqn:Ex.
    + apply existsb_key in Ex. rewrite Hkeys.
      split; [exact Hn|]. split.
      * intros y Hy. apply in_app_or in Hy as [Hy|[<-|[]]]; [now apply Hk | exact Ex].
      * intros k xs Hin.
        destruct (group_insert_in _ _ _ _ _ Hn Hin)
          as [(N & H)|[(ys & E & H & ->)|(N & _)]].
        -- destruct (Hg _ _ H) as (Hne & ->). split; [exact Hne|].
           rewrite filter_app. simpl.
           apply eqb_false_iff in N. rewrite N. now rewrite app_nil_r.
        -- destruct (Hg _ _ H) as (_ & ->). split; [now destruct (filter _ l)|].
           rewrite filter_app. simpl.
           apply eqb_eq in E. now rewrite E.
        -- contradiction.
    + assert (Hnot : ~ In (key x) (map fst gs)).
      { intros H. apply existsb_key in H. congruence. }
      rewrite Hkeys. split.
      { apply NoDup_rev in Hn. rewrite <- (rev_involutive (_ ++ _)).
        apply NoDup_rev. rewrite rev_app_distr. simpl.
        constructor; [|exact Hn]. now rewrite <- in_rev. }
      split.
      * intros y Hy. apply in_or_app.
        apply in_app_or in Hy as [Hy|[<-|[]]]; [left; now apply Hk | right; now left].
      * intros k xs Hin.
        destruct (group_insert_in _ _ _ _ _ Hn Hin)
          as [(N & H)|[(ys & E & H & ->)|(_ & -> & ->)]].
        -- destruct (Hg _ _ H) as (Hne & ->). split; [exact Hne|].
           rewrite filter_app. simpl.
           apply eqb_false_iff in N. rewrite N. now rewrite app_nil_r.
        -- subst k. elim Hnot. now apply (in_map fst) in H.
        -- split; [discriminate|].
           rewrite filter_app. simpl.
           replace (eqb (key x) (key x)) with true by (symmetry; now apply eqb_eq).
           replace (filter (fun y => eqb (key y) (key x)) l) with (@nil A); [reflexivity|].
           symmetry. apply filter_none. intros y Hy.
           apply eqb_false_iff. intros E. apply Hnot. rewrite <- E. now apply Hk.
Qed.
End GroupBy.

(* ================================================================= *)
(** ** Keys *)

Lemma datetime_eqb_eq (a b : datetime) : datetime_eqb a b = true <-> a = b.
Proof.
  unfold datetime_eqb. rewrite !andb_true_iff, !Z.eqb_eq.
  destruct a, b; simpl. split.
  - intros ((((((-> & ->) & ->) & ->) & ->) & ->) & ->). reflexivity.
  - intros E. inversion E. tauto.
Qed.

Lemma customer_key_eqb_eq (a b : customer_key) : customer_key_eqb a b = true <-> a = b.
Proof.
  destruct a as [[[[i f] l] e] p], b as [[[[i' f'] l'] e'] p']. simpl.
  rewrite !andb_true_iff, Z.eqb_eq, !String.eqb_eq. split.
  - intros ((((-> & ->) & ->) & ->) & ->). reflexivity.
  - intros E. inversion E. tauto.
Qed.

Lemma order_key_eqb_eq (a b : order_key) : order_key_eqb a b = true <-> a = b.
Proof.
  destruct a as [[[i d] t] s], b as [[[i' d'] t'] s']. simpl.
  rewrite !andb_true_iff, !Z.eqb_eq, datetime_eqb_eq, String.eqb_eq. split.
  - intros (((-> & ->) & ->) & ->). reflexivity.
  - intros E. inversion E. tauto.
Qed.

(* ================================================================= *)
(** ** The aggregate statement *)

Lemma left_join_fst (db : Database) (c : Customer) (r : Customer * option Order) :
  In r (left_join_orders db c) -> fst r = c.
Proof.
  unfold left_join_orders.
  destruct (filter _ (t_orders db)) as [|o os].
  - intros [<-|[]]. reflexivity.
  - intros H. apply in_map_iff in H as (o' & <- & _). reflexivity.
Qed.

Lemma left_join_not_nil (db : Database) (c : Customer) : left_join_orders db c <> [].
Proof.
  unfold left_join_orders. destruct (filter _ (t_orders db)); discriminate.
Qed.

Lemma has_orders_false (db : Database) (customer_id : Z) :
  has_orders db customer_id = false ->
  filter (fun o => o_customer_id o =? customer_id) (t_orders db) = [].
Proof.
  unfold has_orders. intros H. apply filter_none. intros o Ho.
  destruct (o_customer_id o =? customer_id) eqn:E; [|reflexivity].
  rewrite <- H. symmetry. apply existsb_exists. now exists o.
Qed.

Lemma left_join_no_orders (db : Database) (c : Customer) (r : Customer * option Order) :
  has_orders db (c_customer_id c) = false ->
  In r (left_join_orders db c) -> snd r = None.
Proof.
  intros H. unfold left_join_orders. rewrite (has_orders_false _ _ H).
  intros [<-|[]]. reflexivity.
Qed.

Lemma customer_exists_groups (db : Database) (customer_id : Z) :
  customer_exists db customer_id = true -> customer_groups db customer_id <> [].
Proof.
  unfold customer_exists, customer_groups. intros H.
  apply existsb_exists in H as (c & Hc & E).
  apply group_by_not_nil.
  destruct (left_join_orders db c) as [|r rs] eqn:J; [now elim (left_join_not_nil db c)|].
  assert (Hr : In r (left_join_orders db c)) by (rewrite J; now left).
  intros N.
  assert (Hin : In r (filter (fun r => c_customer_id (fst r) =? customer_id)
                        (flat_map (left_join_orders db) (t_customers db)))).
  { apply filter_In. split.
    - apply in_flat_map. now exists c.
    - now rewrite (left_join_fst _ _ _ Hr). }
  now rewrite N in Hin.
Qed.

Lemma customer_absent_groups (db : Database) (customer_id : Z) :
  customer_exists db customer_id = false -> customer_groups db customer_id = [].
Proof.
  unfold customer_exists, customer_groups. intros H.
  rewrite filter_none; [reflexivity|].
  intros r Hr. apply in_flat_map in Hr as (c & Hc & Hr).
  rewrite (left_join_fst _ _ _ Hr).
  destruct (c_customer_id c =? customer_id) eqn:E; [|reflexivity].
  rewrite <- H. symmetry. apply existsb_exists. now exists c.
Qed.

Lemma customer_groups_no_orders (db : Database) (customer_id : Z)
      (k : customer_key) (rows : list (Customer * option Order)) :
  has_orders db customer_id = false ->
  In (k, rows) (customer_groups db customer_id) ->
  forall r, In r rows -> snd r = None.
Proof.
  intros H Hg r Hr. unfold customer_groups in Hg.
  apply (proj2 (proj2 (group_by_grouped _ _ customer_key_eqb_eq _))) in Hg as (_ & E).
  rewrite E in Hr.
  apply filter_In in Hr as (Hr & _).
  apply filter_In in Hr as (Hr & Hid).
  apply in_flat_map in Hr as (c & _ & Hr).
  rewrite (left_join_fst _ _ _ Hr) in Hid. apply Z.eqb_eq in Hid. subst customer_id.
  now apply (left_join_no_orders db c).
Qed.

Lemma count_orders_none (rows : list (Customer * option Order)) :
  (forall r, In r rows -> snd r = None) -> count_orders rows = 0.
Proof.
  intros H. unfold count_orders. rewrite filter_none; [reflexivity|].
  intros r Hr. now rewrite (H r Hr).
Qed.

Lemma sum_amounts_none (rows : list (Customer * option Order)) :
  (forall r, In r rows -> snd r = None) -> sum_amounts rows = None.
Proof.
  intros H. unfold sum_amounts.
  enough (G : forall acc : option money,
             fold_left
               (fun acc r =>
                  match snd r with
                  | None => acc
                  | Some o =>
                      Some (match acc with None => 0 | Some s => s end + total_amount o)
                  end) rows acc = acc) by apply G.
  induction rows as [|r rows IH]; simpl; intros acc; [reflexivity|].
  rewrite (H r) by now left. apply IH. intros; apply H. now right.
Qed.

(* ================================================================= *)
(** ** The detail statement *)

Lemma rows_of_order_fst (db : Database) (o : Order) (r : Order * OrderItem * Product) :
  In r (rows_of_order db o) -> fst (fst r) = o.
Proof.
  unfold rows_of_order. intros H.
  apply in_flat_map in H as (oi & _ & H).
  destruct (o_order_id o =? oi_order_id oi); [|contradiction].
  apply in_flat_map in H as (p & _ & H).
  destruct (oi_product_id oi =? p_product_id p); [|contradiction].
  destruct H as [<-|[]]. reflexivity.
Qed.

Lemma select_recent_orders_no_orders (db : Database) (customer_id : Z) :
  has_orders db customer_id = false -> select_recent_orders db customer_id = [].
Proof.
  intros H. unfold select_recent_orders. rewrite filter_none; [reflexivity|].
  intros r Hr. apply in_flat_map in Hr as (o & Ho & Hr).
  rewrite (rows_of_order_fst _ _ _ Hr).
  destruct (o_customer_id o =? customer_id) eqn:E; [|reflexivity].
  rewrite <- H. symmetry. apply existsb_exists. now exists o.
Qed.

(** Filtering the join on a condition that singles out one order leaves the
    rows of that order. *)
Lemma filter_rows_of_unique_order (db : Database) (P : Order -> bool) (o : Order)
      (os : list Order) :
  NoDup (map o_order_id os) ->
  In o os -> P o = true ->
  (forall o', In o' os -> P o' = true -> o_order_id o' = o_order_id o) ->
  filter (fun r => P (fst (fst r))) (flat_map (rows_of_order db) os)
  = rows_of_order db o.
Proof.
  induction os as [|a os IH]; simpl; intros Hn Hin HP Huniq; [contradiction|].
  inversion Hn as [|? ? Ha Hn']; subst.
  rewrite filter_app.
  destruct Hin as [->|Hin].
  - rewrite filter_all.
    2:{ intros r Hr. now rewrite (rows_of_order_fst _ _ _ Hr). }
    rewrite filter_none; [apply app_nil_r|].
    intros r Hr. apply in_flat_map in Hr as (o' & Ho' & Hr).
    rewrite (rows_of_order_fst _ _ _ Hr).
    destruct (P o') eqn:E; [|reflexivity].
    elim Ha. rewrite <- (Huniq o' (or_intror Ho') E). now apply in_map.
  - rewrite filter_none.
    2:{ intros r Hr. rewrite (rows_of_order_fst _ _ _ Hr).
        destruct (P a) eqn:E; [|reflexivity].
        elim Ha. rewrite (Huniq a (or_introl eq_refl) E). now apply in_map. }
    simpl. apply IH; auto.
Qed.

(** Every row of the detail statement is an order of the customer that has
    line items, with the names of its products, in some order, joined by
    [", "]. *)
Lemma select_recent_orders_rows (db : Database) (customer_id : Z) (row : OrderRow) :
  NoDup (map o_order_id (t_orders db)) ->
  In row (select_recent_orders db customer_id) ->
  exists o names,
    In o (t_orders db) /\ o_customer_id o = customer_id
    /\ row_order_id row = o_order_id o
    /\ row_order_date row = order_date o
    /\ row_total_amount row = total_amount o
    /\ row_status row = o_status o
    /\ product_names db o <> []
    /\ Permutation names (product_names db o)
    /\ row_products row = join ", " names.
Proof.
  intros Hn Hrow. unfold select_recent_orders, limit_rows in Hrow.
  apply in_firstn in Hrow.
  apply (Permutation_in _ (order_by_desc_perm _ _)) in Hrow.
  apply in_map_iff in Hrow as ([k rows] & <- & Hg).
  apply (proj2 (proj2 (group_by_grouped _ _ order_key_eqb_eq _))) in Hg as (Hne & E).
  destruct rows as [|r0 rows0] eqn:R; [congruence|]. rewrite <- R in *.
  assert (H0 : In r0 rows) by (rewrite R; now left).
  rewrite E in H0. apply filter_In in H0 as (H0 & Hk).
  apply filter_In in H0 as (H0 & Hc).
  apply in_flat_map in H0 as (o & Ho & H0).
  rewrite (rows_of_order_fst _ _ _ H0) in Hk, Hc.
  apply order_key_eqb_eq in Hk. apply Z.eqb_eq in Hc.
  assert (Erows : rows = rows_of_order db o).
  { rewrite E. rewrite filter_filter.
    apply (filter_rows_of_unique_order db
             (fun o' => (o_customer_id o' =? customer_id)
                        && order_key_eqb (order_key_of o') k)%bool
             o (t_orders db) Hn Ho).
    - rewrite Hc, Z.eqb_refl. cbn [andb]. now apply order_key_eqb_eq.
    - intros o' _ HP. apply andb_true_iff in HP as (_ & HP).
      apply order_key_eqb_eq in HP. rewrite <- Hk in HP.
      unfold order_key_of in HP. now inversion HP. }
  exists o, (map (fun r => product_name (snd r)) (fed_rows (aggregate_rank db) rows)).
  subst k. simpl. unfold product_names, string_agg.
  rewrite <- Erows. repeat split; auto.
  - rewrite R. discriminate.
  - apply Permutation_map. unfold fed_rows. apply order_by_desc_perm.
Qed.

Lemma select_recent_orders_length (db : Database) (customer_id : Z) :
  (List.length (select_recent_orders db customer_id) <= 5)%nat.
Proof. unfold select_recent_orders, limit_rows. apply firstn_le_length. Qed.

(* ================================================================= *)
(** ** The operations in a healthy world *)

Lemma healthy_after_connection (cs : string) (w : World) :
  healthy w -> healthy (after_connection cs w).
Proof. intros H. exact H. Qed.

Lemma healthy_after_insert (cs : string) (customer_id : Z) (um ar : string) (w : World) :
  healthy w -> healthy (after_insert cs customer_id um ar w).
Proof. intros H. exact H. Qed.

Lemma healthy_held (w : World) : healthy w -> healthy (held w).
Proof. intros H. exact H. Qed.

Lemma pg_get_customer_context_healthy (cs : string) (customer_id : Z) (w : World) :
  healthy w ->
  PostgreSQLAdapter.get_customer_context cs customer_id w
  = (Return
       (match fetchone (select_customer_coalesce (storage w) customer_id) with
        | None => None
        | Some customer =>
            Some (context_of_rows (fun total => total) customer
                    (select_recent_orders (storage w) customer_id))
        end),
     after_connection cs w).
Proof.
  intros H. healthy_world w H.
  unfold PostgreSQLAdapter.get_customer_context, try_except, bind, connect,
    execute_select, driver_call, after_connection. simpl.
  destruct (fetchone (select_customer_coalesce db customer_id)); reflexivity.
Qed.

Lemma tsql_fetch_context_healthy (cs : string) (customer_id : Z) (w : World) :
  healthy w ->
  tsql_fetch_context cs customer_id w
  = (Return
       (match fetchone (select_customer_sum (storage w) customer_id) with
        | None => None
        | Some customer =>
            Some (context_of_rows float_or_zero customer
                    (select_recent_orders (storage w) customer_id))
        end),
     held (after_connection cs w)).
Proof.
  intros H. healthy_world w H.
  unfold tsql_fetch_context, with_connection, bind, connect,
    execute_select, driver_call, after_connection, held. simpl.
  destruct (fetchone (select_customer_sum db customer_id)); reflexivity.
Qed.

Lemma pg_get_conversation_history_healthy (cs : string) (customer_id limit : Z) (w : World) :
  healthy w -> 0 <= limit ->
  PostgreSQLAdapter.get_conversation_history cs customer_id limit w
  = (Return (map turn_of_row (rev (select_history (storage w) customer_id limit))),
     after_connection cs w).
Proof.
  intros H Hl. healthy_world w H.
  unfold PostgreSQLAdapter.get_conversation_history, try_except, bind, connect,
    execute_history, driver_call, after_connection. simpl.
  destruct (limit <? 0) eqn:E; [apply Z.ltb_lt in E; lia | reflexivity].
Qed.

Lemma tsql_fetch_history_healthy (cs : string) (customer_id limit : Z) (w : World) :
  healthy w -> 0 <= limit ->
  tsql_fetch_history cs customer_id limit w
  = (Return (map turn_of_row (rev (select_history (storage w) customer_id limit))),
     held (after_connection cs w)).
Proof.
  intros H Hl. healthy_world w H.
  unfold tsql_fetch_history, with_connection, bind, connect,
    execute_history, driver_call, after_connection, held. simpl.
  destruct (limit <? 0) eqn:E; [apply Z.ltb_lt in E; lia | reflexivity].
Qed.

Lemma pg_store_conversation_healthy (cs : string) (customer_id : Z) (um ar : string)
      (w : World) :
  healthy w ->
  PostgreSQLAdapter.store_conversation cs customer_id um ar w
  = (Return (PyInt (next_id (storage w))), after_insert cs customer_id um ar w).
Proof. intros H. healthy_world w H. reflexivity. Qed.

Lemma sql_store_conversation_healthy (cs : string) (customer_id : Z) (um ar : string)
      (w : World) :
  healthy w ->
  SQLDatabaseAdapter.store_conversation cs customer_id um ar w
  = (Return (PyInt (next_id (storage w))), held (after_insert cs customer_id um ar w)).
Proof. intros H. healthy_world w H. reflexivity. Qed.

Lemma save_conversation_healthy (env : Environ) (customer_id : Z) (um ar : string)
      (w : World) :
  healthy w ->
  SqlApp.save_conversation env customer_id um ar w
  = (Return PyNone, held (after_insert (sql_connection_string env) customer_id um ar w)).
Proof. intros H. healthy_world w H. reflexivity. Qed.

(* ================================================================= *)
(** ** Prompt assembly *)

Lemma history_loop (history : list Turn) (f : Locals) :
  let f' :=
    fold_left
      (fun f entry =>
         messages_append (mk_message "assistant" (turn_assistant entry))
           (messages_append (mk_message "user" (turn_user entry)) f))
      history f in
  l_messages f' = (l_messages f ++ history_messages history)%list
  /\ l_customer_context f' = l_customer_context f
  /\ l_conversation_history f' = l_conversation_history f
  /\ l_user_message f' = l_user_message f.
Proof.
  revert f. induction history as [|entry history IH]; intros f; simpl.
  - now rewrite app_nil_r.
  - destruct (IH (messages_append (mk_message "assistant" (turn_assistant entry))
                    (messages_append (mk_message "user" (turn_user entry)) f)))
      as (Hm & Hc & Hh & Hu).
    rewrite Hm, Hc, Hh, Hu. simpl. now rewrite <- !app_assoc.
Qed.

Lemma assemble_messages (system : string) (f : Locals) :
  l_messages (assemble system f)
  = mk_message "system" system
      :: (history_messages (l_conversation_history f)
            ++ [mk_message "user" (l_user_message f)])%list
  /\ l_customer_context (assemble system f) = l_customer_context f
  /\ l_conversation_history (assemble system f) = l_conversation_history f
  /\ l_user_message (assemble system f) = l_user_message f.
Proof.
  unfold assemble. cbv zeta.
  set (f0 := messages_assign [mk_message "system" system] f).
  destruct (history_loop (l_conversation_history f0) f0) as (Hm & Hc & Hh & Hu).
  cbv zeta in Hm, Hc, Hh, Hu.
  change (l_conversation_history f0) with (l_conversation_history f) in *.
  change (l_customer_context f0) with (l_customer_context f) in *.
  change (l_user_message f0) with (l_user_message f) in *.
  change (l_messages f0) with [mk_message "system" system] in *.
  set (loop := fold_left _ _ f0) in *.
  change (l_messages (messages_append (mk_message "user" (l_user_message loop)) loop))
    with (l_messages loop ++ [mk_message "user" (l_user_message loop)])%list.
  change (l_customer_context (messages_append (mk_message "user" (l_user_message loop)) loop))
    with (l_customer_context loop).
  change (l_conversation_history (messages_append (mk_message "user" (l_user_message loop)) loop))
    with (l_conversation_history loop).
  change (l_user_message (messages_append (mk_message "user" (l_user_message loop)) loop))
    with (l_user_message loop).
  rewrite Hm, Hu. simpl. auto.
Qed.

Lemma history_messages_length (history : list Turn) :
  List.length (history_messages history) = (2 * List.length history)%nat.
Proof. induction history as [|e h IH]; simpl; [reflexivity | rewrite IH; lia]. Qed.

Lemma assemble_length (system : string) (f : Locals) :
  List.length (l_messages (assemble system f))
  = (2 + 2 * List.length (l_conversation_history f))%nat.
Proof.
  rewrite (proj1 (assemble_messages system f)). simpl.
  rewrite length_app, history_messages_length. simpl. lia.
Qed.

(* ================================================================= *)
(** ** The request flow in a healthy world *)

Lemma implemented_backend_cases (env : Environ) :
  implemented_backend env = true ->
  lower (getenv_default env "DB_TYPE" "postgresql") = "sql"
  \/ lower (getenv_default env "DB_TYPE" "postgresql") = "postgresql".
Proof.
  unfold implemented_backend. cbv zeta. intros H.
  apply orb_true_iff in H as [H|H]; apply String.eqb_eq in H; auto.
Qed.

Lemma pg_app_run_postgresql (env : Environ) (llm : Model) (customer_id : Z)
      (user_message : string) (w : World) :
  healthy w ->
  lower (getenv_default env "DB_TYPE" "postgresql") = "postgresql" ->
  PgApp.generate_ai_response env llm customer_id user_message w
  = let cs := postgres_connection_string env in
    match fetchone (select_customer_coalesce (storage w) customer_id) with
    | None => (Return PgApp.not_found, after_connection cs w)
    | Some customer =>
        let customer_context :=
          context_of_rows (fun total => total) customer
            (select_recent_orders (storage w) customer_id) in
        let conversation_history :=
          map turn_of_row (rev (select_history (storage w) customer_id 5)) in
        let messages :=
          l_messages
            (PgApp.build_messages
               (mk_locals customer_context conversation_history user_message [])) in
        let w' :=
          after_model_call messages (after_connection cs (after_connection cs w)) in
        match llm messages with
        | Raise e => (Raise e, w')
        | Return ai_response =>
            (Return ai_response, after_insert cs customer_id user_message ai_response w')
        end
    end.
Proof.
  intros H Hl. healthy_world w H.
  unfold PgApp.generate_ai_response, DatabaseFactory.create_adapter. cbv zeta.
  rewrite Hl. cbn [String.eqb Ascii.eqb Bool.eqb]. 
  unfold bind at 1. cbn [ret get_customer_context].
  unfold bind at 1.
  rewrite pg_get_customer_context_healthy by reflexivity. cbn [storage].
  destruct (fetchone (select_customer_coalesce db customer_id)) as [customer|];
    [|reflexivity].
  unfold bind at 1. cbn [get_conversation_history].
  rewrite pg_get_conversation_history_healthy by (reflexivity || lia). 
  unfold bind at 1. unfold chat_completions_create at 1.
  cbn [after_connection storage open_connections connect_attempts faults model_calls stdout].
  destruct (llm _) as [ai_response|e]; [|reflexivity].
  unfold bind at 1. cbn [store_conversation].
  rewrite pg_store_conversation_healthy by reflexivity.
  reflexivity.
Qed.

Lemma pg_app_run_sql (env : Environ) (llm : Model) (customer_id : Z)
      (user_message : string) (w : World) :
  healthy w ->
  lower (getenv_default env "DB_TYPE" "postgresql") = "sql" ->
  PgApp.generate_ai_response env llm customer_id user_message w
  = let cs := sql_connection_string env in
    match fetchone (select_customer_sum (storage w) customer_id) with
    | None => (Return PgApp.not_found, held (after_connection cs w))
    | Some customer =>
        let customer_context :=
          context_of_rows float_or_zero customer
            (select_recent_orders (storage w) customer_id) in
        let conversation_history :=
          map turn_of_row (rev (select_history (storage w) customer_id 5)) in
        let messages :=
          l_messages
            (PgApp.build_messages
               (mk_locals customer_context conversation_history user_message [])) in
        let w' :=
          after_model_call messages
            (held (after_connection cs (held (after_connection cs w)))) in
        match llm messages with
        | Raise e => (Raise e, w')
        | Return ai_response =>
            (Return ai_response,
             held (after_insert cs customer_id user_message ai_response w'))
        end
    end.
Proof.
  intros H Hl. healthy_world w H.
  unfold PgApp.generate_ai_response, DatabaseFactory.create_adapter. cbv zeta.
  rewrite Hl. cbn [String.eqb Ascii.eqb Bool.eqb].
  unfold bind at 1. cbn [ret get_customer_context].
  unfold bind at 1. unfold SQLDatabaseAdapter.get_customer_context.
  rewrite tsql_fetch_context_healthy by reflexivity. cbn [storage].
  destruct (fetchone (select_customer_sum db customer_id)) as [customer|];
    [|reflexivity].
  unfold bind at 1. cbn [get_conversation_history].
  unfold SQLDatabaseAdapter.get_conversation_history.
  rewrite tsql_fetch_history_healthy by (reflexivity || lia).
  unfold bind at 1. unfold chat_completions_create at 1.
  cbn [after_connection held storage open_connections connect_attempts faults model_calls
       stdout].
  destruct (llm _) as [ai_response|e]; [|reflexivity].
  unfold bind at 1. cbn [store_conversation].
  rewrite sql_store_conversation_healthy by reflexivity.
  reflexivity.
Qed.

Lemma sql_app_run (env : Environ) (llm : Model) (customer_id : Z)
      (user_message : string) (w : World) :
  healthy w ->
  SqlApp.generate_ai_response env llm customer_id user_message w
  = let cs := sql_connection_string env in
    match fetchone (select_customer_sum (storage w) customer_id) with
    | None => (Return SqlApp.not_found, held (after_connection cs w))
    | Some customer =>
        let customer :=
          context_of_rows float_or_zero customer
            (select_recent_orders (storage w) customer_id) in
        let history :=
          map turn_of_row (rev (select_history (storage w) customer_id 5)) in
        let messages :=
          l_messages (SqlApp.build_messages (mk_locals customer history user_message [])) in
        let w' :=
          after_model_call messages
            (held (after_connection cs (held (after_connection cs w)))) in
        match llm messages with
        | Raise e => (Raise e, w')
        | Return ai_text =>
            (Return ai_text, held (after_insert cs customer_id user_message ai_text w'))
        end
    end.
Proof.
  intros H. healthy_world w H.
  unfold SqlApp.generate_ai_response. cbv zeta.
  unfold bind at 1. unfold SqlApp.get_customer_context, SqlApp.CONNECTION_STRING.
  rewrite tsql_fetch_context_healthy by reflexivity. cbn [storage].
  destruct (fetchone (select_customer_sum db customer_id)) as [customer|];
    [|reflexivity].
  unfold bind at 1. unfold SqlApp.get_conversation_history, SqlApp.CONNECTION_STRING.
  rewrite tsql_fetch_history_healthy by (reflexivity || lia).
  unfold bind at 1. unfold chat_completions_create at 1.
  cbn [after_connection held storage open_connections connect_attempts faults model_calls
       stdout].
  destruct (llm _) as [ai_text|e]; [|reflexivity].
  unfold bind at 1.
  rewrite save_conversation_healthy by reflexivity.
  reflexivity.
Qed.

(** What [chat] makes of the outcome of [generate_ai_response]. *)
Lemma chat_route_outcome (generate : Z -> string -> M string)
      (customer_id : Z) (message : string) (w : World) :
  customer_id <> 0 -> message <> EmptyString ->
  chat_route generate (mk_request (Some customer_id) (Some message)) w
  = match generate customer_id message w with
    | (Return reply, w') => (Return (JsonResponse reply, 200), w')
    | (Raise e, w') => (Return (JsonError (str_exc e), 500), w')
    end.
Proof.
  intros Hc Hm. unfold chat_route. cbn [req_customer_id req_message].
  apply Z.eqb_neq in Hc. rewrite Hc.
  destruct (String.eqb message EmptyString) eqn:E;
    [apply String.eqb_eq in E; contradiction|].
  cbn [orb]. unfold try_except, bind.
  destruct (generate customer_id message w) as [[reply|e] w']; reflexivity.
Qed.

(* ================================================================= *)
(** ** Conversation history *)

Lemma select_history_recent (db : Database) (customer_id limit : Z) :
  let stored := history_of db customer_id in
  let rows := rev (select_history db customer_id limit) in
  exists older,
    Permutation (rows ++ older) stored
    /\ List.length rows = Nat.min (Z.to_nat limit) (List.length stored)
    /\ (forall old new, In old older -> In new rows -> stamp old <= stamp new)
    /\ oldest_first rows.
Proof.
  cbv zeta. unfold select_history, limit_rows.
  change (fun r => instant (ch_timestamp r)) with stamp.
  set (sorted := order_by_desc stamp (history_of db customer_id)).
  set (n := Z.to_nat limit).
  assert (Hperm : Permutation sorted (history_of db customer_id))
    by apply order_by_desc_perm.
  assert (Hsorted : StronglySorted (fun a b => stamp b <= stamp a)
                      (firstn n sorted ++ skipn n sorted)).
  { rewrite firstn_skipn. apply order_by_desc_sorted. }
  apply sorted_app_inv in Hsorted as (Hfirst & _ & Hcross).
  exists (skipn n sorted). repeat split.
  - transitivity sorted; [|exact Hperm].
    transitivity (firstn n sorted ++ skipn n sorted)%list; [|now rewrite firstn_skipn].
    apply Permutation_app_tail. symmetry. apply Permutation_rev.
  - rewrite length_rev, length_firstn. now rewrite (Permutation_length Hperm).
  - intros old new Hold Hnew. apply in_rev in Hnew. now apply Hcross.
  - apply (sorted_rev _ _ Hfirst).
Qed.

(* ----------------------------------------------------------------- *)
(** *** The order of the returned timestamps *)

Lemma in_range (n z : Z) : 0 <= z < n -> In z (range n).
Proof.
  intros H. unfold range. apply in_map_iff. exists (Z.to_nat z). split; [lia|].
  apply in_seq. lia.
Qed.

Lemma comparison_eqb_eq (a b : comparison) : comparison_eqb a b = true -> a = b.
Proof. destruct a, b; simpl; congruence. Qed.

Lemma compare_app (a b s t : string) :
  String.length a = String.length b ->
  String.compare (a ++ s) (b ++ t)
  = match String.compare a b with
    | Eq => String.compare s t
    | c => c
    end.
Proof.
  revert b. induction a as [|x a IH]; intros [|y b]; simpl; try discriminate.
  - reflexivity.
  - intros H. injection H as H. rewrite (IH b H).
    destruct (Ascii.compare x y); reflexivity.
Qed.

Lemma pad2_table :
  forallb
    (fun m =>
       (Nat.eqb (String.length (pad2 m)) 2
        && forallb
             (fun n => comparison_eqb (String.compare (pad2 m) (pad2 n)) (m ?= n))
             (range 100))%bool)
    (range 100)
  = true.
Proof. vm_compute. reflexivity. Qed.

Lemma pad2_length (m : Z) : 0 <= m < 100 -> String.length (pad2 m) = 2%nat.
Proof.
  intros H. pose proof pad2_table as T. rewrite forallb_forall in T.
  specialize (T m (in_range 100 m ltac:(lia))).
  apply andb_true_iff in T as (T & _). now apply Nat.eqb_eq.
Qed.

Lemma pad2_compare (m n : Z) :
  0 <= m < 100 -> 0 <= n < 100 -> String.compare (pad2 m) (pad2 n) = (m ?= n).
Proof.
  intros Hm Hn. pose proof pad2_table as T. rewrite forallb_forall in T.
  specialize (T m (in_range 100 m ltac:(lia))).
  apply andb_true_iff in T as (_ & T). rewrite forallb_forall in T.
  apply comparison_eqb_eq. apply T. apply in_range. lia.
Qed.

Lemma pad4_table :
  forallb
    (fun y =>
       (Nat.eqb (String.length (pad4 y)) 4
        && String.eqb (pad4 y) (pad2 (y / 100) ++ pad2 (y mod 100)))%bool)
    (range 10000)
  = true.
Proof. vm_compute. reflexivity. Qed.

Lemma pad4_pad2 (y : Z) :
  0 <= y < 10000 -> pad4 y = pad2 (y / 100) ++ pad2 (y mod 100).
Proof.
  intros H. pose proof pad4_table as T. rewrite forallb_forall in T.
  specialize (T y (in_range 10000 y H)).
  apply andb_true_iff in T as (_ & T). now apply String.eqb_eq.
Qed.

Lemma compare_positional (a1 b1 a2 b2 B : Z) :
  0 <= b1 < B -> 0 <= b2 < B ->
  (a1 * B + b1 ?= a2 * B + b2)
  = match a1 ?= a2 with
    | Eq => b1 ?= b2
    | c => c
    end.
Proof.
  intros H1 H2. destruct (Z.compare_spec a1 a2) as [->|H|H].
  - apply Z.add_compare_mono_l.
  - apply Z.compare_lt_iff. nia.
  - apply Z.compare_gt_iff. nia.
Qed.

Lemma compare_pred (a b : Z) : (a - 1 ?= b - 1) = (a ?= b).
Proof.
  destruct (Z.compare_spec a b) as [->|H|H].
  - apply Z.compare_refl.
  - apply Z.compare_lt_iff. lia.
  - apply Z.compare_gt_iff. lia.
Qed.

Lemma pad4_length (y : Z) : 0 <= y < 10000 -> String.length (pad4 y) = 4%nat.
Proof.
  intros H. pose proof pad4_table as T. rewrite forallb_forall in T.
  specialize (T y (in_range 10000 y H)).
  apply andb_true_iff in T as (T & _). now apply Nat.eqb_eq.
Qed.

Lemma pad4_compare (y1 y2 : Z) :
  0 <= y1 < 10000 -> 0 <= y2 < 10000 -> String.compare (pad4 y1) (pad4 y2) = (y1 ?= y2).
Proof.
  intros H1 H2. rewrite (pad4_pad2 y1 H1), (pad4_pad2 y2 H2).
  assert (D1 : 0 <= y1 / 100 < 100)
    by (split; [apply Z.div_pos; lia | apply Z.div_lt_upper_bound; lia]).
  assert (D2 : 0 <= y2 / 100 < 100)
    by (split; [apply Z.div_pos; lia | apply Z.div_lt_upper_bound; lia]).
  assert (M1 : 0 <= y1 mod 100 < 100) by (apply Z.mod_pos_bound; lia).
  assert (M2 : 0 <= y2 mod 100 < 100) by (apply Z.mod_pos_bound; lia).
  rewrite compare_app by (now rewrite !pad2_length).
  rewrite !pad2_compare by assumption.
  rewrite (Z.div_mod y1 100) at 3 by lia. rewrite (Z.div_mod y2 100) at 3 by lia.
  rewrite (Z.mul_comm 100 (y1 / 100)), (Z.mul_comm 100 (y2 / 100)).
  symmetry. now apply compare_positional.
Qed.

Lemma valid_datetime_fields (d : datetime) :
  valid_datetime d = true ->
  1 <= year d <= 9999 /\ 1 <= month d <= 12 /\ 1 <= day d <= 31
  /\ 0 <= hour d <= 23 /\ 0 <= minute d <= 59 /\ 0 <= second d <= 59
  /\ 0 <= microsecond d <= 999999.
Proof.
  unfold valid_datetime. rewrite !andb_true_iff, !Z.leb_le. tauto.
Qed.

Lemma second_of_fields (d : datetime) :
  valid_datetime d = true ->
  second_of d
  = ((((year d * 12 + (month d - 1)) * 31 + (day d - 1)) * 24 + hour d) * 60
       + minute d) * 60 + second d.
Proof.
  intros V. apply valid_datetime_fields in V.
  unfold second_of, instant. rewrite Z.div_add_l by lia.
  rewrite Z.div_small by lia. lia.
Qed.

(** The text order of two formatted timestamps is the order of the seconds
    they name. *)
Lemma strftime_compare (a b : datetime) :
  valid_datetime a = true -> valid_datetime b = true ->
  String.compare (strftime_datetime a) (strftime_datetime b)
  = (second_of a ?= second_of b).
Proof.
  intros Va Vb. rewrite (second_of_fields a Va), (second_of_fields b Vb).
  apply valid_datetime_fields in Va, Vb.
  rewrite !compare_positional by lia.
  rewrite !compare_pred.
  unfold strftime_datetime.
  rewrite compare_app by (rewrite !pad4_length by lia; reflexivity).
  rewrite pad4_compare by lia.
  destruct (year a ?= year b); try reflexivity.
  change ("-" ++ ?x) with (String "-" x). cbn [String.compare].
  change (Ascii.compare "-" "-") with Eq. cbv iota.
  rewrite compare_app by (rewrite !pad2_length by lia; reflexivity).
  rewrite pad2_compare by lia.
  destruct (month a ?= month b); try reflexivity.
  change ("-" ++ ?x) with (String "-" x). cbn [String.compare].
  change (Ascii.compare "-" "-") with Eq. cbv iota.
  rewrite compare_app by (rewrite !pad2_length by lia; reflexivity).
  rewrite pad2_compare by lia.
  destruct (day a ?= day b); try reflexivity.
  change (" " ++ ?x) with (String " " x). cbn [String.compare].
  change (Ascii.compare " " " ") with Eq. cbv iota.
  rewrite compare_app by (rewrite !pad2_length by lia; reflexivity).
  rewrite pad2_compare by lia.
  destruct (hour a ?= hour b); try reflexivity.
  change (":" ++ ?x) with (String ":" x). cbn [String.compare].
  change (Ascii.compare ":" ":") with Eq. cbv iota.
  rewrite compare_app by (rewrite !pad2_length by lia; reflexivity).
  rewrite pad2_compare by lia.
  destruct (minute a ?= minute b); try reflexivity.
  change (":" ++ ?x) with (String ":" x). cbn [String.compare].
  change (Ascii.compare ":" ":") with Eq. cbv iota.
  apply pad2_compare; lia.
Qed.

Lemma second_of_le (a b : datetime) : instant a <= instant b -> second_of a <= second_of b.
Proof. intros H. unfold second_of. apply Z.div_le_mono; lia. Qed.

(** Rows read oldest first give turns whose timestamps never decrease, and
    increase when no two of the rows fall within one second. *)
Lemma turns_chronological (rows : list ConversationRow) :
  (forall r, In r rows -> valid_datetime (ch_timestamp r) = true) ->
  oldest_first rows ->
  chronological (map turn_of_row rows)
  /\ (NoDup (map (fun r => second_of (ch_timestamp r)) rows) ->
      strictly_chronological (map turn_of_row rows)).
Proof.
  intros Hv Hs.
  assert (Hsec : StronglySorted
                   (fun a b => second_of (ch_timestamp a) <= second_of (ch_timestamp b))
                   rows).
  { apply (sorted_strengthen _ _ _ Hs). intros a b _ _. apply second_of_le. }
  assert (Hmap : forall (P : Z -> Z -> Prop) (Q : string -> string -> Prop),
             (forall a b, In a rows -> In b rows ->
                          P (second_of (ch_timestamp a)) (second_of (ch_timestamp b)) ->
                          Q (turn_timestamp (turn_of_row a)) (turn_timestamp (turn_of_row b))) ->
             StronglySorted
               (fun a b => P (second_of (ch_timestamp a)) (second_of (ch_timestamp b))) rows ->
             StronglySorted (fun a b => Q (turn_timestamp a) (turn_timestamp b))
               (map turn_of_row rows)).
  { intros P Q. clear. induction rows as [|r rows IH]; intros HPQ HS; simpl; constructor.
    - apply IH.
      + intros a b Ha Hb. apply HPQ; now right.
      + now inversion HS.
    - inversion HS as [|? ? _ Hall]; subst. rewrite Forall_forall in *.
      intros t Ht. apply in_map_iff in Ht as (b & <- & Hb).
      apply HPQ; [now left | now right | now apply Hall]. }
  split.
  - apply (Hmap Z.le (fun s t => String.leb s t = true)); [|exact Hsec].
    intros a b Ha Hb Hle. cbn [turn_of_row turn_timestamp]. unfold String.leb.
    rewrite strftime_compare by (apply Hv; assumption).
    destruct (Z.compare_spec (second_of (ch_timestamp a)) (second_of (ch_timestamp b)));
      [reflexivity | reflexivity | lia].
  - intros Hn.
    apply (Hmap Z.lt (fun s t => String.ltb s t = true)).
    + intros a b Ha Hb Hlt. cbn [turn_of_row turn_timestamp]. unfold String.ltb.
      rewrite strftime_compare by (apply Hv; assumption).
      now rewrite (proj2 (Z.compare_lt_iff _ _) Hlt).
    + now apply (sorted_distinct_strict (fun r => second_of (ch_timestamp r))).
Qed.

(** C1, as amended.  With the storage answering, in the two adapters and in
    the SQL application alike: a negative [limit] makes the statement fail;
    for a non-negative [limit] the operation returns the rows of
    [ORDER BY timestamp DESC LIMIT limit], reversed, one turn per row.  They
    are at most [limit] (exactly the smaller of [limit] and the number of
    the customer's stored turns), no stored turn left out is more recent
    than a returned one, and the rows are read oldest first.  The
    timestamps the operation returns are texts to the second; for stored
    timestamps that are calendar dates they never decrease along the
    returned sequence, and they increase when no two stored turns of the
    customer fall within the same second.  No stored turn gives the empty
    sequence. *)
Theorem history_most_recent_oldest_first :
  forall (env : Environ) (cs : string) (w : World) (customer_id limit : Z),
    healthy w ->
    let stored := history_of (storage w) customer_id in
    (limit < 0 ->
     (exists e, fst (PostgreSQLAdapter.get_conversation_history cs customer_id limit w)
                = Raise e)
     /\ (exists e, fst (SQLDatabaseAdapter.get_conversation_history cs customer_id limit w)
                   = Raise e)
     /\ (exists e, fst (SqlApp.get_conversation_history env customer_id limit w)
                   = Raise e))
    /\ (0 <= limit ->
        exists rows older,
          fst (PostgreSQLAdapter.get_conversation_history cs customer_id limit w)
          = Return (map turn_of_row rows)
          /\ fst (SQLDatabaseAdapter.get_conversation_history cs customer_id limit w)
             = Return (map turn_of_row rows)
          /\ fst (SqlApp.get_conversation_history env customer_id limit w)
             = Return (map turn_of_row rows)
          /\ rows = reversed (select_history (storage w) customer_id limit)
          /\ List.length (map turn_of_row rows)
             = Nat.min (Z.to_nat limit) (List.length stored)
          /\ Z.of_nat (List.length (map turn_of_row rows)) <= limit
          /\ Permutation (rows ++ older) stored
          /\ (forall old new, In old older -> In new rows -> stamp old <= stamp new)
          /\ oldest_first rows
          /\ (forallb (fun r => valid_datetime (ch_timestamp r)) stored = true ->
              chronological (map turn_of_row rows)
              /\ (NoDup (map (fun r => second_of (ch_timestamp r)) stored) ->
                  strictly_chronological (map turn_of_row rows)))
          /\ (stored = [] -> rows = [])).
Proof.
  intros env cs w customer_id limit H. cbv zeta. split.
  - intros Hneg. healthy_world w H.
    assert (E : (limit <? 0) = true) by now apply Z.ltb_lt.
    unfold SqlApp.get_conversation_history, SQLDatabaseAdapter.get_conversation_history,
      PostgreSQLAdapter.get_conversation_history, tsql_fetch_history, with_connection,
      try_except, bind, connect, execute_history, driver_call.
    simpl. rewrite E. simpl. repeat split; eexists; reflexivity.
  - intros Hpos.
    destruct (select_history_recent (storage w) customer_id limit)
      as (older & Hperm & Hlen & Hrecent & Hsorted).
    exists (rev (select_history (storage w) customer_id limit)), older.
    unfold SqlApp.get_conversation_history, SQLDatabaseAdapter.get_conversation_history.
    rewrite pg_get_conversation_history_healthy, !tsql_fetch_history_healthy by assumption.
    rewrite length_map.
    split; [reflexivity|]. split; [reflexivity|]. split; [reflexivity|].
    split; [reflexivity|]. split; [exact Hlen|]. split; [rewrite Hlen; lia|].
    split; [exact Hperm|]. split; [exact Hrecent|]. split; [exact Hsorted|].
    split.
    + intros Hv. rewrite forallb_forall in Hv.
      assert (Hin : forall r, In r (rev (select_history (storage w) customer_id limit)) ->
                              In r (history_of (storage w) customer_id)).
      { intros r Hr. apply (Permutation_in _ Hperm). apply in_or_app. now left. }
      destruct (turns_chronological (rev (select_history (storage w) customer_id limit)))
        as (Hc & Hstrict); [intros r Hr; apply Hv; now apply Hin | exact Hsorted |].
      split; [exact Hc|].
      intros Hn. apply Hstrict.
      apply (Permutation_map (fun r => second_of (ch_timestamp r))) in Hperm.
      rewrite map_app in Hperm. apply Permutation_sym in Hperm.
      apply (Permutation_NoDup Hperm) in Hn.
      now apply NoDup_app_remove_r in Hn.
    + intros Hempty. rewrite Hempty in Hlen.
      rewrite Nat.min_0_r in Hlen. now apply length_zero_iff_nil.
Qed.

Lemma history_most_recent_oldest_first_witness :
  exists rows,
    fst (PostgreSQLAdapter.get_conversation_history "dsn" 42 3 (Sample.world Sample.shop))
    = Return (map turn_of_row rows)
    /\ fst (SQLDatabaseAdapter.get_conversation_history "dsn" 42 3 (Sample.world Sample.shop))
       = Return (map turn_of_row rows)
    /\ fst (SqlApp.get_conversation_history Sample.env 42 3 (Sample.world Sample.shop))
       = Return (map turn_of_row rows)
    /\ rows = reversed (select_history Sample.shop 42 3)
    /\ Z.of_nat (List.length (map turn_of_row rows)) <= 3
    /\ oldest_first rows
    /\ chronological (map turn_of_row rows)
    /\ strictly_chronological (map turn_of_row rows).
Proof.
  destruct (proj2 (history_most_recent_oldest_first Sample.env "dsn"
                     (Sample.world Sample.shop) 42 3 eq_refl) ltac:(lia))
    as (rows & older & Hpg & Hsql & Happ & Hrows & _ & Hmost & _ & _ & Hold & Hturns & _).
  destruct (Hturns eq_refl) as (Hc & Hstrict).
  exists rows. repeat split; try assumption.
  apply Hstrict. vm_compute. repeat constructor; simpl; intuition discriminate.
Defined.

(** The round trip of the specification: turns T1..T5 stored in order, the
    three most recent are returned oldest first. *)
Example history_round_trip :
  fst (PostgreSQLAdapter.get_conversation_history "dsn" 42 3 (Sample.world Sample.shop))
  = Return [mk_turn "T3" "R3" "2024-05-17 09:30:03";
            mk_turn "T4" "R4" "2024-05-17 09:30:04";
            mk_turn "T5" "R5" "2024-05-17 09:30:05"].
Proof. reflexivity. Qed.

(** C1 as stated fails: two turns of one customer are stored half a second
    apart, with different timestamps; both are returned, with the same
    timestamp text, so the returned sequence is not strictly chronological.
    And for the limit -1 nothing is returned: the engine rejects the
    statement. *)
Lemma history_same_second_not_strict :
  NoDup (map stamp (history_of Sample.same_second 42))
  /\ forallb (fun r => valid_datetime (ch_timestamp r)) (history_of Sample.same_second 42)
     = true
  /\ (exists turns,
         fst (PostgreSQLAdapter.get_conversation_history "dsn" 42 5
                (Sample.world Sample.same_second))
         = Return turns
         /\ fst (SqlApp.get_conversation_history Sample.env 42 5
                   (Sample.world Sample.same_second))
            = Return turns
         /\ (List.length turns <= 5)%nat
         /\ map turn_timestamp turns = ["2024-05-17 09:30:01"; "2024-05-17 09:30:01"]
         /\ ~ strictly_chronological turns)
  /\ fst (PostgreSQLAdapter.get_conversation_history "dsn" 42 (-1)
            (Sample.world Sample.same_second))
     = Raise (DriverError "LIMIT must not be negative").
Proof.
  split.
  { vm_compute. repeat constructor; simpl; intuition discriminate. }
  split; [reflexivity|]. split; [|reflexivity].
  eexists. split; [reflexivity|]. split; [reflexivity|].
  split; [simpl; lia|]. split; [reflexivity|].
  intros Hs. inversion Hs as [|? ? _ Hall]; subst.
  inversion Hall as [|? ? Hlt _]; subst. vm_compute in Hlt. discriminate.
Qed.

(* ================================================================= *)
(** ** Customer context *)

Lemma float_or_zero_coalesce (x : option money) : float_or_zero x = coalesce0 x.
Proof.
  destruct x as [v|]; simpl; [|reflexivity].
  destruct (v =? 0) eqn:E; [apply Z.eqb_eq in E; now subst | reflexivity].
Qed.

(** For a stored customer the three implementations return the same dict,
    built from the first group of the aggregate statement and the rows of
    the detail statement. *)
Lemma get_customer_context_known (env : Environ) (cs : string) (w : World)
      (customer_id : Z) :
  healthy w ->
  customer_exists (storage w) customer_id = true ->
  exists id f l e p rows rest,
    customer_groups (storage w) customer_id = ((id, f, l, e, p), rows) :: rest
    /\ let customer_context :=
         mk_context (f ++ " " ++ l) e p (count_orders rows)
           (coalesce0 (sum_amounts rows))
           (map summary_of_row (select_recent_orders (storage w) customer_id)) in
       fst (PostgreSQLAdapter.get_customer_context cs customer_id w)
       = Return (Some customer_context)
       /\ fst (SQLDatabaseAdapter.get_customer_context cs customer_id w)
          = Return (Some customer_context)
       /\ fst (SqlApp.get_customer_context env customer_id w)
          = Return (Some customer_context).
Proof.
  intros H Hc.
  destruct (customer_groups (storage w) customer_id) as [|[[[[[id f] l] e] p] rows] rest] eqn:G;
    [now elim (customer_exists_groups _ _ Hc)|].
  exists id, f, l, e, p, rows, rest. split; [reflexivity|]. cbv zeta.
  unfold SqlApp.get_customer_context, SQLDatabaseAdapter.get_customer_context.
  rewrite pg_get_customer_context_healthy, !tsql_fetch_context_healthy by assumption.
  unfold select_customer_coalesce, select_customer_sum. rewrite G.
  cbn [map fetchone hd_error fst snd]. unfold context_of_rows.
  cbn [agg_first_name agg_last_name agg_email agg_phone agg_total_orders agg_total_spent].
  rewrite float_or_zero_coalesce. auto.
Qed.

Lemma select_customer_absent (db : Database) (customer_id : Z) :
  customer_exists db customer_id = false ->
  fetchone (select_customer_coalesce db customer_id) = None
  /\ fetchone (select_customer_sum db customer_id) = None.
Proof.
  intros H. unfold select_customer_coalesce, select_customer_sum.
  now rewrite (customer_absent_groups _ _ H).
Qed.

Lemma select_history_empty (db : Database) (customer_id limit : Z) :
  history_of db customer_id = [] -> select_history db customer_id limit = [].
Proof.
  intros H. unfold select_history, limit_rows. rewrite H. simpl. apply firstn_nil.
Qed.

(** C3.  With the storage answering, for a stored customer without orders
    the two adapters and the SQL application return a context (not [None])
    whose [total_orders] is 0, whose [total_spent] is 0 and whose
    [recent_orders] is empty. *)
Theorem zero_orders_context :
  forall (env : Environ) (cs : string) (w : World) (customer_id : Z),
    healthy w ->
    customer_exists (storage w) customer_id = true ->
    has_orders (storage w) customer_id = false ->
    exists customer_context,
      fst (PostgreSQLAdapter.get_customer_context cs customer_id w)
      = Return (Some customer_context)
      /\ fst (SQLDatabaseAdapter.get_customer_context cs customer_id w)
         = Return (Some customer_context)
      /\ fst (SqlApp.get_customer_context env customer_id w)
         = Return (Some customer_context)
      /\ total_orders customer_context = 0
      /\ total_spent customer_context = 0
      /\ recent_orders customer_context = [].
Proof.
  intros env cs w customer_id H Hc Ho.
  destruct (get_customer_context_known env cs w customer_id H Hc)
    as (id & f & l & e & p & rows & rest & G & Hpg & Hsql & Happ).
  eexists. split; [exact Hpg|]. split; [exact Hsql|]. split; [exact Happ|].
  assert (Hnone : forall r, In r rows -> snd r = None).
  { apply (customer_groups_no_orders (storage w) customer_id (id, f, l, e, p)); [exact Ho|].
    rewrite G. now left. }
  cbn [total_orders total_spent recent_orders].
  rewrite (count_orders_none _ Hnone), (sum_amounts_none _ Hnone).
  rewrite (select_recent_orders_no_orders _ _ Ho). auto.
Qed.

Lemma zero_orders_context_witness :
  exists customer_context,
    fst (PostgreSQLAdapter.get_customer_context "dsn" 7 (Sample.world Sample.shop))
    = Return (Some customer_context)
    /\ fst (SQLDatabaseAdapter.get_customer_context "dsn" 7 (Sample.world Sample.shop))
       = Return (Some customer_context)
    /\ fst (SqlApp.get_customer_context Sample.env 7 (Sample.world Sample.shop))
       = Return (Some customer_context)
    /\ total_orders customer_context = 0
    /\ total_spent customer_context = 0
    /\ recent_orders customer_context = [].
Proof.
  apply (zero_orders_context Sample.env "dsn" (Sample.world Sample.shop) 7);
    reflexivity.
Defined.

(** C5, as amended.  With the storage answering and [order_id] identifying
    the rows of [orders], for a stored customer the three implementations
    return a context with at most five [recent_orders]; each of them is an
    order of that customer that has line items, and its [products] is the
    names of the products on those line items, each once per line item,
    joined by [", "] in the order the engine fed them to the aggregate; an
    order without line items is not among [recent_orders]. *)
Theorem recent_orders_products :
  forall (env : Environ) (cs : string) (w : World) (customer_id : Z),
    healthy w ->
    customer_exists (storage w) customer_id = true ->
    NoDup (map o_order_id (t_orders (storage w))) ->
    exists customer_context,
      fst (PostgreSQLAdapter.get_customer_context cs customer_id w)
      = Return (Some customer_context)
      /\ fst (SQLDatabaseAdapter.get_customer_context cs customer_id w)
         = Return (Some customer_context)
      /\ fst (SqlApp.get_customer_context env customer_id w)
         = Return (Some customer_context)
      /\ (List.length (recent_orders customer_context) <= 5)%nat
      /\ (forall summary,
             In summary (recent_orders customer_context) ->
             exists o names,
               In o (t_orders (storage w))
               /\ o_customer_id o = customer_id
               /\ order_id summary = o_order_id o
               /\ names <> []
               /\ Permutation names (product_names (storage w) o)
               /\ products summary = join ", " names)
      /\ (forall o summary,
             In o (t_orders (storage w)) ->
             product_names (storage w) o = [] ->
             In summary (recent_orders customer_context) ->
             order_id summary <> o_order_id o).
Proof.
  intros env cs w customer_id H Hc Hn.
  destruct (get_customer_context_known env cs w customer_id H Hc)
    as (id & f & l & e & p & rows & rest & G & Hpg & Hsql & Happ).
  eexists. split; [exact Hpg|]. split; [exact Hsql|]. split; [exact Happ|].
  cbn [recent_orders].
  assert (Hrows : forall summary,
             In summary (map summary_of_row (select_recent_orders (storage w) customer_id)) ->
             exists o names,
               In o (t_orders (storage w))
               /\ o_customer_id o = customer_id
               /\ order_id summary = o_order_id o
               /\ names <> []
               /\ Permutation names (product_names (storage w) o)
               /\ products summary = join ", " names).
  { intros summary Hs. apply in_map_iff in Hs as (row & <- & Hrow).
    destruct (select_recent_orders_rows _ _ _ Hn Hrow)
      as (o & names & Ho & Hcust & Hid & _ & _ & _ & Hne & Hperm & Hprod).
    exists o, names. cbn [summary_of_row order_id products].
    repeat split; auto.
    intros ->. apply Permutation_nil in Hperm. contradiction. }
  split; [rewrite length_map; apply select_recent_orders_length|].
  split; [exact Hrows|].
  intros o summary Ho Hempty Hs Hid.
  destruct (Hrows summary Hs) as (o' & names & Ho' & _ & Hid' & Hne & Hperm & _).
  assert (o' = o).
  { rewrite Hid in Hid'. clear - Hn Ho Ho' Hid'.
    induction (t_orders (storage w)) as [|a os IH]; [contradiction|].
    simpl in Hn. inversion Hn as [|? ? Ha Hn']; subst.
    destruct Ho as [->|Ho], Ho' as [->|Ho']; auto.
    - elim Ha. rewrite Hid'. now apply in_map.
    - elim Ha. rewrite <- Hid'. now apply in_map. }
  subst o'. rewrite Hempty in Hperm.
  apply Permutation_sym, Permutation_nil in Hperm. contradiction.
Qed.

Lemma recent_orders_products_witness :
  let db := Sample.fed_by (fun _ p => p_product_id p) Sample.shop in
  exists customer_context,
    fst (PostgreSQLAdapter.get_customer_context "dsn" 42 (Sample.world db))
    = Return (Some customer_context)
    /\ fst (SQLDatabaseAdapter.get_customer_context "dsn" 42 (Sample.world db))
       = Return (Some customer_context)
    /\ fst (SqlApp.get_customer_context Sample.env 42 (Sample.world db))
       = Return (Some customer_context)
    /\ (List.length (recent_orders customer_context) <= 5)%nat
    /\ (forall summary,
           In summary (recent_orders customer_context) ->
           exists o names,
             In o (t_orders db)
             /\ o_customer_id o = 42
             /\ order_id summary = o_order_id o
             /\ names <> []
             /\ Permutation names (product_names db o)
             /\ products summary = join ", " names)
    /\ (forall o summary,
           In o (t_orders db) ->
           product_names db o = [] ->
           In summary (recent_orders customer_context) ->
           order_id summary <> o_order_id o).
Proof.
  intros db.
  apply (recent_orders_products Sample.env "dsn" (Sample.world db) 42).
  - reflexivity.
  - reflexivity.
  - simpl. repeat constructor; simpl; intuition discriminate.
Defined.

(** The scenario of the specification: customer 42, two orders totalling
    150.00; the order with the two products reads [Widget, Gadget] in an
    engine that feeds the aggregate in the order of the join, and
    [Gadget, Widget] in one that feeds it by descending product
    identifier. *)
Example context_of_customer_42 :
  fst (PostgreSQLAdapter.get_customer_context "dsn" 42 (Sample.world Sample.shop))
  = Return (Some (mk_context "Ada Lovelace" "ada@example.com" "555-0100" 2 15000
                    [mk_order_summary 2 "2024-05-17" 5000 "pending" "Widget";
                     mk_order_summary 1 "2024-05-17" 10000 "shipped" "Widget, Gadget"]))
  /\ fst (PostgreSQLAdapter.get_customer_context "dsn" 42
            (Sample.world (Sample.fed_by (fun _ p => p_product_id p) Sample.shop)))
     = Return (Some (mk_context "Ada Lovelace" "ada@example.com" "555-0100" 2 15000
                       [mk_order_summary 2 "2024-05-17" 5000 "pending" "Widget";
                        mk_order_summary 1 "2024-05-17" 10000 "shipped" "Gadget, Widget"])).
Proof. split; reflexivity. Qed.

(** C5 as stated fails: customer 9 has one order, number 3, without line
    items; it is counted in [total_orders] and missing from
    [recent_orders]. *)
Lemma order_without_items_missing :
  exists customer_context,
    fst (PostgreSQLAdapter.get_customer_context "dsn" 9 (Sample.world Sample.shop))
    = Return (Some customer_context)
    /\ fst (SqlApp.get_customer_context Sample.env 9 (Sample.world Sample.shop))
       = Return (Some customer_context)
    /\ In (mk_order 3 9 (Sample.at_second 3) 2500 "processing") (t_orders Sample.shop)
    /\ product_names Sample.shop (mk_order 3 9 (Sample.at_second 3) 2500 "processing") = []
    /\ total_orders customer_context = 1
    /\ recent_orders customer_context = []
    /\ ~ (exists summary,
            In summary (recent_orders customer_context)
            /\ order_id summary = 3 /\ products summary = EmptyString).
Proof.
  eexists. split; [reflexivity|]. split; [reflexivity|].
  split; [simpl; tauto|]. split; [reflexivity|]. split; [reflexivity|].
  split; [reflexivity|]. intros (summary & [] & _).
Qed.

(* ================================================================= *)
(** ** Prompt assembly and the model call *)

Lemma select_customer_known (db : Database) (customer_id : Z) :
  customer_exists db customer_id = true ->
  (exists customer, fetchone (select_customer_coalesce db customer_id) = Some customer)
  /\ (exists customer, fetchone (select_customer_sum db customer_id) = Some customer).
Proof.
  intros H. unfold select_customer_coalesce, select_customer_sum.
  destruct (customer_groups db customer_id) as [|g gs] eqn:G;
    [now elim (customer_exists_groups _ _ H)|].
  split; eexists; reflexivity.
Qed.

(** C2.  In both applications the assembled list is the system message,
    then a user and an assistant message for each history turn in order,
    then one user message holding the new message; its length is
    [2 + 2 * len(history)]; the customer context, the history and the new
    message are left as they were.  With the storage answering and one of
    the implemented backends selected, for a stored customer without
    stored turns the list sent to the model is the system message followed
    by the user message. *)
Theorem prompt_assembly_shape :
  forall (f : Locals) (env : Environ) (llm : Model) (w : World)
         (customer_id : Z) (new_message : string),
    (l_messages (PgApp.build_messages f)
     = mk_message "system" (PgApp.system_message (l_customer_context f))
         :: (history_messages (l_conversation_history f)
               ++ [mk_message "user" (l_user_message f)])%list
     /\ l_messages (SqlApp.build_messages f)
        = mk_message "system" (SqlApp.system_prompt (l_customer_context f))
            :: (history_messages (l_conversation_history f)
                  ++ [mk_message "user" (l_user_message f)])%list
     /\ List.length (l_messages (PgApp.build_messages f))
        = (2 + 2 * List.length (l_conversation_history f))%nat
     /\ List.length (l_messages (SqlApp.build_messages f))
        = (2 + 2 * List.length (l_conversation_history f))%nat
     /\ l_customer_context (PgApp.build_messages f) = l_customer_context f
     /\ l_conversation_history (PgApp.build_messages f) = l_conversation_history f
     /\ l_user_message (PgApp.build_messages f) = l_user_message f
     /\ l_customer_context (SqlApp.build_messages f) = l_customer_context f
     /\ l_conversation_history (SqlApp.build_messages f) = l_conversation_history f
     /\ l_user_message (SqlApp.build_messages f) = l_user_message f)
    /\ (healthy w ->
        implemented_backend env = true ->
        customer_exists (storage w) customer_id = true ->
        history_of (storage w) customer_id = [] ->
        (exists customer_context,
            model_calls (snd (PgApp.generate_ai_response env llm customer_id new_message w))
            = (model_calls w
                 ++ [[mk_message "system" (PgApp.system_message customer_context);
                      mk_message "user" new_message]])%list)
        /\ (exists customer,
               model_calls (snd (SqlApp.generate_ai_response env llm customer_id new_message w))
               = (model_calls w
                    ++ [[mk_message "system" (SqlApp.system_prompt customer);
                         mk_message "user" new_message]])%list)).
Proof.
  intros f env llm w customer_id new_message. split.
  - unfold PgApp.build_messages, SqlApp.build_messages.
    destruct (assemble_messages (PgApp.system_message (l_customer_context f)) f)
      as (Hm & Hc & Hh & Hu).
    destruct (assemble_messages (SqlApp.system_prompt (l_customer_context f)) f)
      as (Hm' & Hc' & Hh' & Hu').
    rewrite !assemble_length. repeat split; assumption.
  - intros H Hb Hc Hh.
    destruct (select_customer_known _ _ Hc) as ((cpg & Epg) & (csql & Esql)).
    pose proof (select_history_empty _ _ 5 Hh) as Eh.
    split.
    + destruct (implemented_backend_cases env Hb) as [Hl|Hl].
      * rewrite (pg_app_run_sql env llm customer_id new_message w H Hl).
        cbv zeta. rewrite Esql, Eh. eexists.
        destruct (llm _); reflexivity.
      * rewrite (pg_app_run_postgresql env llm customer_id new_message w H Hl).
        cbv zeta. rewrite Epg, Eh. eexists.
        destruct (llm _); reflexivity.
    + rewrite (sql_app_run env llm customer_id new_message w H).
      cbv zeta. rewrite Esql, Eh. eexists.
      destruct (llm _); reflexivity.
Qed.

Lemma prompt_assembly_shape_witness :
  (exists customer_context,
      model_calls (snd (PgApp.generate_ai_response Sample.env Sample.llm 7
                          "Where is my order?" (Sample.world Sample.shop)))
      = ([] ++ [[mk_message "system" (PgApp.system_message customer_context);
                 mk_message "user" "Where is my order?"]])%list)
  /\ (exists customer,
         model_calls (snd (SqlApp.generate_ai_response Sample.env Sample.llm 7
                             "Where is my order?" (Sample.world Sample.shop)))
         = ([] ++ [[mk_message "system" (SqlApp.system_prompt customer);
                    mk_message "user" "Where is my order?"]])%list).
Proof.
  apply (proj2 (prompt_assembly_shape
                  (mk_locals (mk_context "Grace Hopper" "grace@example.com" EmptyString 0 0 [])
                     [] "Where is my order?" [])
                  Sample.env Sample.llm (Sample.world Sample.shop) 7 "Where is my order?"));
    reflexivity.
Defined.

(** C10.  In both applications the first message of the assembled list is
    the system message rendered from the customer context; it is the same
    whatever the history, the new message and the previous content of
    [messages]. *)
Theorem system_message_depends_on_context_only :
  forall (customer_context : CustomerContext)
         (history1 history2 : list Turn) (message1 message2 : string)
         (messages1 messages2 : list Message),
    let f1 := mk_locals customer_context history1 message1 messages1 in
    let f2 := mk_locals customer_context history2 message2 messages2 in
    hd_error (l_messages (PgApp.build_messages f1))
    = Some (mk_message "system" (PgApp.system_message customer_context))
    /\ hd_error (l_messages (PgApp.build_messages f1))
       = hd_error (l_messages (PgApp.build_messages f2))
    /\ hd_error (l_messages (SqlApp.build_messages f1))
       = Some (mk_message "system" (SqlApp.system_prompt customer_context))
    /\ hd_error (l_messages (SqlApp.build_messages f1))
       = hd_error (l_messages (SqlApp.build_messages f2)).
Proof.
  intros customer_context history1 history2 message1 message2 messages1 messages2.
  cbv zeta. unfold PgApp.build_messages, SqlApp.build_messages.
  rewrite !(proj1 (assemble_messages _ _)). simpl. auto.
Qed.

(* ================================================================= *)
(** ** The customer that is not stored *)

(** C4.  With the storage answering and one of the implemented backends
    selected, for a customer identifier that is not stored: the three
    implementations of [get_customer_context] return [None]; in both
    applications [generate_ai_response] returns the fixed not-found
    sentence and [chat], for a request that passes validation, answers it
    as a response with status 200; no message list was sent to the model
    and the storage is as before. *)
Theorem absent_customer_not_found :
  forall (env : Environ) (llm : Model) (cs : string) (w : World)
         (customer_id : Z) (message : string),
    healthy w ->
    customer_exists (storage w) customer_id = false ->
    implemented_backend env = true ->
    customer_id <> 0 ->
    message <> EmptyString ->
    fst (PostgreSQLAdapter.get_customer_context cs customer_id w) = Return None
    /\ fst (SQLDatabaseAdapter.get_customer_context cs customer_id w) = Return None
    /\ fst (SqlApp.get_customer_context env customer_id w) = Return None
    /\ (exists w',
           PgApp.generate_ai_response env llm customer_id message w
           = (Return PgApp.not_found, w')
           /\ PgApp.chat env llm (mk_request (Some customer_id) (Some message)) w
              = (Return (JsonResponse PgApp.not_found, 200), w')
           /\ storage w' = storage w
           /\ model_calls w' = model_calls w)
    /\ (exists w',
           SqlApp.generate_ai_response env llm customer_id message w
           = (Return SqlApp.not_found, w')
           /\ SqlApp.chat env llm (mk_request (Some customer_id) (Some message)) w
              = (Return (JsonResponse SqlApp.not_found, 200), w')
           /\ storage w' = storage w
           /\ model_calls w' = model_calls w).
Proof.
  intros env llm cs w customer_id message H Ha Hb Hc Hm.
  destruct (select_customer_absent _ _ Ha) as (Epg & Esql).
  unfold SqlApp.get_customer_context, SQLDatabaseAdapter.get_customer_context.
  rewrite pg_get_customer_context_healthy, !tsql_fetch_context_healthy by assumption.
  rewrite Epg, Esql.
  split; [reflexivity|]. split; [reflexivity|]. split; [reflexivity|].
  unfold PgApp.chat, SqlApp.chat. rewrite !chat_route_outcome by assumption.
  rewrite (sql_app_run env llm customer_id message w H). cbv zeta. rewrite Esql.
  split; [|eexists; repeat split; reflexivity].
  destruct (implemented_backend_cases env Hb) as [Hl|Hl].
  - rewrite (pg_app_run_sql env llm customer_id message w H Hl). cbv zeta.
    rewrite Esql. eexists; repeat split; reflexivity.
  - rewrite (pg_app_run_postgresql env llm customer_id message w H Hl). cbv zeta.
    rewrite Epg. eexists; repeat split; reflexivity.
Qed.

Lemma absent_customer_not_found_witness :
  fst (PostgreSQLAdapter.get_customer_context "dsn" 1000 (Sample.world Sample.shop))
  = Return None
  /\ fst (SQLDatabaseAdapter.get_customer_context "dsn" 1000 (Sample.world Sample.shop))
     = Return None
  /\ fst (SqlApp.get_customer_context Sample.env 1000 (Sample.world Sample.shop))
     = Return None
  /\ (exists w',
         PgApp.generate_ai_response Sample.env Sample.llm 1000 "Where is my order?"
           (Sample.world Sample.shop)
         = (Return PgApp.not_found, w')
         /\ PgApp.chat Sample.env Sample.llm
              (mk_request (Some 1000) (Some "Where is my order?"))
              (Sample.world Sample.shop)
            = (Return (JsonResponse PgApp.not_found, 200), w')
         /\ storage w' = storage (Sample.world Sample.shop)
         /\ model_calls w' = model_calls (Sample.world Sample.shop))
  /\ (exists w',
         SqlApp.generate_ai_response Sample.env Sample.llm 1000 "Where is my order?"
           (Sample.world Sample.shop)
         = (Return SqlApp.not_found, w')
         /\ SqlApp.chat Sample.env Sample.llm
              (mk_request (Some 1000) (Some "Where is my order?"))
              (Sample.world Sample.shop)
            = (Return (JsonResponse SqlApp.not_found, 200), w')
         /\ storage w' = storage (Sample.world Sample.shop)
         /\ model_calls w' = model_calls (Sample.world Sample.shop)).
Proof.
  apply (absent_customer_not_found Sample.env Sample.llm "dsn" (Sample.world Sample.shop)
           1000 "Where is my order?");
    try reflexivity; discriminate.
Defined.

(* ================================================================= *)
(** ** Storing a turn *)

(** C6, as amended.  Whenever a store operation returns, the table
    [conversation_history] is the former table followed by one new row, the
    row of the call with the next identity value, and the other tables are
    as before.  [PostgreSQLAdapter.store_conversation] and
    [SQLDatabaseAdapter.store_conversation] return the identifier of that
    row; [save_conversation] of the SQL application returns [None]. *)
Theorem store_inserts_one_row :
  forall (env : Environ) (cs : string) (w : World) (customer_id : Z)
         (user_message ai_response : string),
    let row := inserted_row (storage w) customer_id user_message ai_response in
    let one_row_more (w' : World) :=
      t_conversation_history (storage w')
      = (t_conversation_history (storage w) ++ [row])%list
      /\ t_customers (storage w') = t_customers (storage w)
      /\ t_orders (storage w') = t_orders (storage w)
      /\ t_order_items (storage w') = t_order_items (storage w)
      /\ t_products (storage w') = t_products (storage w) in
    (forall v w',
        PostgreSQLAdapter.store_conversation cs customer_id user_message ai_response w
        = (Return v, w') ->
        one_row_more w' /\ v = PyInt (ch_id row))
    /\ (forall v w',
           SQLDatabaseAdapter.store_conversation cs customer_id user_message ai_response w
           = (Return v, w') ->
           one_row_more w' /\ v = PyInt (ch_id row))
    /\ (forall v w',
           SqlApp.save_conversation env customer_id user_message ai_response w
           = (Return v, w') ->
           one_row_more w' /\ v = PyNone).
Proof.
  intros env cs w customer_id user_message ai_response. cbv zeta.
  repeat split; two_driver_calls w;
    match goal with E : _ = (Return _, _) |- _ => inversion E; subst end;
    reflexivity.
Qed.

Lemma store_inserts_one_row_witness :
  let w := Sample.world Sample.shop in
  let row := mk_conversation 6 42 "Where is my order?" "On its way." (Sample.at_second 40) in
  (t_conversation_history
     (storage (snd (PostgreSQLAdapter.store_conversation "dsn" 42
                      "Where is my order?" "On its way." w)))
   = (t_conversation_history Sample.shop ++ [row])%list
   /\ fst (PostgreSQLAdapter.store_conversation "dsn" 42
             "Where is my order?" "On its way." w)
      = Return (PyInt 6))
  /\ (t_conversation_history
        (storage (snd (SqlApp.save_conversation Sample.env 42
                         "Where is my order?" "On its way." w)))
      = (t_conversation_history Sample.shop ++ [row])%list
      /\ fst (SqlApp.save_conversation Sample.env 42
                "Where is my order?" "On its way." w)
         = Return PyNone).
Proof.
  intros w row.
  destruct (store_inserts_one_row Sample.env "dsn" w 42 "Where is my order?" "On its way.")
    as (Hpg & _ & Happ).
  split.
  - destruct (Hpg _ _ eq_refl) as ((Hrows & _) & Hv). split; [exact Hrows|].
    simpl. reflexivity.
  - destruct (Happ _ _ eq_refl) as ((Hrows & _) & Hv). split; [exact Hrows|].
    simpl. reflexivity.
Defined.

(** C6 as stated fails: [save_conversation] of the SQL application inserts
    the row that gets identifier 6 and returns [None]. *)
Lemma save_conversation_returns_none :
  let w := Sample.world Sample.shop in
  let result := SqlApp.save_conversation Sample.env 42 "Where is my order?" "On its way." w in
  t_conversation_history (storage (snd result))
  = (t_conversation_history Sample.shop
       ++ [mk_conversation 6 42 "Where is my order?" "On its way." (Sample.at_second 40)])%list
  /\ fst result = Return PyNone
  /\ fst result <> Return (PyInt 6).
Proof. cbv zeta. split; [reflexivity|]. split; [reflexivity | discriminate]. Qed.

(* ================================================================= *)
(** ** Selecting the backend *)

Lemma recognised_cases (t : string) :
  In t recognised <-> t = "sql" \/ t = "cosmos" \/ t = "postgresql".
Proof. unfold recognised. simpl. intuition congruence. Qed.

(** C7, as amended.  [create_adapter] reads its argument through
    [lower()] only, so two spellings that differ in case select alike; a
    recognised identifier yields an adapter; any other string raises
    [ValueError], which is not a driver error, with the text
    [Unknown database type: ] followed by the lower-cased argument.  In
    every case the world is left as it was: nothing was handed to a
    driver. *)
Theorem create_adapter_selection :
  forall (env : Environ) (db_type : string) (w : World),
    DatabaseFactory.create_adapter env db_type w
    = DatabaseFactory.create_adapter env (lower db_type) w
    /\ (In (lower db_type) recognised ->
        exists adapter,
          DatabaseFactory.create_adapter env db_type w = (Return adapter, w))
    /\ (~ In (lower db_type) recognised ->
        DatabaseFactory.create_adapter env db_type w
        = (Raise (ValueError ("Unknown database type: " ++ lower db_type)), w)
        /\ contains ("Unknown database type: " ++ lower db_type) (lower db_type) = true
        /\ forall text,
            ValueError ("Unknown database type: " ++ lower db_type) <> DriverError text).
Proof.
  intros env db_type w. split; [|split].
  - unfold DatabaseFactory.create_adapter. cbv zeta. now rewrite lower_idempotent.
  - intros Hin. apply recognised_cases in Hin.
    unfold DatabaseFactory.create_adapter. cbv zeta.
    destruct Hin as [-> | [-> | ->]]; eexists; reflexivity.
  - intros Hout. rewrite recognised_cases in Hout.
    split; [|split; [apply contains_suffix | discriminate]].
    unfold DatabaseFactory.create_adapter. cbv zeta.
    destruct (String.eqb (lower db_type) "sql") eqn:E1;
      [apply String.eqb_eq in E1; tauto|].
    destruct (String.eqb (lower db_type) "cosmos") eqn:E2;
      [apply String.eqb_eq in E2; tauto|].
    destruct (String.eqb (lower db_type) "postgresql") eqn:E3;
      [apply String.eqb_eq in E3; tauto|].
    reflexivity.
Qed.

Lemma create_adapter_selection_witness :
  (exists adapter,
      DatabaseFactory.create_adapter Sample.env "PostgreSQL" (Sample.world Sample.shop)
      = (Return adapter, Sample.world Sample.shop))
  /\ DatabaseFactory.create_adapter Sample.env "Oracle" (Sample.world Sample.shop)
     = (Raise (ValueError ("Unknown database type: " ++ lower "Oracle")),
        Sample.world Sample.shop).
Proof.
  split.
  - apply (proj1 (proj2 (create_adapter_selection Sample.env "PostgreSQL"
                           (Sample.world Sample.shop)))).
    simpl. tauto.
  - apply (proj2 (proj2 (create_adapter_selection Sample.env "Oracle"
                           (Sample.world Sample.shop)))).
    simpl. intuition discriminate.
Defined.

(** C7 as stated fails: for the unrecognised value [Oracle] the text of the
    error does not contain that value; it contains [oracle]. *)
Lemma unknown_backend_named_in_lower_case :
  fst (DatabaseFactory.create_adapter Sample.env "Oracle" (Sample.world Sample.shop))
  = Raise (ValueError "Unknown database type: oracle")
  /\ contains "Unknown database type: oracle" "Oracle" = false
  /\ ~ In (lower "Oracle") recognised.
Proof.
  split; [reflexivity|]. split; [reflexivity|]. simpl. intuition discriminate.
Qed.

(* ================================================================= *)
(** ** Connections *)

(** C8 fails on [PostgreSQLAdapter].  When the connection is accepted and
    the first statement raises, each of its three operations re-raises the
    driver's error and terminates with one more connection open than it
    found; so does [get_conversation_history] when the engine rejects a
    negative [limit]. *)
Theorem postgresql_adapter_keeps_connection_on_error :
  forall (cs : string) (w : World) (customer_id limit : Z)
         (user_message ai_response : string),
    (forall text rest,
        faults w = None :: Some text :: rest ->
        (fst (PostgreSQLAdapter.store_conversation cs customer_id user_message ai_response w)
         = Raise (DriverError text)
         /\ open_connections
              (snd (PostgreSQLAdapter.store_conversation cs customer_id
                      user_message ai_response w))
            = S (open_connections w))
        /\ (fst (PostgreSQLAdapter.get_conversation_history cs customer_id limit w)
            = Raise (DriverError text)
            /\ open_connections
                 (snd (PostgreSQLAdapter.get_conversation_history cs customer_id limit w))
               = S (open_connections w))
        /\ (fst (PostgreSQLAdapter.get_customer_context cs customer_id w)
            = Raise (DriverError text)
            /\ open_connections (snd (PostgreSQLAdapter.get_customer_context cs customer_id w))
               = S (open_connections w)))
    /\ (healthy w ->
        limit < 0 ->
        fst (PostgreSQLAdapter.get_conversation_history cs customer_id limit w)
        = Raise (DriverError "LIMIT must not be negative")
        /\ open_connections
             (snd (PostgreSQLAdapter.get_conversation_history cs customer_id limit w))
           = S (open_connections w)).
Proof.
  intros cs w customer_id limit user_message ai_response.
  destruct w as [db oc ca fs mc so]. split.
  - intros text rest Hf. simpl in Hf. subst fs. repeat split; reflexivity.
  - intros H Hneg. unfold healthy in H. simpl in H. subst fs.
    apply Z.ltb_lt in Hneg.
    unfold PostgreSQLAdapter.get_conversation_history, try_except, bind, connect,
      execute_history, driver_call.
    simpl. rewrite Hneg. split; reflexivity.
Qed.

Lemma postgresql_adapter_keeps_connection_on_error_witness :
  let w := Sample.execute_fails Sample.shop in
  let failure := DriverError "server closed the connection unexpectedly" in
  open_connections w = 0%nat
  /\ (fst (PostgreSQLAdapter.store_conversation "dsn" 42 "hi" "hello" w) = Raise failure
      /\ open_connections
           (snd (PostgreSQLAdapter.store_conversation "dsn" 42 "hi" "hello" w)) = 1%nat)
  /\ (fst (PostgreSQLAdapter.get_conversation_history "dsn" 42 5 w) = Raise failure
      /\ open_connections
           (snd (PostgreSQLAdapter.get_conversation_history "dsn" 42 5 w)) = 1%nat)
  /\ (fst (PostgreSQLAdapter.get_customer_context "dsn" 42 w) = Raise failure
      /\ open_connections
           (snd (PostgreSQLAdapter.get_customer_context "dsn" 42 w)) = 1%nat)
  /\ (fst (PostgreSQLAdapter.get_conversation_history "dsn" 42 (-1)
             (Sample.world Sample.shop))
      = Raise (DriverError "LIMIT must not be negative")
      /\ open_connections
           (snd (PostgreSQLAdapter.get_conversation_history "dsn" 42 (-1)
                   (Sample.world Sample.shop))) = 1%nat).
Proof.
  cbv zeta. split; [reflexivity|].
  destruct (postgresql_adapter_keeps_connection_on_error "dsn"
              (Sample.execute_fails Sample.shop) 42 5 "hi" "hello") as (H & _).
  destruct (H "server closed the connection unexpectedly" [] eq_refl)
    as (Hstore & Hhistory & Hcontext).
  split; [exact Hstore|]. split; [exact Hhistory|]. split; [exact Hcontext|].
  apply (proj2 (postgresql_adapter_keeps_connection_on_error "dsn"
                  (Sample.world Sample.shop) 42 (-1) "hi" "hello"));
    [reflexivity | lia].
Defined.

(* ================================================================= *)
(** ** Errors at the chat boundary *)

(** C9, as amended.  For a request that passes validation, whenever
    [generate_ai_response] raises, [chat] answers with status 500 and an
    error payload whose text is [str(e)], the text of the exception,
    unchanged; when the connection is refused the exception is the
    driver's, so the text is the driver's own. *)
Theorem chat_error_text_is_exception_text :
  forall (env : Environ) (llm : Model) (w w' : World) (customer_id : Z)
         (message : string) (e : PyException),
    customer_id <> 0 ->
    message <> EmptyString ->
    (PgApp.generate_ai_response env llm customer_id message w = (Raise e, w') ->
     PgApp.chat env llm (mk_request (Some customer_id) (Some message)) w
     = (Return (JsonError (str_exc e), 500), w'))
    /\ (SqlApp.generate_ai_response env llm customer_id message w = (Raise e, w') ->
        SqlApp.chat env llm (mk_request (Some customer_id) (Some message)) w
        = (Return (JsonError (str_exc e), 500), w'))
    /\ (forall text rest,
           faults w = Some text :: rest ->
           fst (SqlApp.chat env llm (mk_request (Some customer_id) (Some message)) w)
           = Return (JsonError text, 500)
           /\ (implemented_backend env = true ->
               fst (PgApp.chat env llm (mk_request (Some customer_id) (Some message)) w)
               = Return (JsonError text, 500))).
Proof.
  intros env llm w w' customer_id message e Hc Hm.
  unfold PgApp.chat, SqlApp.chat. rewrite !chat_route_outcome by assumption.
  split; [now intros ->|]. split; [now intros ->|].
  intros text rest Hf. destruct w as [db oc ca fs mc so]. simpl in Hf. subst fs.
  split; [reflexivity|].
  intros Hb. unfold PgApp.generate_ai_response, DatabaseFactory.create_adapter.
  cbv zeta.
  destruct (implemented_backend_cases env Hb) as [Hl|Hl]; rewrite Hl; reflexivity.
Qed.

Lemma chat_error_text_is_exception_text_witness :
  fst (SqlApp.chat Sample.env Sample.llm (mk_request (Some 42) (Some "Where is my order?"))
         (Sample.login_refused Sample.shop))
  = Return (JsonError Sample.authentication_failure, 500)
  /\ fst (PgApp.chat Sample.env Sample.llm (mk_request (Some 42) (Some "Where is my order?"))
            (Sample.login_refused Sample.shop))
     = Return (JsonError Sample.authentication_failure, 500).
Proof.
  destruct (chat_error_text_is_exception_text Sample.env Sample.llm
              (Sample.login_refused Sample.shop) (Sample.login_refused Sample.shop)
              42 "Where is my order?" (DriverError Sample.authentication_failure))
    as (_ & _ & H); [discriminate | discriminate |].
  destruct (H Sample.authentication_failure [] eq_refl) as (Hsql & Hpg).
  split; [exact Hsql | apply Hpg; reflexivity].
Defined.

(** C9 as stated fails: the server refuses the login; the error text
    [chat] returns contains the host and the user name of the configured
    connection string. *)
Lemma chat_error_text_shows_connection_material :
  exists text,
    fst (PgApp.chat Sample.env Sample.llm (mk_request (Some 42) (Some "Where is my order?"))
           (Sample.login_refused Sample.shop))
    = Return (JsonError text, 500)
    /\ Sample.env "POSTGRES_USER" = Some "shop_admin"
    /\ Sample.env "POSTGRES_HOST" = Some "db.internal.example"
    /\ contains (postgres_connection_string Sample.env) "shop_admin" = true
    /\ contains (postgres_connection_string Sample.env) "db.internal.example" = true
    /\ contains text "shop_admin" = true
    /\ contains text "db.internal.example" = true.
Proof. eexists. repeat split; reflexivity. Qed.

(* ================================================================= *)
(** * Further properties *)

(* ================================================================= *)
(** ** The chat route on every request *)

Lemma truthy_falsy (v : Json) : truthy v = false <-> falsy v.
Proof.
  unfold falsy. split.
  - destruct v as [|b|z|[m e| |]|s|items|entries]; simpl; intros H; try discriminate.
    + now left.
    + destruct b; [discriminate|]. right; now left.
    + apply negb_false_iff, Z.eqb_eq in H. subst. right; right; now left.
    + apply negb_false_iff, Z.eqb_eq in H. subst. right; right; right; left. now exists e.
    + apply negb_false_iff, String.eqb_eq in H. subst. do 4 right. now left.
    + destruct items; [|discriminate]. do 5 right. now left.
    + destruct entries; [|discriminate]. do 6 right. reflexivity.
  - intros [->|[->|[->|[(e & ->)|[->|[->| ->]]]]]]; reflexivity.
Qed.

Lemma dict_item_truthy (entries : list (string * Json)) (key : string) (w : World) :
  truthy (dict_get entries key) = true ->
  dict_item entries key w = (Return (dict_get entries key), w).
Proof.
  unfold dict_get, dict_item. destruct (dict_find entries key); [reflexivity|discriminate].
Qed.

(** On an object that passes the check, [chat] answers with what
    [generate_ai_response] makes of the two values. *)
Lemma chat_route_json_accepted (generate : Z -> string -> M string)
      (dynamic : Json -> Json -> M string) (entries : list (string * Json)) (w : World) :
  truthy (dict_get entries "customer_id") = true ->
  truthy (dict_get entries "message") = true ->
  chat_route_json generate dynamic (JDict entries) w
  = match generate_on generate dynamic (dict_get entries "customer_id")
            (dict_get entries "message") w with
    | (Return reply, w') => (Return (JsonResponse reply, 200), w')
    | (Raise e, w') => (Return (JsonError (str_exc e), 500), w')
    end.
Proof.
  intros Hc Hm. unfold chat_route_json. rewrite Hc, Hm. cbn [negb orb].
  unfold try_except, bind.
  rewrite (dict_item_truthy _ _ _ Hc), (dict_item_truthy _ _ _ Hm).
  destruct (generate_on _ _ _ _ w) as [[reply|e] w']; reflexivity.
Qed.

(** On a body of the kind [ChatRequest] describes the route is the one of
    the other properties. *)
Lemma chat_route_json_of_request (generate : Z -> string -> M string)
      (dynamic : Json -> Json -> M string) (data : ChatRequest) (w : World) :
  chat_route_json generate dynamic (json_of_request data) w = chat_route generate data w.
Proof.
  destruct data as [[customer_id|] [message|]]; try reflexivity.
  - unfold chat_route. cbn [req_customer_id req_message].
    destruct ((customer_id =? 0) || String.eqb message EmptyString)%bool eqn:E.
    + unfold chat_route_json, json_of_request. cbn. 
      apply orb_true_iff in E as [E|E]; rewrite E; cbn; [reflexivity|].
      now rewrite orb_true_r.
    + apply orb_false_iff in E as (Ec & Em).
      unfold json_of_request. cbn [req_customer_id req_message app].
      rewrite chat_route_json_accepted by (cbn; rewrite ?Ec, ?Em; reflexivity).
      cbn. unfold try_except, bind.
      destruct (generate customer_id message w) as [[reply|e] w']; reflexivity.
  - unfold chat_route_json, json_of_request. cbn. now rewrite orb_true_r.
Qed.

(** [chat] on any parsed body, in either application and whatever the
    storage, the driver and the model do.  A body that is not a JSON object
    (null, a number, a string, a list) makes [data.get], which is called
    before the [try], raise [AttributeError]: the exception leaves [chat]
    and the world is untouched; this is the only way an exception leaves
    it.  On an object, [chat] answers 400 with the fixed text, the world
    untouched, when [customer_id] or [message] is missing or falsy ([None],
    [False], zero, the empty string, list or dict); otherwise it answers
    200 with a response or 500 with an error text, whatever
    [generate_ai_response] does with the two values.  On an object with an
    [int] identifier and a [str] message it is the [chat] of the other
    properties. *)
Theorem chat_on_any_body :
  forall (env : Environ) (llm : Model) (dynamic : Json -> Json -> M string)
         (data : Json) (w : World),
    let outcome (result : Outcome (JsonBody * Z) * World) :=
      ((forall entries, data <> JDict entries) ->
       result
       = (Raise (AttributeError ("'" ++ type_name data ++ "' object has no attribute 'get'")),
          w))
      /\ (forall entries,
             data = JDict entries ->
             let invalid :=
               falsy (dict_get entries "customer_id")
               \/ falsy (dict_get entries "message") in
             (invalid ->
              result = (Return (JsonError "customer_id and message required", 400), w))
             /\ (~ invalid ->
                 (exists reply, fst result = Return (JsonResponse reply, 200))
                 \/ (exists text, fst result = Return (JsonError text, 500))))
      /\ ((exists e, fst result = Raise e) <-> (forall entries, data <> JDict entries)) in
    outcome (PgApp.chat_json env llm dynamic data w)
    /\ outcome (SqlApp.chat_json env llm dynamic data w)
    /\ (forall request,
           PgApp.chat_json env llm dynamic (json_of_request request) w
           = PgApp.chat env llm request w
           /\ SqlApp.chat_json env llm dynamic (json_of_request request) w
              = SqlApp.chat env llm request w).
Proof.
  intros env llm dynamic data w. cbv zeta.
  assert (G : forall generate : Z -> string -> M string,
             let result := chat_route_json generate dynamic data w in
             ((forall entries, data <> JDict entries) ->
              result
              = (Raise (AttributeError
                          ("'" ++ type_name data ++ "' object has no attribute 'get'")), w))
             /\ (forall entries,
                    data = JDict entries ->
                    (falsy (dict_get entries "customer_id")
                     \/ falsy (dict_get entries "message") ->
                     result
                     = (Return (JsonError "customer_id and message required", 400), w))
                    /\ (~ (falsy (dict_get entries "customer_id")
                           \/ falsy (dict_get entries "message")) ->
                        (exists reply, fst result = Return (JsonResponse reply, 200))
                        \/ (exists text, fst result = Return (JsonError text, 500))))
             /\ ((exists e, fst result = Raise e) <-> (forall entries, data <> JDict entries))).
  { intros generate. cbv zeta.
    assert (Hdict : forall entries,
               let result := chat_route_json generate dynamic (JDict entries) w in
               (falsy (dict_get entries "customer_id")
                \/ falsy (dict_get entries "message") ->
                result = (Return (JsonError "customer_id and message required", 400), w))
               /\ (~ (falsy (dict_get entries "customer_id")
                      \/ falsy (dict_get entries "message")) ->
                   (exists reply, fst result = Return (JsonResponse reply, 200))
                   \/ (exists text, fst result = Return (JsonError text, 500)))).
    { intros entries. cbv zeta.
      destruct (truthy (dict_get entries "customer_id")) eqn:Hc;
        destruct (truthy (dict_get entries "message")) eqn:Hm.
      - split.
        + intros [F|F]; apply truthy_falsy in F; congruence.
        + intros _. rewrite (chat_route_json_accepted _ _ _ _ Hc Hm).
          destruct (generate_on _ _ _ _ w) as [[reply|e] w'];
            [left | right]; eexists; reflexivity.
      - split; [intros _; unfold chat_route_json; rewrite Hc, Hm; reflexivity|].
        intros N. elim N. right. now apply truthy_falsy.
      - split; [intros _; unfold chat_route_json; rewrite Hc; reflexivity|].
        intros N. elim N. left. now apply truthy_falsy.
      - split; [intros _; unfold chat_route_json; rewrite Hc; reflexivity|].
        intros N. elim N. left. now apply truthy_falsy. }
    destruct data as [|b|z|f|s|items|entries].
    7:{ split; [intros N; now elim (N entries)|]. split.
        - intros entries' E. injection E as <-. apply Hdict.
        - split; [|intros N; now elim (N entries)].
          intros (e & He). exfalso.
          destruct (Hdict entries) as (H400 & Hok). cbv zeta in H400, Hok.
          destruct (truthy (dict_get entries "customer_id")) eqn:Hc;
            destruct (truthy (dict_get entries "message")) eqn:Hm.
          + destruct Hok as [(r & Hr)|(t & Ht)]; [|congruence|congruence].
            intros [F|F]; apply truthy_falsy in F; congruence.
          + rewrite H400 in He by (right; now apply truthy_falsy). discriminate.
          + rewrite H400 in He by (left; now apply truthy_falsy). discriminate.
          + rewrite H400 in He by (left; now apply truthy_falsy). discriminate. }
    all: split; [intros _; reflexivity|];
      (split; [intros entries E; discriminate|]);
      (split; [intros _ entries E; discriminate | intros _; eexists; reflexivity]). }
  split; [apply G|]. split; [apply G|].
  intros request. split; apply chat_route_json_of_request.
Qed.

Lemma chat_on_any_body_witness :
  let dynamic : Json -> Json -> M string := fun _ _ => raise (DriverError "can't adapt") in
  fst (PgApp.chat_json Sample.env Sample.llm dynamic JNull (Sample.world Sample.shop))
  = Raise (AttributeError "'NoneType' object has no attribute 'get'")
  /\ fst (SqlApp.chat_json Sample.env Sample.llm dynamic (JList []) (Sample.world Sample.shop))
     = Raise (AttributeError "'list' object has no attribute 'get'")
  /\ PgApp.chat_json Sample.env Sample.llm dynamic
       (JDict [("customer_id", JBool false); ("message", JStr "Where is my order?")])
       (Sample.world Sample.shop)
     = (Return (JsonError "customer_id and message required", 400), Sample.world Sample.shop).
Proof.
  intros dynamic. split; [|split].
  - destruct (chat_on_any_body Sample.env Sample.llm dynamic JNull (Sample.world Sample.shop))
      as ((H & _) & _).
    rewrite H by discriminate. reflexivity.
  - destruct (chat_on_any_body Sample.env Sample.llm dynamic (JList [])
                (Sample.world Sample.shop)) as (_ & (H & _) & _).
    rewrite H by discriminate. reflexivity.
  - destruct (chat_on_any_body Sample.env Sample.llm dynamic
                (JDict [("customer_id", JBool false); ("message", JStr "Where is my order?")])
                (Sample.world Sample.shop)) as ((_ & H & _) & _).
    apply (H _ eq_refl). left. right. now left.
Defined.

Lemma create_adapter_unknown (env : Environ) (db_type : string) (w : World) :
  ~ In (lower db_type) recognised ->
  DatabaseFactory.create_adapter env db_type w
  = (Raise (ValueError ("Unknown database type: " ++ lower db_type)), w).
Proof.
  intros Hout. rewrite recognised_cases in Hout.
  unfold DatabaseFactory.create_adapter. cbv zeta.
  destruct (String.eqb (lower db_type) "sql") eqn:E1;
    [apply String.eqb_eq in E1; tauto|].
  destruct (String.eqb (lower db_type) "cosmos") eqn:E2;
    [apply String.eqb_eq in E2; tauto|].
  destruct (String.eqb (lower db_type) "postgresql") eqn:E3;
    [apply String.eqb_eq in E3; tauto|].
  reflexivity.
Qed.

(** When [DB_TYPE] selects the placeholder backend, or no backend at all,
    every request that passes the check of [chat] in the PostgreSQL
    application is answered 500 with the text of the exception
    ([NotImplementedError] of [CosmosDBAdapter.get_customer_context], or
    the [ValueError] of the factory), and the world is untouched: no
    connection is tried, nothing is stored, the model is not called. *)
Theorem chat_without_usable_backend :
  forall (env : Environ) (llm : Model) (w : World) (customer_id : Z) (message : string),
    customer_id <> 0 ->
    message <> EmptyString ->
    let db_type := lower (getenv_default env "DB_TYPE" "postgresql") in
    (db_type = "cosmos" ->
     PgApp.generate_ai_response env llm customer_id message w
     = (Raise (NotImplementedError
                 "CosmosDBAdapter.get_customer_context is not implemented"), w)
     /\ PgApp.chat env llm (mk_request (Some customer_id) (Some message)) w
        = (Return (JsonError "CosmosDBAdapter.get_customer_context is not implemented",
                   500), w))
    /\ (~ In db_type recognised ->
        PgApp.generate_ai_response env llm customer_id message w
        = (Raise (ValueError ("Unknown database type: " ++ db_type)), w)
        /\ PgApp.chat env llm (mk_request (Some customer_id) (Some message)) w
           = (Return (JsonError ("Unknown database type: " ++ db_type), 500), w)).
Proof.
  intros env llm w customer_id message Hc Hm. cbv zeta.
  unfold PgApp.chat. rewrite chat_route_outcome by assumption.
  split.
  - intros E.
    assert (G : PgApp.generate_ai_response env llm customer_id message w
                = (Raise (NotImplementedError
                            "CosmosDBAdapter.get_customer_context is not implemented"), w)).
    { unfold PgApp.generate_ai_response, DatabaseFactory.create_adapter. cbv zeta.
      rewrite E. reflexivity. }
    rewrite G. split; reflexivity.
  - intros Hout.
    assert (G : PgApp.generate_ai_response env llm customer_id message w
                = (Raise (ValueError
                            ("Unknown database type: "
                               ++ lower (getenv_default env "DB_TYPE" "postgresql"))), w)).
    { unfold PgApp.generate_ai_response. cbv zeta. unfold bind at 1.
      now rewrite (create_adapter_unknown env _ w Hout). }
    rewrite G. split; reflexivity.
Qed.

Lemma chat_without_usable_backend_witness :
  PgApp.chat Sample.env_cosmos Sample.llm (mk_request (Some 42) (Some "Where is my order?"))
    (Sample.world Sample.shop)
  = (Return (JsonError "CosmosDBAdapter.get_customer_context is not implemented", 500),
     Sample.world Sample.shop)
  /\ PgApp.chat Sample.env_oracle Sample.llm
       (mk_request (Some 42) (Some "Where is my order?")) (Sample.world Sample.shop)
     = (Return (JsonError "Unknown database type: oracle", 500), Sample.world Sample.shop).
Proof.
  split.
  - apply (proj1 (chat_without_usable_backend Sample.env_cosmos Sample.llm
                    (Sample.world Sample.shop) 42 "Where is my order?"
                    ltac:(discriminate) ltac:(discriminate)));
      reflexivity.
  - apply (proj2 (chat_without_usable_backend Sample.env_oracle Sample.llm
                    (Sample.world Sample.shop) 42 "Where is my order?"
                    ltac:(discriminate) ltac:(discriminate))).
    simpl. intuition discriminate.
Defined.

(* ================================================================= *)
(** ** One exchange *)

Lemma select_history_length (db : Database) (customer_id limit : Z) :
  (List.length (select_history db customer_id limit) <= Z.to_nat limit)%nat.
Proof. unfold select_history, limit_rows. apply firstn_le_length. Qed.

Lemma prompt_length_bound (system : string) (customer_context : CustomerContext)
      (db : Database) (customer_id : Z) (message : string) :
  (List.length
     (l_messages
        (assemble system
           (mk_locals customer_context
              (map turn_of_row (rev (select_history db customer_id 5))) message [])))
   <= 12)%nat.
Proof.
  rewrite assemble_length. cbn [l_conversation_history].
  rewrite length_map, length_rev.
  pose proof (select_history_length db customer_id 5) as H.
  change (Z.to_nat 5) with 5%nat in H. lia.
Qed.

(** One exchange with a stored customer, the storage answering and an
    implemented backend selected, in either application.  Exactly one
    message list is sent to the model, of at most 12 messages (the system
    message, at most five turns, the new message).  When the model replies, [chat] answers 200 with the reply and
    [conversation_history] has gained one row: the customer, the message
    and the reply, with the next identity value and the server's time.
    When the model raises, [chat] answers 500 with the text of its
    exception and the storage is as before: the turn is not stored. *)
Theorem chat_exchange :
  forall (env : Environ) (llm : Model) (w : World) (customer_id : Z) (message : string),
    healthy w ->
    implemented_backend env = true ->
    customer_exists (storage w) customer_id = true ->
    customer_id <> 0 ->
    message <> EmptyString ->
    let exchange (result : Outcome (JsonBody * Z) * World) :=
      exists messages,
        model_calls (snd result) = (model_calls w ++ [messages])%list
        /\ (List.length messages <= 12)%nat
        /\ last messages (mk_message EmptyString EmptyString) = mk_message "user" message
        /\ match llm messages with
           | Return reply =>
               fst result = Return (JsonResponse reply, 200)
               /\ t_conversation_history (storage (snd result))
                  = (t_conversation_history (storage w)
                       ++ [mk_conversation (next_id (storage w)) customer_id message reply
                             (now (storage w))])%list
           | Raise e =>
               fst result = Return (JsonError (str_exc e), 500)
               /\ storage (snd result) = storage w
           end in
    exchange (PgApp.chat env llm (mk_request (Some customer_id) (Some message)) w)
    /\ exchange (SqlApp.chat env llm (mk_request (Some customer_id) (Some message)) w).
Proof.
  intros env llm w customer_id message H Hb Hc Hid Hm. cbv zeta.
  destruct (select_customer_known _ _ Hc) as ((cpg & Epg) & (csql & Esql)).
  unfold PgApp.chat, SqlApp.chat. rewrite !chat_route_outcome by assumption.
  rewrite (sql_app_run env llm customer_id message w H). cbv zeta. rewrite Esql.
  split.
  - destruct (implemented_backend_cases env Hb) as [Hl|Hl].
    + rewrite (pg_app_run_sql env llm customer_id message w H Hl). cbv zeta.
      rewrite Esql. set (messages := l_messages (PgApp.build_messages _)).
      exists messages. split; [|split; [|split]].
      2: apply prompt_length_bound.
      2:{ subst messages. unfold PgApp.build_messages.
          rewrite (proj1 (assemble_messages _ _)).
          cbn [l_user_message]. rewrite app_comm_cons. apply last_last. }
      all: destruct (llm messages); try reflexivity; split; reflexivity.
    + rewrite (pg_app_run_postgresql env llm customer_id message w H Hl). cbv zeta.
      rewrite Epg. set (messages := l_messages (PgApp.build_messages _)).
      exists messages. split; [|split; [|split]].
      2: apply prompt_length_bound.
      2:{ subst messages. unfold PgApp.build_messages.
          rewrite (proj1 (assemble_messages _ _)).
          cbn [l_user_message]. rewrite app_comm_cons. apply last_last. }
      all: destruct (llm messages); try reflexivity; split; reflexivity.
  - set (messages := l_messages (SqlApp.build_messages _)).
    exists messages. split; [|split; [|split]].
    2: apply prompt_length_bound.
    2:{ subst messages. unfold SqlApp.build_messages.
        rewrite (proj1 (assemble_messages _ _)).
        cbn [l_user_message]. rewrite app_comm_cons. apply last_last. }
    all: destruct (llm messages); try reflexivity; split; reflexivity.
Qed.

Lemma chat_exchange_witness :
  fst (PgApp.chat Sample.env Sample.llm (mk_request (Some 42) (Some "Where is my order?"))
         (Sample.world Sample.shop))
  = Return (JsonResponse "Your order is on its way.", 200)
  /\ fst (SqlApp.chat Sample.env Sample.llm_down
            (mk_request (Some 42) (Some "Where is my order?")) (Sample.world Sample.shop))
     = Return (JsonError "Rate limit reached", 500).
Proof.
  split.
  - destruct (chat_exchange Sample.env Sample.llm (Sample.world Sample.shop) 42
                "Where is my order?" eq_refl eq_refl eq_refl
                ltac:(discriminate) ltac:(discriminate))
      as ((messages & _ & _ & _ & Hpg) & _).
    exact (proj1 Hpg).
  - destruct (chat_exchange Sample.env Sample.llm_down (Sample.world Sample.shop) 42
                "Where is my order?" eq_refl eq_refl eq_refl
                ltac:(discriminate) ltac:(discriminate))
      as (_ & (messages & _ & _ & _ & Hsql)).
    exact (proj1 Hsql).
Defined.

(* ----------------------------------------------------------------- *)
(** *** Reads that go through while faults are pending *)

Lemma pg_get_customer_context_passes (cs : string) (customer_id : Z) (w : World)
      (rest : list (option string)) (customer : AggregateRow money) :
  faults w = None :: None :: None :: rest ->
  fetchone (select_customer_coalesce (storage w) customer_id) = Some customer ->
  PostgreSQLAdapter.get_customer_context cs customer_id w
  = (Return (Some (context_of_rows (fun total => total) customer
                     (select_recent_orders (storage w) customer_id))),
     with_faults rest (after_connection cs w)).
Proof.
  intros Hf E. destruct w as [db oc ca fs mc so]. simpl in Hf, E. subst fs.
  unfold PostgreSQLAdapter.get_customer_context, try_except, bind, connect,
    execute_select, driver_call, after_connection, with_faults. simpl.
  rewrite E. reflexivity.
Qed.

Lemma tsql_fetch_context_passes (cs : string) (customer_id : Z) (w : World)
      (rest : list (option string)) (customer : AggregateRow (option money)) :
  faults w = None :: None :: None :: rest ->
  fetchone (select_customer_sum (storage w) customer_id) = Some customer ->
  tsql_fetch_context cs customer_id w
  = (Return (Some (context_of_rows float_or_zero customer
                     (select_recent_orders (storage w) customer_id))),
     with_faults rest (held (after_connection cs w))).
Proof.
  intros Hf E. destruct w as [db oc ca fs mc so]. simpl in Hf, E. subst fs.
  unfold tsql_fetch_context, with_connection, bind, connect,
    execute_select, driver_call, after_connection, with_faults, held. simpl.
  rewrite E. reflexivity.
Qed.

Lemma pg_get_conversation_history_passes (cs : string) (customer_id limit : Z) (w : World)
      (rest : list (option string)) :
  faults w = None :: None :: rest -> 0 <= limit ->
  PostgreSQLAdapter.get_conversation_history cs customer_id limit w
  = (Return (map turn_of_row (rev (select_history (storage w) customer_id limit))),
     with_faults rest (after_connection cs w)).
Proof.
  intros Hf Hl. destruct w as [db oc ca fs mc so]. simpl in Hf. subst fs.
  unfold PostgreSQLAdapter.get_conversation_history, try_except, bind, connect,
    execute_history, driver_call, after_connection, with_faults. simpl.
  destruct (limit <? 0) eqn:E; [apply Z.ltb_lt in E; lia | reflexivity].
Qed.

Lemma tsql_fetch_history_passes (cs : string) (customer_id limit : Z) (w : World)
      (rest : list (option string)) :
  faults w = None :: None :: rest -> 0 <= limit ->
  tsql_fetch_history cs customer_id limit w
  = (Return (map turn_of_row (rev (select_history (storage w) customer_id limit))),
     with_faults rest (held (after_connection cs w))).
Proof.
  intros Hf Hl. destruct w as [db oc ca fs mc so]. simpl in Hf. subst fs.
  unfold tsql_fetch_history, with_connection, bind, connect,
    execute_history, driver_call, after_connection, with_faults, held. simpl.
  destruct (limit <? 0) eqn:E; [apply Z.ltb_lt in E; lia | reflexivity].
Qed.

(** A store operation whose connection is refused: the driver's error,
    nothing written. *)
Lemma store_refused (env : Environ) (cs : string) (customer_id : Z) (um ar : string)
      (w : World) (text : string) (rest : list (option string)) :
  faults w = Some text :: rest ->
  (fst (PostgreSQLAdapter.store_conversation cs customer_id um ar w)
   = Raise (DriverError text)
   /\ storage (snd (PostgreSQLAdapter.store_conversation cs customer_id um ar w))
      = storage w
   /\ model_calls (snd (PostgreSQLAdapter.store_conversation cs customer_id um ar w))
      = model_calls w)
  /\ (fst (SQLDatabaseAdapter.store_conversation cs customer_id um ar w)
      = Raise (DriverError text)
      /\ storage (snd (SQLDatabaseAdapter.store_conversation cs customer_id um ar w))
         = storage w
      /\ model_calls (snd (SQLDatabaseAdapter.store_conversation cs customer_id um ar w))
         = model_calls w)
  /\ (fst (SqlApp.save_conversation env customer_id um ar w) = Raise (DriverError text)
      /\ storage (snd (SqlApp.save_conversation env customer_id um ar w)) = storage w
      /\ model_calls (snd (SqlApp.save_conversation env customer_id um ar w))
         = model_calls w).
Proof.
  intros Hf. destruct w as [db oc ca fs mc so]. simpl in Hf. subst fs.
  repeat split; reflexivity.
Qed.

(** The reply that cannot be stored.  The two reads go through and the
    model replies, then the connection for the write is refused: [chat]
    answers 500 with the driver's text instead of the reply, although the
    model was called, and nothing is stored. *)
Theorem chat_reply_lost_when_write_fails :
  forall (env : Environ) (llm : Model) (w : World) (customer_id : Z) (message : string)
         (text : string) (rest : list (option string)),
    faults w = None :: None :: None :: None :: None :: Some text :: rest ->
    implemented_backend env = true ->
    customer_exists (storage w) customer_id = true ->
    customer_id <> 0 ->
    message <> EmptyString ->
    let lost (result : Outcome (JsonBody * Z) * World) :=
      exists messages,
        model_calls (snd result) = (model_calls w ++ [messages])%list
        /\ storage (snd result) = storage w
        /\ forall reply,
            llm messages = Return reply ->
            fst result = Return (JsonError text, 500) in
    lost (PgApp.chat env llm (mk_request (Some customer_id) (Some message)) w)
    /\ lost (SqlApp.chat env llm (mk_request (Some customer_id) (Some message)) w).
Proof.
  intros env llm w customer_id message text rest Hf Hb Hc Hid Hm. cbv zeta.
  destruct (select_customer_known _ _ Hc) as ((cpg & Epg) & (csql & Esql)).
  unfold PgApp.chat, SqlApp.chat. rewrite !chat_route_outcome by assumption.
  split.
  - set (R := PgApp.generate_ai_response env llm customer_id message w).
    assert (E : R = PgApp.generate_ai_response env llm customer_id message w)
      by reflexivity.
    clearbody R.
    unfold PgApp.generate_ai_response, DatabaseFactory.create_adapter in E.
    cbv zeta in E.
    destruct (implemented_backend_cases env Hb) as [Hl|Hl]; rewrite Hl in E;
      cbn [String.eqb Ascii.eqb Bool.eqb] in E;
      unfold bind at 1 in E; cbn [ret get_customer_context] in E;
      unfold bind at 1 in E.
    + unfold SQLDatabaseAdapter.get_customer_context in E.
      rewrite (tsql_fetch_context_passes _ _ _ _ _ Hf Esql) in E.
      unfold bind at 1 in E. cbn [get_conversation_history] in E.
      unfold SQLDatabaseAdapter.get_conversation_history in E.
      rewrite (tsql_fetch_history_passes _ _ 5 _ (Some text :: rest)) in E
        by (reflexivity || lia).
      unfold bind at 1 in E. unfold chat_completions_create at 1 in E.
      set (messages := l_messages (PgApp.build_messages _)) in E. exists messages.
      destruct (llm messages) as [reply|e];
        [|subst R; repeat split; try reflexivity; intros; discriminate].
      unfold bind at 1 in E. cbn [store_conversation] in E.
      match type of E with
      | context [SQLDatabaseAdapter.store_conversation ?cs ?c ?um ?ar ?w0] =>
          destruct (store_refused env cs c um ar w0 text rest eq_refl)
            as (_ & (Hr & Hs & Hmc) & _);
          destruct (SQLDatabaseAdapter.store_conversation cs c um ar w0) as [r w1]
      end.
      cbn [fst snd] in *. subst r R. cbn [fst snd]. rewrite Hs, Hmc.
      repeat split; reflexivity.
    + rewrite (pg_get_customer_context_passes _ _ _ _ _ Hf Epg) in E.
      unfold bind at 1 in E. cbn [get_conversation_history] in E.
      rewrite (pg_get_conversation_history_passes _ _ 5 _ (Some text :: rest)) in E
        by (reflexivity || lia).
      unfold bind at 1 in E. unfold chat_completions_create at 1 in E.
      set (messages := l_messages (PgApp.build_messages _)) in E. exists messages.
      destruct (llm messages) as [reply|e];
        [|subst R; repeat split; try reflexivity; intros; discriminate].
      unfold bind at 1 in E. cbn [store_conversation] in E.
      match type of E with
      | context [PostgreSQLAdapter.store_conversation ?cs ?c ?um ?ar ?w0] =>
          destruct (store_refused env cs c um ar w0 text rest eq_refl)
            as ((Hr & Hs & Hmc) & _);
          destruct (PostgreSQLAdapter.store_conversation cs c um ar w0) as [r w1]
      end.
      cbn [fst snd] in *. subst r R. cbn [fst snd]. rewrite Hs, Hmc.
      repeat split; reflexivity.
  - set (R := SqlApp.generate_ai_response env llm customer_id message w).
    assert (E : R = SqlApp.generate_ai_response env llm customer_id message w)
      by reflexivity.
    clearbody R.
    unfold SqlApp.generate_ai_response in E. unfold bind at 1 in E.
    unfold SqlApp.get_customer_context, SqlApp.get_conversation_history,
      SqlApp.CONNECTION_STRING in E.
    rewrite (tsql_fetch_context_passes _ _ _ _ _ Hf Esql) in E.
    unfold bind at 1 in E.
    rewrite (tsql_fetch_history_passes _ _ 5 _ (Some text :: rest)) in E
      by (reflexivity || lia).
    unfold bind at 1 in E. unfold chat_completions_create at 1 in E.
    set (messages := l_messages (SqlApp.build_messages _)) in E. exists messages.
    destruct (llm messages) as [reply|e];
      [|subst R; repeat split; try reflexivity; intros; discriminate].
    unfold bind at 1 in E.
    match type of E with
    | context [SqlApp.save_conversation ?e ?c ?um ?ar ?w0] =>
        destruct (store_refused e "dsn" c um ar w0 text rest eq_refl)
          as (_ & _ & (Hr & Hs & Hmc));
        destruct (SqlApp.save_conversation e c um ar w0) as [r w1]
    end.
    cbn [fst snd] in *. subst r R. cbn [fst snd]. rewrite Hs, Hmc.
    repeat split; reflexivity.
Qed.

Lemma chat_reply_lost_when_write_fails_witness :
  fst (PgApp.chat Sample.env Sample.llm (mk_request (Some 42) (Some "Where is my order?"))
         (Sample.write_refused Sample.shop))
  = Return (JsonError "too many connections for role", 500)
  /\ storage (snd (PgApp.chat Sample.env Sample.llm
                     (mk_request (Some 42) (Some "Where is my order?"))
                     (Sample.write_refused Sample.shop)))
     = Sample.shop.
Proof.
  destruct (chat_reply_lost_when_write_fails Sample.env Sample.llm
              (Sample.write_refused Sample.shop) 42 "Where is my order?"
              "too many connections for role" [] eq_refl eq_refl eq_refl
              ltac:(discriminate) ltac:(discriminate))
    as ((messages & _ & Hs & Hr) & _).
  split; [exact (Hr _ eq_refl) | exact Hs].
Defined.

(* ================================================================= *)
(** ** Storing a turn, then reading the history *)

Lemma order_by_desc_newest {A} (key : A -> Z) (l : list A) (x : A) :
  (forall y, In y l -> key y < key x) ->
  order_by_desc key (l ++ [x]) = x :: order_by_desc key l.
Proof.
  unfold order_by_desc. induction l as [|y l IH]; simpl; intros H; [reflexivity|].
  rewrite IH by (intros z Hz; apply H; now right).
  simpl. destruct (key x <=? key y) eqn:E; [|reflexivity].
  apply Z.leb_le in E. specialize (H y (or_introl eq_refl)). lia.
Qed.

Lemma history_of_insert (db : Database) (customer_id other : Z) (um ar : string) :
  history_of (insert_conversation db other um ar) customer_id
  = (history_of db customer_id
       ++ if other =? customer_id then [inserted_row db other um ar] else [])%list.
Proof.
  unfold history_of, insert_conversation. cbn [t_conversation_history].
  rewrite filter_app. simpl. now destruct (other =? customer_id).
Qed.

Lemma select_history_after_insert (db : Database) (customer_id limit : Z) (um ar : string) :
  1 <= limit ->
  (forall r, In r (history_of db customer_id) -> stamp r < instant (now db)) ->
  select_history (insert_conversation db customer_id um ar) customer_id limit
  = inserted_row db customer_id um ar :: select_history db customer_id (limit - 1).
Proof.
  intros Hl Hnew. unfold select_history, limit_rows.
  rewrite history_of_insert, Z.eqb_refl.
  rewrite order_by_desc_newest by exact Hnew.
  replace (Z.to_nat limit) with (S (Z.to_nat (limit - 1))) by lia.
  reflexivity.
Qed.

(** Store, then read.  With the storage answering and the server's clock
    past every stored timestamp of the customer, the history read with a
    limit of at least 1 after a turn was stored is the history that a
    limit one smaller gave before, followed by the turn just stored: the
    message, the reply and the server's time. *)
Theorem store_then_history :
  forall (env : Environ) (cs : string) (w : World) (customer_id limit : Z)
         (user_message ai_response : string),
    healthy w ->
    1 <= limit ->
    (forall r, In r (history_of (storage w) customer_id) ->
               stamp r < instant (now (storage w))) ->
    let stored :=
      mk_turn user_message ai_response (strftime_datetime (now (storage w))) in
    exists earlier,
      fst (PostgreSQLAdapter.get_conversation_history cs customer_id (limit - 1) w)
      = Return earlier
      /\ fst (PostgreSQLAdapter.get_conversation_history cs customer_id limit
                (snd (PostgreSQLAdapter.store_conversation cs customer_id
                        user_message ai_response w)))
         = Return (earlier ++ [stored])%list
      /\ fst (SQLDatabaseAdapter.get_conversation_history cs customer_id limit
                (snd (SQLDatabaseAdapter.store_conversation cs customer_id
                        user_message ai_response w)))
         = Return (earlier ++ [stored])%list
      /\ fst (SqlApp.get_conversation_history env customer_id limit
                (snd (SqlApp.save_conversation env customer_id
                        user_message ai_response w)))
         = Return (earlier ++ [stored])%list.
Proof.
  intros env cs w customer_id limit user_message ai_response H Hl Hnew. cbv zeta.
  exists (map turn_of_row (rev (select_history (storage w) customer_id (limit - 1)))).
  rewrite pg_store_conversation_healthy, sql_store_conversation_healthy,
    save_conversation_healthy by assumption.
  unfold SqlApp.get_conversation_history, SQLDatabaseAdapter.get_conversation_history.
  cbn [snd].
  rewrite !pg_get_conversation_history_healthy, !tsql_fetch_history_healthy
    by (try apply healthy_held; try apply healthy_after_insert; assumption || lia).
  cbn [fst after_insert held storage].
  rewrite (select_history_after_insert _ _ _ _ _ Hl Hnew).
  simpl rev. rewrite map_app. auto.
Qed.

Lemma store_then_history_witness :
  exists earlier,
    fst (PostgreSQLAdapter.get_conversation_history "dsn" 42 (3 - 1)
           (Sample.world Sample.shop))
    = Return earlier
    /\ fst (PostgreSQLAdapter.get_conversation_history "dsn" 42 3
              (snd (PostgreSQLAdapter.store_conversation "dsn" 42
                      "Where is my order?" "On its way." (Sample.world Sample.shop))))
       = Return (earlier ++ [mk_turn "Where is my order?" "On its way."
                               (strftime_datetime (now Sample.shop))])%list
    /\ fst (SQLDatabaseAdapter.get_conversation_history "dsn" 42 3
              (snd (SQLDatabaseAdapter.store_conversation "dsn" 42
                      "Where is my order?" "On its way." (Sample.world Sample.shop))))
       = Return (earlier ++ [mk_turn "Where is my order?" "On its way."
                               (strftime_datetime (now Sample.shop))])%list
    /\ fst (SqlApp.get_conversation_history Sample.env 42 3
              (snd (SqlApp.save_conversation Sample.env 42
                      "Where is my order?" "On its way." (Sample.world Sample.shop))))
       = Return (earlier ++ [mk_turn "Where is my order?" "On its way."
                               (strftime_datetime (now Sample.shop))])%list.
Proof.
  apply (store_then_history Sample.env "dsn" (Sample.world Sample.shop) 42 3
           "Where is my order?" "On its way.").
  - reflexivity.
  - lia.
  - simpl. intros r H.
    repeat (destruct H as [<-|H]; [vm_compute; reflexivity|]). contradiction.
Defined.

(** The history of a customer holds that customer's turns only: every
    returned turn is a stored row whose [customer_id] is the one asked for,
    and storing a turn for another customer does not change what is
    returned. *)
Theorem history_of_one_customer :
  forall (env : Environ) (cs : string) (w : World) (customer_id other limit : Z)
         (user_message ai_response : string),
    healthy w ->
    0 <= limit ->
    (exists rows,
        fst (PostgreSQLAdapter.get_conversation_history cs customer_id limit w)
        = Return (map turn_of_row rows)
        /\ fst (SQLDatabaseAdapter.get_conversation_history cs customer_id limit w)
           = Return (map turn_of_row rows)
        /\ fst (SqlApp.get_conversation_history env customer_id limit w)
           = Return (map turn_of_row rows)
        /\ forall r, In r rows ->
                     ch_customer_id r = customer_id
                     /\ In r (t_conversation_history (storage w)))
    /\ (other <> customer_id ->
        fst (PostgreSQLAdapter.get_conversation_history cs customer_id limit
               (snd (PostgreSQLAdapter.store_conversation cs other
                       user_message ai_response w)))
        = fst (PostgreSQLAdapter.get_conversation_history cs customer_id limit w)
        /\ fst (SQLDatabaseAdapter.get_conversation_history cs customer_id limit
                  (snd (SQLDatabaseAdapter.store_conversation cs other
                          user_message ai_response w)))
           = fst (SQLDatabaseAdapter.get_conversation_history cs customer_id limit w)
        /\ fst (SqlApp.get_conversation_history env customer_id limit
                  (snd (SqlApp.save_conversation env other user_message ai_response w)))
           = fst (SqlApp.get_conversation_history env customer_id limit w)).
Proof.
  intros env cs w customer_id other limit user_message ai_response H Hl.
  unfold SqlApp.get_conversation_history, SQLDatabaseAdapter.get_conversation_history.
  split.
  - exists (rev (select_history (storage w) customer_id limit)).
    rewrite pg_get_conversation_history_healthy, !tsql_fetch_history_healthy
      by assumption.
    split; [reflexivity|]. split; [reflexivity|]. split; [reflexivity|].
    intros r Hr. apply in_rev in Hr. unfold select_history, limit_rows in Hr.
    apply in_firstn in Hr.
    apply (Permutation_in _ (order_by_desc_perm _ _)) in Hr.
    apply filter_In in Hr as (Hin & Hid).
    split; [now apply Z.eqb_eq | exact Hin].
  - intros Hother.
    rewrite pg_store_conversation_healthy, sql_store_conversation_healthy,
      save_conversation_healthy by assumption.
    cbn [snd].
    rewrite !pg_get_conversation_history_healthy, !tsql_fetch_history_healthy
      by (try apply healthy_held; try apply healthy_after_insert; assumption || lia).
    cbn [fst after_insert held storage].
    assert (E : select_history (insert_conversation (storage w) other
                                  user_message ai_response) customer_id limit
                = select_history (storage w) customer_id limit).
    { unfold select_history. rewrite history_of_insert.
      apply Z.eqb_neq in Hother. rewrite Hother. now rewrite app_nil_r. }
    rewrite E. auto.
Qed.

Lemma history_of_one_customer_witness :
  fst (PostgreSQLAdapter.get_conversation_history "dsn" 42 5
         (snd (PostgreSQLAdapter.store_conversation "dsn" 7 "Hello" "Hi Grace."
                 (Sample.world Sample.shop))))
  = fst (PostgreSQLAdapter.get_conversation_history "dsn" 42 5 (Sample.world Sample.shop)).
Proof.
  apply (proj2 (history_of_one_customer Sample.env "dsn" (Sample.world Sample.shop)
                  42 7 5 "Hello" "Hi Grace." eq_refl ltac:(lia))).
  discriminate.
Defined.

(* ================================================================= *)
(** ** The aggregates of a customer *)

Lemma filter_left_join_unique (db : Database) (c : Customer) (cs : list Customer) :
  NoDup (map c_customer_id cs) ->
  In c cs ->
  filter (fun r => c_customer_id (fst r) =? c_customer_id c)
    (flat_map (left_join_orders db) cs)
  = left_join_orders db c.
Proof.
  induction cs as [|a cs IH]; simpl; intros Hn Hin; [contradiction|].
  inversion Hn as [|? ? Ha Hn']; subst.
  rewrite filter_app.
  destruct Hin as [->|Hin].
  - rewrite filter_all.
    2:{ intros r Hr. rewrite (left_join_fst _ _ _ Hr). apply Z.eqb_refl. }
    rewrite filter_none; [apply app_nil_r|].
    intros r Hr. apply in_flat_map in Hr as (c' & Hc' & Hr).
    rewrite (left_join_fst _ _ _ Hr).
    apply Z.eqb_neq. intros E. apply Ha. rewrite <- E. now apply in_map.
  - rewrite filter_none.
    2:{ intros r Hr. rewrite (left_join_fst _ _ _ Hr).
        apply Z.eqb_neq. intros E. apply Ha. rewrite E. now apply in_map. }
    simpl. now apply IH.
Qed.

Lemma count_orders_left_join (db : Database) (c : Customer) :
  count_orders (left_join_orders db c)
  = Z.of_nat (List.length (orders_of db (c_customer_id c))).
Proof.
  unfold left_join_orders, orders_of, count_orders.
  destruct (filter _ (t_orders db)) as [|o os]; [reflexivity|].
  rewrite filter_all.
  - now rewrite length_map.
  - intros r Hr. apply in_map_iff in Hr as (o' & <- & _). reflexivity.
Qed.

Lemma sum_amounts_some (c : Customer) (os : list Order) (acc : option money) :
  coalesce0
    (fold_left
       (fun acc r =>
          match snd r with
          | None => acc
          | Some o => Some (match acc with None => 0 | Some s => s end + total_amount o)
          end)
       (map (fun o => (c, Some o)) os) acc)
  = coalesce0 acc + amounts_total os.
Proof.
  revert acc. induction os as [|o os IH]; intros acc; simpl; [lia|].
  rewrite IH. simpl. destruct acc; simpl; lia.
Qed.

Lemma sum_amounts_left_join (db : Database) (c : Customer) :
  coalesce0 (sum_amounts (left_join_orders db c))
  = amounts_total (orders_of db (c_customer_id c)).
Proof.
  unfold left_join_orders, orders_of, sum_amounts.
  destruct (filter _ (t_orders db)) as [|o os] eqn:E; [reflexivity|].
  now rewrite sum_amounts_some.
Qed.

(** With [customer_id] identifying the rows of [customers] and the storage
    answering, the context of a stored customer carries that customer's
    names, e-mail and phone, [total_orders] is the number of the
    customer's orders and [total_spent] the sum of their amounts, over all
    the orders and not only the listed ones, in the three implementations
    alike. *)
Theorem customer_totals :
  forall (env : Environ) (cs : string) (w : World) (c : Customer),
    healthy w ->
    NoDup (map c_customer_id (t_customers (storage w))) ->
    In c (t_customers (storage w)) ->
    exists customer_context,
      fst (PostgreSQLAdapter.get_customer_context cs (c_customer_id c) w)
      = Return (Some customer_context)
      /\ fst (SQLDatabaseAdapter.get_customer_context cs (c_customer_id c) w)
         = Return (Some customer_context)
      /\ fst (SqlApp.get_customer_context env (c_customer_id c) w)
         = Return (Some customer_context)
      /\ name customer_context = first_name c ++ " " ++ last_name c
      /\ email customer_context = c_email c
      /\ phone customer_context = c_phone c
      /\ total_orders customer_context
         = Z.of_nat (List.length (orders_of (storage w) (c_customer_id c)))
      /\ total_spent customer_context
         = amounts_total (orders_of (storage w) (c_customer_id c)).
Proof.
  intros env cs w c H Hn Hin.
  assert (Hc : customer_exists (storage w) (c_customer_id c) = true).
  { unfold customer_exists. apply existsb_exists. exists c. split; [exact Hin|].
    apply Z.eqb_refl. }
  destruct (get_customer_context_known env cs w (c_customer_id c) H Hc)
    as (id & f & l & e & p & rows & rest & G & Hpg & Hsql & Happ).
  eexists. split; [exact Hpg|]. split; [exact Hsql|]. split; [exact Happ|].
  cbn [name email phone total_orders total_spent].
  assert (Hg : In ((id, f, l, e, p), rows) (customer_groups (storage w) (c_customer_id c)))
    by (rewrite G; now left).
  unfold customer_groups in Hg.
  apply (proj2 (proj2 (group_by_grouped _ _ customer_key_eqb_eq _))) in Hg as (Hne & E).
  rewrite (filter_left_join_unique _ _ _ Hn Hin) in E.
  destruct rows as [|r0 rows0] eqn:R; [congruence|]. rewrite <- R in *.
  assert (H0 : In r0 rows) by (rewrite R; now left).
  rewrite E in H0. apply filter_In in H0 as (H0 & Hk).
  apply customer_key_eqb_eq in Hk. rewrite (left_join_fst _ _ _ H0) in Hk.
  assert (Erows : rows = left_join_orders (storage w) c).
  { rewrite E. apply filter_all. intros r Hr.
    rewrite (left_join_fst _ _ _ Hr). now apply customer_key_eqb_eq. }
  unfold customer_key_of in Hk. inversion Hk; subst id f l e p.
  rewrite Erows, count_orders_left_join, sum_amounts_left_join. auto.
Qed.

Lemma customer_totals_witness :
  exists customer_context,
    fst (PostgreSQLAdapter.get_customer_context "dsn" 42 (Sample.world Sample.shop))
    = Return (Some customer_context)
    /\ fst (SQLDatabaseAdapter.get_customer_context "dsn" 42 (Sample.world Sample.shop))
       = Return (Some customer_context)
    /\ fst (SqlApp.get_customer_context Sample.env 42 (Sample.world Sample.shop))
       = Return (Some customer_context)
    /\ name customer_context = "Ada" ++ " " ++ "Lovelace"
    /\ email customer_context = "ada@example.com"
    /\ phone customer_context = "555-0100"
    /\ total_orders customer_context = Z.of_nat (List.length (orders_of Sample.shop 42))
    /\ total_spent customer_context = amounts_total (orders_of Sample.shop 42).
Proof.
  apply (customer_totals Sample.env "dsn" (Sample.world Sample.shop)
           (mk_customer 42 "Ada" "Lovelace" "ada@example.com" "555-0100")).
  - reflexivity.
  - simpl. repeat constructor; simpl; intuition discriminate.
  - simpl. tauto.
Defined.

(* ================================================================= *)
(** ** The recent orders *)

Lemma order_with_items_has_row (db : Database) (customer_id : Z) (o : Order) :
  In o (t_orders db) ->
  o_customer_id o = customer_id ->
  product_names db o <> [] ->
  exists row,
    In row
      (map (fun g =>
              let '(i, d, t, s) := fst g in
              mk_order_row i d t s (string_agg (aggregate_rank db) (snd g)))
         (group_by order_key_eqb (fun r => order_key_of (fst (fst r)))
            (filter (fun r => o_customer_id (fst (fst r)) =? customer_id)
               (flat_map (rows_of_order db) (t_orders db)))))
    /\ row_order_id row = o_order_id o
    /\ row_order_date row = order_date o.
Proof.
  intros Ho Hc Hne. unfold product_names in Hne.
  destruct (rows_of_order db o) as [|r rs] eqn:R; [now elim Hne|].
  assert (Hr : In r (rows_of_order db o)) by (rewrite R; now left).
  assert (Hfst := rows_of_order_fst _ _ _ Hr).
  assert (HL : In r (filter (fun r => o_customer_id (fst (fst r)) =? customer_id)
                       (flat_map (rows_of_order db) (t_orders db)))).
  { apply filter_In. split.
    - apply in_flat_map. now exists o.
    - rewrite Hfst. now apply Z.eqb_eq. }
  apply (proj1 (proj2 (group_by_grouped order_key_eqb
                         (fun r => order_key_of (fst (fst r))) order_key_eqb_eq _))) in HL.
  apply in_map_iff in HL as ([k xs] & Hk & Hg). simpl in Hk. rewrite Hfst in Hk.
  exists (mk_order_row (o_order_id o) (order_date o) (total_amount o) (o_status o)
            (string_agg (aggregate_rank db) xs)).
  split; [|split; reflexivity].
  apply in_map_iff. exists (k, xs). split; [|exact Hg].
  subst k. reflexivity.
Qed.

(** With the storage answering, the [recent_orders] of a stored customer
    are listed newest first, and they are the most recent ones: an order of
    the customer that has line items and is not listed is not newer than
    any listed order, and fewer than five are listed only when every such
    order is. *)
Theorem recent_orders_newest_first :
  forall (env : Environ) (cs : string) (w : World) (customer_id : Z),
    healthy w ->
    customer_exists (storage w) customer_id = true ->
    exists customer_context rows,
      fst (PostgreSQLAdapter.get_customer_context cs customer_id w)
      = Return (Some customer_context)
      /\ fst (SQLDatabaseAdapter.get_customer_context cs customer_id w)
         = Return (Some customer_context)
      /\ fst (SqlApp.get_customer_context env customer_id w)
         = Return (Some customer_context)
      /\ recent_orders customer_context = map summary_of_row rows
      /\ StronglySorted
           (fun a b => instant (row_order_date b) <= instant (row_order_date a)) rows
      /\ (forall o,
             In o (t_orders (storage w)) ->
             o_customer_id o = customer_id ->
             product_names (storage w) o <> [] ->
             (exists row, In row rows /\ row_order_id row = o_order_id o)
             \/ (List.length rows = 5%nat
                 /\ forall row, In row rows ->
                                instant (order_date o) <= instant (row_order_date row))).
Proof.
  intros env cs w customer_id H Hc.
  destruct (get_customer_context_known env cs w customer_id H Hc)
    as (id & f & l & e & p & grows & rest & G & Hpg & Hsql & Happ).
  eexists. exists (select_recent_orders (storage w) customer_id).
  split; [exact Hpg|]. split; [exact Hsql|]. split; [exact Happ|].
  split; [reflexivity|].
  unfold select_recent_orders, limit_rows. change (Z.to_nat 5) with 5%nat.
  set (sorted := order_by_desc _ _).
  assert (Hs : StronglySorted
                 (fun a b => instant (row_order_date b) <= instant (row_order_date a))
                 (firstn 5 sorted ++ skipn 5 sorted)).
  { rewrite firstn_skipn. apply order_by_desc_sorted. }
  apply sorted_app_inv in Hs as (Hfirst & _ & Hcross).
  split; [exact Hfirst|].
  intros o Ho Hcust Hitems.
  destruct (order_with_items_has_row _ _ _ Ho Hcust Hitems) as (row & Hrow & Hid & Hdate).
  apply (Permutation_in _ (Permutation_sym (order_by_desc_perm
           (fun r => instant (row_order_date r)) _))) in Hrow.
  fold sorted in Hrow. rewrite <- (firstn_skipn 5 sorted) in Hrow.
  apply in_app_or in Hrow as [Hrow|Hrow].
  - left. now exists row.
  - right. split.
    + rewrite length_firstn. apply Nat.min_l.
      destruct (Nat.le_gt_cases 5 (List.length sorted)) as [Hle|Hgt]; [exact Hle|].
      rewrite skipn_all2 in Hrow by lia. contradiction.
    + intros row' Hrow'. rewrite <- Hdate. now apply Hcross.
Qed.

Lemma recent_orders_newest_first_witness :
  exists customer_context rows,
    fst (PostgreSQLAdapter.get_customer_context "dsn" 42 (Sample.world Sample.shop))
    = Return (Some customer_context)
    /\ fst (SQLDatabaseAdapter.get_customer_context "dsn" 42 (Sample.world Sample.shop))
       = Return (Some customer_context)
    /\ fst (SqlApp.get_customer_context Sample.env 42 (Sample.world Sample.shop))
       = Return (Some customer_context)
    /\ recent_orders customer_context = map summary_of_row rows
    /\ StronglySorted
         (fun a b => instant (row_order_date b) <= instant (row_order_date a)) rows
    /\ (forall o,
           In o (t_orders Sample.shop) ->
           o_customer_id o = 42 ->
           product_names Sample.shop o <> [] ->
           (exists row, In row rows /\ row_order_id row = o_order_id o)
           \/ (List.length rows = 5%nat
               /\ forall row, In row rows ->
                              instant (order_date o) <= instant (row_order_date row))).
Proof.
  apply (recent_orders_newest_first Sample.env "dsn" (Sample.world Sample.shop) 42);
    reflexivity.
Defined.

(* ================================================================= *)
(** ** The adapters under any behaviour of the driver *)

(** Whatever the driver does, an operation of [PostgreSQLAdapter] that
    raises has printed exactly one line, its own prefix followed by the
    text of the exception it re-raises, and one that returns has printed
    nothing; the operations of [SQLDatabaseAdapter] never print. *)
Theorem postgresql_adapter_logs_failures :
  forall (cs : string) (w : World) (customer_id limit : Z)
         (user_message ai_response : string),
    logged "PostgreSQL Error storing conversation: " w
      (PostgreSQLAdapter.store_conversation cs customer_id user_message ai_response w)
    /\ logged "PostgreSQL Error retrieving history: " w
         (PostgreSQLAdapter.get_conversation_history cs customer_id limit w)
    /\ logged "PostgreSQL Error retrieving customer context: " w
         (PostgreSQLAdapter.get_customer_context cs customer_id w)
    /\ stdout (snd (SQLDatabaseAdapter.store_conversation cs customer_id
                      user_message ai_response w)) = stdout w
    /\ stdout (snd (SQLDatabaseAdapter.get_conversation_history cs customer_id limit w))
       = stdout w
    /\ stdout (snd (SQLDatabaseAdapter.get_customer_context cs customer_id w)) = stdout w.
Proof.
  intros cs w customer_id limit user_message ai_response.
  unfold logged, SQLDatabaseAdapter.get_conversation_history,
    SQLDatabaseAdapter.get_customer_context, SQLDatabaseAdapter.store_conversation,
    PostgreSQLAdapter.get_conversation_history, PostgreSQLAdapter.get_customer_context,
    PostgreSQLAdapter.store_conversation, tsql_fetch_history, tsql_fetch_context,
    with_connection, try_except, bind, connect, close, print, commit, ret, raise,
    execute_select, execute_history, execute_insert, driver_call.
  three_driver_calls w;
    cbn -[select_customer_coalesce select_customer_sum select_recent_orders select_history];
    destruct (limit <? 0);
    destruct (fetchone (select_customer_coalesce db customer_id));
    destruct (fetchone (select_customer_sum db customer_id));
    cbn -[select_recent_orders select_history]; repeat split; reflexivity.
Qed.

(* ================================================================= *)
(** ** The customers route *)


(* ================================================================= *)
(** ** What the system message shows *)

Lemma string_app_assoc (a b c : string) : (a ++ b) ++ c = a ++ b ++ c.
Proof. induction a as [|x a IH]; simpl; [reflexivity | now rewrite IH]. Qed.

Lemma string_app_nil_r (a : string) : a ++ EmptyString = a.
Proof. induction a as [|x a IH]; simpl; [reflexivity | now rewrite IH]. Qed.

Lemma prefix_app (s t : string) : String.prefix s (s ++ t) = true.
Proof.
  induction s as [|c s IH]; simpl; [now destruct t|].
  destruct (ascii_dec c c) as [_|N]; [exact IH | now elim N].
Qed.

Lemma prefix_app_l (s a b : string) :
  String.prefix s a = true -> String.prefix s (a ++ b) = true.
Proof.
  revert a. induction s as [|c s IH]; intros a H.
  - now destruct (a ++ b).
  - destruct a as [|c' a]; [discriminate|]. simpl in *.
    destruct (ascii_dec c c'); [now apply IH | discriminate].
Qed.

Lemma contains_of_prefix (h n : string) :
  String.prefix n h = true -> contains h n = true.
Proof. destruct h; simpl; intros ->; reflexivity. Qed.

Lemma contains_head (s t : string) : contains (s ++ t) s = true.
Proof. apply contains_of_prefix, prefix_app. Qed.

Lemma contains_app_r (a b s : string) :
  contains b s = true -> contains (a ++ b) s = true.
Proof.
  intros H. induction a as [|c a IH]; [exact H|].
  change (contains (String c (a ++ b)) s = true). simpl.
  rewrite IH. apply orb_true_r.
Qed.

Lemma contains_app_l (a b s : string) :
  contains a s = true -> contains (a ++ b) s = true.
Proof.
  induction a as [|c a IH]; intros H.
  - simpl in H. rewrite orb_false_r in H.
    apply contains_of_prefix. now apply (prefix_app_l s EmptyString b).
  - change (contains (String c (a ++ b)) s = true).
    simpl in H |- *. apply orb_true_iff in H as [H|H].
    + apply (prefix_app_l s (String c a) b) in H. simpl in H. now rewrite H.
    + rewrite (IH H). apply orb_true_r.
Qed.

Lemma contains_join (sep x : string) (l : list string) :
  In x l -> contains (join sep l) x = true.
Proof.
  unfold join. induction l as [|a l IH]; [contradiction|].
  intros [->|Hin].
  - destruct l as [|b l]; simpl.
    + rewrite <- (string_app_nil_r x) at 1. apply contains_head.
    + apply contains_head.
  - destruct l as [|b l]; [contradiction|].
    change (String.concat sep (a :: b :: l)) with (a ++ sep ++ String.concat sep (b :: l)).
    do 2 apply contains_app_r. now apply IH.
Qed.

(** In both applications the system message sent to the model shows the
    customer's name, e-mail and phone, and one line for every recent
    order; that line shows the order's products, status and date. *)
Theorem system_message_shows_customer_and_orders :
  forall (customer_context : CustomerContext),
    let pg := PgApp.system_message customer_context in
    let sql := SqlApp.system_prompt customer_context in
    contains pg (name customer_context) = true
    /\ contains pg (email customer_context) = true
    /\ contains pg (phone customer_context) = true
    /\ contains sql (name customer_context) = true
    /\ contains sql (email customer_context) = true
    /\ contains sql (phone customer_context) = true
    /\ forall order,
        In order (recent_orders customer_context) ->
        contains pg (PgApp.order_line order) = true
        /\ contains sql (SqlApp.order_line order) = true
        /\ contains (PgApp.order_line order) (products order) = true
        /\ contains (PgApp.order_line order) (status order) = true
        /\ contains (PgApp.order_line order) (date order) = true
        /\ contains (SqlApp.order_line order) (products order) = true
        /\ contains (SqlApp.order_line order) (status order) = true
        /\ contains (SqlApp.order_line order) (date order) = true.
Proof.
  intros customer_context. cbv zeta.
  unfold PgApp.system_message, SqlApp.system_prompt.
  repeat match goal with |- _ /\ _ => split end.
  1-6: find_piece_by contains_head contains_app_r.
  intros order Hin.
  assert (Hpg : contains (join nl (map PgApp.order_line (recent_orders customer_context)))
                  (PgApp.order_line order) = true)
    by (apply contains_join; now apply in_map).
  assert (Hsql : contains (join nl (map SqlApp.order_line (recent_orders customer_context)))
                   (SqlApp.order_line order) = true)
    by (apply contains_join; now apply in_map).
  repeat match goal with |- _ /\ _ => split end.
  - find_piece_with_by contains_app_l contains_app_r Hpg.
  - find_piece_with_by contains_app_l contains_app_r Hsql.
  - unfold PgApp.order_line. find_piece_by contains_head contains_app_r.
  - unfold PgApp.order_line. find_piece_by contains_head contains_app_r.
  - unfold PgApp.order_line. find_piece_by contains_head contains_app_r.
  - unfold SqlApp.order_line. find_piece_by contains_head contains_app_r.
  - unfold SqlApp.order_line. find_piece_by contains_head contains_app_r.
  - unfold SqlApp.order_line. find_piece_by contains_head contains_app_r.
Qed.

Lemma system_message_shows_customer_and_orders_witness :
  let order := mk_order_summary 1 "2024-05-17" 10000 "shipped" "Widget, Gadget" in
  let customer_context :=
    mk_context "Ada Lovelace" "ada@example.com" "555-0100" 2 15000 [order] in
  contains (PgApp.system_message customer_context) (PgApp.order_line order) = true
  /\ contains (SqlApp.system_prompt customer_context) (SqlApp.order_line order) = true
  /\ contains (PgApp.order_line order) (products order) = true
  /\ contains (PgApp.order_line order) (status order) = true
  /\ contains (PgApp.order_line order) (date order) = true
  /\ contains (SqlApp.order_line order) (products order) = true
  /\ contains (SqlApp.order_line order) (status order) = true
  /\ contains (SqlApp.order_line order) (date order) = true.
Proof.
  intros order customer_context.
  apply (system_message_shows_customer_and_orders customer_context).
  left. reflexivity.
Defined.

(* ================================================================= *)
(** ** Connections that are closed, connections that are kept *)



(* ================================================================= *)
(** ** Requests one after another *)

(** The connection string of the backend [DB_TYPE] selects, and whether
    its adapter keeps the connections it opens. *)
Lemma pg_app_run_any (env : Environ) (llm : Model) (customer_id : Z)
      (user_message : string) (w : World) :
  healthy w ->
  implemented_backend env = true ->
  customer_exists (storage w) customer_id = true ->
  exists cs kept customer_context,
    ((cs = sql_connection_string env /\ kept = true)
     \/ (cs = postgres_connection_string env /\ kept = false))
    /\ fst (PostgreSQLAdapter.get_customer_context cs customer_id w)
       = Return (Some customer_context)
    /\ PgApp.generate_ai_response env llm customer_id user_message w
       = let messages :=
           l_messages
             (PgApp.build_messages
                (mk_locals customer_context
                   (map turn_of_row (rev (select_history (storage w) customer_id 5)))
                   user_message [])) in
         let w' :=
           after_model_call messages
             (kept_if kept (after_connection cs (kept_if kept (after_connection cs w)))) in
         match llm messages with
         | Raise e => (Raise e, w')
         | Return ai_response =>
             (Return ai_response,
              kept_if kept (after_insert cs customer_id user_message ai_response w'))
         end.
Proof.
  intros H Hb Hc.
  destruct (get_customer_context_known env "dsn" w customer_id H Hc)
    as (id & f & l & e & p & rows & rest & G & _).
  destruct (implemented_backend_cases env Hb) as [Hl|Hl].
  - exists (sql_connection_string env), true. eexists. split; [left; now split|].
    rewrite pg_get_customer_context_healthy by assumption.
    rewrite (pg_app_run_sql env llm customer_id user_message w H Hl).
    unfold select_customer_coalesce, select_customer_sum. rewrite G.
    cbn [map fetchone hd_error fst snd]. unfold context_of_rows.
    cbn [agg_first_name agg_last_name agg_email agg_phone agg_total_orders agg_total_spent].
    rewrite float_or_zero_coalesce. split; reflexivity.
  - exists (postgres_connection_string env), false. eexists. split; [right; now split|].
    rewrite pg_get_customer_context_healthy by assumption.
    rewrite (pg_app_run_postgresql env llm customer_id user_message w H Hl).
    unfold select_customer_coalesce. rewrite G.
    cbn [map fetchone hd_error fst snd]. split; reflexivity.
Qed.



Lemma context_statements_ignore_history (db : Database) (other customer_id : Z)
      (um ar : string) :
  select_customer_sum (insert_conversation db other um ar) customer_id
  = select_customer_sum db customer_id
  /\ select_customer_coalesce (insert_conversation db other um ar) customer_id
     = select_customer_coalesce db customer_id
  /\ select_recent_orders (insert_conversation db other um ar) customer_id
     = select_recent_orders db customer_id
  /\ customer_exists (insert_conversation db other um ar) customer_id
     = customer_exists db customer_id.
Proof. repeat split; reflexivity. Qed.

Lemma prompt_after_exchange (system : string) (customer_context : CustomerContext)
      (db : Database) (customer_id : Z) (m1 reply m2 : string) :
  (forall r, In r (history_of db customer_id) -> stamp r < instant (now db)) ->
  l_messages
    (assemble system
       (mk_locals customer_context
          (map turn_of_row
             (rev (select_history (insert_conversation db customer_id m1 reply)
                     customer_id 5)))
          m2 []))
  = mk_message "system" system
      :: (history_messages
            (map turn_of_row (reversed (select_history db customer_id 4))
               ++ [mk_turn m1 reply (strftime_datetime (now db))])
            ++ [mk_message "user" m2])%list.
Proof.
  intros Hnew. rewrite (proj1 (assemble_messages _ _)).
  cbn [l_conversation_history l_user_message].
  rewrite (select_history_after_insert db customer_id 5 m1 reply) by (lia || exact Hnew).
  change (5 - 1) with 4. simpl rev. rewrite map_app. reflexivity.
Qed.

(** The next prompt remembers the exchange.  With the storage answering,
    an implemented backend selected and the server's clock past the
    customer's stored timestamps: when a first request was answered 200
    with a reply, the message list the next request of the same customer
    sends to the model is the system message, the four most recent turns
    stored before, oldest first, then the first request's message and its
    reply, then the new message. *)
Theorem next_prompt_remembers_exchange :
  forall (env : Environ) (llm : Model) (w : World) (customer_id : Z)
         (m1 m2 reply : string),
    healthy w ->
    implemented_backend env = true ->
    customer_exists (storage w) customer_id = true ->
    customer_id <> 0 ->
    m1 <> EmptyString ->
    m2 <> EmptyString ->
    (forall r, In r (history_of (storage w) customer_id) ->
               stamp r < instant (now (storage w))) ->
    let remembered (system : string) :=
      mk_message "system" system
        :: (history_messages
              (map turn_of_row (reversed (select_history (storage w) customer_id 4))
                 ++ [mk_turn m1 reply (strftime_datetime (now (storage w)))])
              ++ [mk_message "user" m2])%list in
    (forall w1,
        PgApp.chat env llm (mk_request (Some customer_id) (Some m1)) w
        = (Return (JsonResponse reply, 200), w1) ->
        exists customer_context,
          last (model_calls
                  (snd (PgApp.chat env llm (mk_request (Some customer_id) (Some m2)) w1)))
            []
          = remembered (PgApp.system_message customer_context))
    /\ (forall w1,
           SqlApp.chat env llm (mk_request (Some customer_id) (Some m1)) w
           = (Return (JsonResponse reply, 200), w1) ->
           exists customer,
             last (model_calls
                     (snd (SqlApp.chat env llm (mk_request (Some customer_id) (Some m2)) w1)))
               []
             = remembered (SqlApp.system_prompt customer)).
Proof.
  intros env llm w customer_id m1 m2 reply H Hb Hc Hid Hm1 Hm2 Hnew. cbv zeta.
  unfold PgApp.chat, SqlApp.chat. rewrite !chat_route_outcome by assumption.
  split; intros w1 Hfirst.
  - destruct (pg_app_run_any env llm customer_id m1 w H Hb Hc)
      as (cs & kept & context1 & _ & _ & E1). rewrite E1 in Hfirst. cbv zeta in Hfirst.
    destruct (llm _) as [r|e]; [|discriminate].
    inversion Hfirst; subst r w1. clear Hfirst E1.
    rewrite chat_route_outcome by assumption.
    destruct kept; cbn [kept_if];
      match goal with
      | |- context [PgApp.generate_ai_response env llm customer_id m2 ?w1] =>
          destruct (pg_app_run_any env llm customer_id m2 w1 H Hb Hc)
            as (cs2 & kept2 & context2 & _ & _ & ->)
      end;
      cbv zeta; cbn [storage after_insert after_model_call after_connection held];
      exists context2;
      rewrite <- (prompt_after_exchange (PgApp.system_message context2) context2
                    (storage w) customer_id m1 reply m2 Hnew);
      unfold PgApp.build_messages; cbn [l_customer_context];
      destruct (llm _), kept2;
      cbn [snd fst model_calls after_insert after_model_call kept_if held];
      apply last_last.
  - rewrite (sql_app_run env llm customer_id m1 w H) in Hfirst. cbv zeta in Hfirst.
    destruct (select_customer_known _ _ Hc) as (_ & (csql & Esql)).
    rewrite Esql in Hfirst.
    destruct (llm _) as [r|e]; [|discriminate].
    inversion Hfirst; subst r w1. clear Hfirst.
    rewrite chat_route_outcome by assumption.
    rewrite sql_app_run by exact H. cbv zeta.
    cbn [storage after_insert after_model_call after_connection held].
    rewrite (proj1 (context_statements_ignore_history _ _ _ _ _)), Esql.
    set (customer := context_of_rows float_or_zero csql _). exists customer.
    rewrite <- (prompt_after_exchange (SqlApp.system_prompt customer) customer
                  (storage w) customer_id m1 reply m2 Hnew).
    unfold SqlApp.build_messages. cbn [l_customer_context].
    destruct (llm _); cbn [snd fst model_calls after_insert after_model_call held];
      apply last_last.
Qed.

Lemma next_prompt_remembers_exchange_witness :
  let w := Sample.world Sample.shop in
  let w1 := snd (SqlApp.chat Sample.env Sample.llm
                   (mk_request (Some 42) (Some "Where is my order?")) w) in
  exists customer,
    last (model_calls
            (snd (SqlApp.chat Sample.env Sample.llm
                    (mk_request (Some 42) (Some "And when?")) w1)))
      []
    = mk_message "system" (SqlApp.system_prompt customer)
        :: (history_messages
              (map turn_of_row (reversed (select_history (storage w) 42 4))
                 ++ [mk_turn "Where is my order?" "Your order is on its way."
                       (strftime_datetime (now (storage w)))])
              ++ [mk_message "user" "And when?"])%list.
Proof.
  intros w w1.
  assert (Hnew : forall r, In r (history_of (storage w) 42) ->
                           stamp r < instant (now (storage w))).
  { simpl. intros r Hr.
    repeat (destruct Hr as [<-|Hr]; [vm_compute; reflexivity|]). contradiction. }
  assert (Hfirst : SqlApp.chat Sample.env Sample.llm
                     (mk_request (Some 42) (Some "Where is my order?")) w
                   = (Return (JsonResponse "Your order is on its way.", 200), w1)).
  { subst w1. rewrite (surjective_pairing (SqlApp.chat _ _ _ w)) at 1.
    f_equal. }
  exact (proj2 (next_prompt_remembers_exchange Sample.env Sample.llm w 42
                  "Where is my order?" "And when?" "Your order is on its way."
                  eq_refl eq_refl eq_refl
                  ltac:(discriminate) ltac:(discriminate) ltac:(discriminate) Hnew)
           w1 Hfirst).
Defined.
